(** * Advanced character controller: a shallow embedding and its properties

    The development follows [src/render/controllers/character-controller.ts],
    [src/render/controllers/utils/math.ts] and the physics glue
    ([addPhysics]).  JavaScript numbers are idealised as real numbers:
    rounding, NaN and infinities are outside the model.  The rendering
    engine and the physics world are external collaborators; what the
    controller asks of them (ray casts, collider translation, [lookAt])
    enters as Section variables. *)

From Stdlib Require Import Reals Lra List Bool Ascii String ZArith.
From stdpp Require Import base gmap strings.
Import ListNotations.

Local Open Scope R_scope.

(** ** utils/math.ts *)

Module MathUtils.

(** [lerp = (x, y, a) => x * (1 - a) + y * a] *)
Definition lerp (x y a : R) : R := x * (1 - a) + y * a.

(** [Math.pow(2, e)] on reals. *)
Definition pow2 (e : R) : R := Rpower 2 e.

(** [easeOutExpo = x => x === 1 ? 1 : 1 - Math.pow(2, -10 * x)] *)
Definition easeOutExpo (x : R) : R :=
  if Req_dec_T x 1 then 1 else 1 - pow2 (-10 * x).

(** [EaseOutCirc = x => Math.sqrt(1.0 - Math.pow(x - 1.0, 2.0))] *)
Definition EaseOutCirc (x : R) : R := sqrt (1 - (x - 1) ^ 2).

(** [UpDownCirc = x => Math.sin(EaseOutCirc(x) * Math.PI)] *)
Definition UpDownCirc (x : R) : R := sin (EaseOutCirc x * PI).

(** [clamp = (x, a, b) => Math.min(Math.max(x, a), b)] *)
Definition clamp (x a b : R) : R := Rmin (Rmax x a) b.

End MathUtils.


(** ** The parts of three.js the controller calls

    [THREE.Vector3] and [THREE.Quaternion] belong to the rendering library,
    not to this repository; the methods below are the ones the controller
    invokes, written out as three.js defines them. *)

Module Three.

Record Vector3 : Type := mkVector3 { x : R; y : R; z : R }.

Record Quaternion : Type := mkQuaternion { qx : R; qy : R; qz : R; qw : R }.

(** [v.add(w)] *)
Definition add (v w : Vector3) : Vector3 :=
  mkVector3 (x v + x w) (y v + y w) (z v + z w).

(** [v.multiplyScalar(s)] *)
Definition multiplyScalar (v : Vector3) (s : R) : Vector3 :=
  mkVector3 (x v * s) (y v * s) (z v * s).

(** [v.length()] *)
Definition length (v : Vector3) : R :=
  sqrt (x v * x v + y v * y v + z v * z v).

(** [v.normalize()] is [v.divideScalar(v.length() || 1)]. *)
Definition normalize (v : Vector3) : Vector3 :=
  let l := length v in
  multiplyScalar v (1 / (if Req_dec_T l 0 then 1 else l)).

(** [p.y += d] on a vector. *)
Definition add_y (v : Vector3) (d : R) : Vector3 :=
  mkVector3 (x v) (y v + d) (z v).

(** [p.y = h] on a vector. *)
Definition set_y (v : Vector3) (h : R) : Vector3 :=
  mkVector3 (x v) h (z v).

(** [q.setFromAxisAngle(axis, angle)], the axis assumed normalised. *)
Definition setFromAxisAngle (axis : Vector3) (angle : R) : Quaternion :=
  let halfAngle := angle / 2 in
  let s := sin halfAngle in
  mkQuaternion (x axis * s) (y axis * s) (z axis * s) (cos halfAngle).

(** [a.multiply(b)], that is [multiplyQuaternions(a, b)]. *)
Definition multiply (a b : Quaternion) : Quaternion :=
  mkQuaternion
    (qx a * qw b + qw a * qx b + qy a * qz b - qz a * qy b)
    (qy a * qw b + qw a * qy b + qz a * qx b - qx a * qz b)
    (qz a * qw b + qw a * qz b + qx a * qy b - qy a * qx b)
    (qw a * qw b - qx a * qx b - qy a * qy b - qz a * qz b).

(** [v.applyQuaternion(q)]: the product q * v * conj(q). *)
Definition applyQuaternion (v : Vector3) (q : Quaternion) : Vector3 :=
  let ix := qw q * x v + qy q * z v - qz q * y v in
  let iy := qw q * y v + qz q * x v - qx q * z v in
  let iz := qw q * z v + qx q * y v - qy q * x v in
  let iw := - qx q * x v - qy q * y v - qz q * z v in
  mkVector3
    (ix * qw q + iw * - qx q + iy * - qz q - iz * - qy q)
    (iy * qw q + iw * - qy q + iz * - qx q - ix * - qz q)
    (iz * qw q + iw * - qz q + ix * - qy q - iy * - qx q).

End Three.

Abbreviation Vector3 := Three.Vector3.
Abbreviation Quaternion := Three.Quaternion.
Abbreviation mkVector3 := Three.mkVector3.

(** ** Constants of character-controller.ts and physics/utils/constants.ts *)

Definition HALF_PI : R := PI / 2.

Definition FORWARD : Vector3 := mkVector3 0 0 (-1).
Definition LEFT : Vector3 := mkVector3 (-1) 0 0.
Definition UP : Vector3 := mkVector3 0 1 0.
Definition RIGHT : Vector3 := mkVector3 1 0 0.
Definition DOWN : Vector3 := mkVector3 0 (-1) 0.

Definition MIN_ZOOM_LEVEL : R := 0.001.
Definition MAX_ZOOM_LEVEL : R := 20.
Definition SCROLL_LEVEL_STEP : R := 1.5.
Definition SCROLL_ANIMATION_SPEED : R := 2.

Definition JUMP_DURATION : R := 0.5.
Definition JUMP_AMPLITUDE : R := 0.5.

Definition GRAVITY : Vector3 := mkVector3 0 (-9.81) 0.

Definition ONE (_ : unit) : R := 1.
Definition FIVE (_ : unit) : R := 5.
Definition ZERO (_ : unit) : R := 0.

(** The [KEYS] enum: the key codes of the movement controls. *)
Module KEYS.
Definition a : string := "KeyA".
Definition s : string := "KeyS".
Definition w : string := "KeyW".
Definition d : string := "KeyD".
Definition space : string := "Space".
Definition shiftL : string := "ShiftLeft".
Definition shiftR : string := "ShiftRight".
End KEYS.

(** Comparisons of numbers as booleans. *)
Definition Rltb (a b : R) : bool := if Rlt_dec a b then true else false.
Definition Rleb (a b : R) : bool := if Rle_dec a b then true else false.
Definition Reqb (a b : R) : bool := if Req_dec_T a b then true else false.

(** ** InputManager *)

Module InputManager.

Record MouseState : Type := mkMouseState {
  leftButton : bool;
  rightButton : bool;
  mouseXDelta : R;
  mouseYDelta : R;
  mouseWheelDelta : R
}.

Record t : Type := mkInputManager {
  currentMouse : MouseState;
  currentKeys : gmap string bool;
  pointerLocked : bool
}.

(** The state the constructor leaves (the listeners it registers are the
    event functions below). *)
Definition constructor : t :=
  mkInputManager (mkMouseState false false 0 0 0) ∅ false.

Definition set_mouse (im : t) (m : MouseState) : t :=
  mkInputManager m (currentKeys im) (pointerLocked im).

Definition set_wheel (m : MouseState) (v : R) : MouseState :=
  mkMouseState (leftButton m) (rightButton m) (mouseXDelta m) (mouseYDelta m) v.

Definition set_deltas (m : MouseState) (dx dy : R) : MouseState :=
  mkMouseState (leftButton m) (rightButton m) dx dy (mouseWheelDelta m).

Definition set_leftButton (m : MouseState) (b : bool) : MouseState :=
  mkMouseState b (rightButton m) (mouseXDelta m) (mouseYDelta m) (mouseWheelDelta m).

Definition set_rightButton (m : MouseState) (b : bool) : MouseState :=
  mkMouseState (leftButton m) b (mouseXDelta m) (mouseYDelta m) (mouseWheelDelta m).

(** The [pointerlockchange] listener. *)
Definition setPointerLocked (im : t) (locked : bool) : t :=
  mkInputManager (currentMouse im) (currentKeys im) locked.

(** [onMouseWheel(e)], from [e.deltaY]. *)
Definition onMouseWheel (im : t) (deltaY : R) : t :=
  if pointerLocked im then
    if Rltb deltaY 0 then
      set_mouse im (set_wheel (currentMouse im)
        (Rmax (mouseWheelDelta (currentMouse im) - SCROLL_LEVEL_STEP) MIN_ZOOM_LEVEL))
    else if Rltb 0 deltaY then
      set_mouse im (set_wheel (currentMouse im)
        (Rmin (mouseWheelDelta (currentMouse im) + SCROLL_LEVEL_STEP) MAX_ZOOM_LEVEL))
    else im
  else im.

(** [onMouseMove(e)], from [e.movementX] and [e.movementY]. *)
Definition onMouseMove (im : t) (movementX movementY : R) : t :=
  if pointerLocked im then
    set_mouse im (set_deltas (currentMouse im) movementX movementY)
  else im.

(** [onMouseDown(e)]; [button] is [e.button]. *)
Definition onMouseDown (im : t) (movementX movementY : R) (button : Z) : t :=
  if pointerLocked im then
    let im1 := onMouseMove im movementX movementY in
    if Z.eqb button 0 then set_mouse im1 (set_leftButton (currentMouse im1) true)
    else if Z.eqb button 2 then set_mouse im1 (set_rightButton (currentMouse im1) true)
    else im1
  else im.

(** [onMouseUp(e)]. *)
Definition onMouseUp (im : t) (movementX movementY : R) (button : Z) : t :=
  if pointerLocked im then
    let im1 := onMouseMove im movementX movementY in
    if Z.eqb button 0 then set_mouse im1 (set_leftButton (currentMouse im1) false)
    else if Z.eqb button 2 then set_mouse im1 (set_rightButton (currentMouse im1) false)
    else im1
  else im.

(** [onKeyDown(e)] and [onKeyUp(e)], from [e.code]. *)
Definition onKeyDown (im : t) (code : string) : t :=
  if pointerLocked im then
    mkInputManager (currentMouse im) (<[code := true]> (currentKeys im)) (pointerLocked im)
  else im.

Definition onKeyUp (im : t) (code : string) : t :=
  if pointerLocked im then
    mkInputManager (currentMouse im) (<[code := false]> (currentKeys im)) (pointerLocked im)
  else im.

(** [isKeyDown(keyCode)] *)
Definition isKeyDown (im : t) (keyCode : string) : bool :=
  if pointerLocked im then
    match currentKeys im !! keyCode with
    | Some true => true
    | _ => false
    end
  else false.

(** [update()]: the per-frame reset of the mouse deltas. *)
Definition update (im : t) : t :=
  set_mouse im (set_deltas (currentMouse im) 0 0).

(** [runActionByKey(key, action, inAction)]; every call site of the
    controller passes [inAction]. *)
Definition runActionByKey {A : Type} (im : t) (key : string)
    (action inAction : unit -> A) : A :=
  if isKeyDown im key then action tt else inAction tt.

(** The loop of [runActionByOneKey]: stop at the first pressed key. *)
Fixpoint checkOneKey (im : t) (keys : list string) : bool :=
  match keys with
  | [] => false
  | key :: rest => if isKeyDown im key then true else checkOneKey im rest
  end.

Definition runActionByOneKey {A : Type} (im : t) (keys : list string)
    (action inAction : unit -> A) : A :=
  if checkOneKey im keys then action tt else inAction tt.

(** The loop of [runActionByAllKeys]: stop at the first key not pressed. *)
Fixpoint checkAllKeys (im : t) (keys : list string) : bool :=
  match keys with
  | [] => true
  | key :: rest => if isKeyDown im key then checkAllKeys im rest else false
  end.

Definition runActionByAllKeys {A : Type} (im : t) (keys : list string)
    (action inAction : unit -> A) : A :=
  if checkAllKeys im keys then action tt else inAction tt.

(** The events the manager reacts to, and their dispatch. *)
Inductive Event : Type :=
| Wheel (deltaY : R)
| MouseMove (movementX movementY : R)
| MouseDown (movementX movementY : R) (button : Z)
| MouseUp (movementX movementY : R) (button : Z)
| KeyDown (code : string)
| KeyUp (code : string)
| PointerLockChange (locked : bool).

Definition handle (im : t) (e : Event) : t :=
  match e with
  | Wheel dy => onMouseWheel im dy
  | MouseMove mx my => onMouseMove im mx my
  | MouseDown mx my b => onMouseDown im mx my b
  | MouseUp mx my b => onMouseUp im mx my b
  | KeyDown c => onKeyDown im c
  | KeyUp c => onKeyUp im c
  | PointerLockChange l => setPointerLocked im l
  end.

Definition run (im : t) (es : list Event) : t := fold_left handle es im.

End InputManager.

(** ** HeadBobController *)

(** The remainder [a % b] of JavaScript: the quotient is truncated towards
    zero, so the result has the sign of the dividend. *)
Definition Rtrunc (q : R) : R :=
  if Rle_dec 0 q then IZR (Int_part q) else - IZR (Int_part (- q)).

Definition js_rem (a b : R) : R := a - b * Rtrunc (a / b).

Module HeadBobController.

Record t : Type := mkHeadBobController {
  headBobTimer : R;
  headBobAmount : R;
  lastHeadBobDiff : R;
  headBobActive : bool
}.

Definition constructor : t := mkHeadBobController 0 0 0 false.

Definition HEAD_BOB_DURATION : R := 0.1.
Definition HEAD_BOB_FREQUENCY : R := 0.8.
Definition HEAD_BOB_AMPLITUDE : R := 0.3.

(** [getHeadBob(timeDiff, isMoving)]: the new state and the returned
    offset. *)
Definition getHeadBob (hb : t) (timeDiff : R) (isMoving : bool) : t * R :=
  let active := if headBobActive hb then true else isMoving in
  if active then
    let STEP := PI in
    let currentAmount :=
      headBobTimer hb * HEAD_BOB_FREQUENCY * (1 / HEAD_BOB_DURATION) in
    let headBobDiff := js_rem currentAmount STEP in
    let amount := sin currentAmount * HEAD_BOB_AMPLITUDE in
    let active' :=
      if Rltb headBobDiff (lastHeadBobDiff hb) then false else active in
    (mkHeadBobController (headBobTimer hb + timeDiff) amount headBobDiff active',
     amount)
  else
    (mkHeadBobController (headBobTimer hb) (headBobAmount hb)
       (lastHeadBobDiff hb) active,
     headBobAmount hb).

End HeadBobController.

(** ** ZoomController *)

Module ZoomController.

Record t : Type := mkZoomController {
  zoom : R;
  lastZoomLevel : R;
  startZoomAnimation : R;
  isAnimating : bool;
  startingZoom : R
}.

Definition constructor : t :=
  mkZoomController MIN_ZOOM_LEVEL 0 0 false 0.

(** [update(zoomLevel, timestamp, timeDiff)] *)
Definition update (zc : t) (zoomLevel timestamp timeDiff : R) : t :=
  let time := timestamp * SCROLL_ANIMATION_SPEED in
  let zlClamped := MathUtils.clamp zoomLevel MIN_ZOOM_LEVEL MAX_ZOOM_LEVEL in
  let zoomLevelHasChanged := negb (Reqb (lastZoomLevel zc) zoomLevel) in
  (* a changed target restarts the animation *)
  let zc1 :=
    if zoomLevelHasChanged then
      mkZoomController (zoom zc) (lastZoomLevel zc) time true (zoom zc)
    else zc in
  (* animate towards the target *)
  let zc2 :=
    if isAnimating zc1 then
      let progress := time - startZoomAnimation zc1 in
      let z := MathUtils.lerp (startingZoom zc1) zlClamped
                 (MathUtils.easeOutExpo progress) in
      mkZoomController z (lastZoomLevel zc1) (startZoomAnimation zc1)
        (if Rleb 1 progress then false else isAnimating zc1)
        (startingZoom zc1)
    else zc1 in
  mkZoomController (zoom zc2) zoomLevel (startZoomAnimation zc2)
    (isAnimating zc2) (startingZoom zc2).

(** A run of [update] calls, each with its target, timestamp and frame
    time. *)
Definition run (zc : t) (calls : list (R * R * R)) : t :=
  fold_left (fun st c => update st (fst (fst c)) (snd (fst c)) (snd c)) calls zc.

End ZoomController.

(** ** HeightController *)

Module HeightController.

Record t : Type := mkHeightController {
  height : R;
  lastHeight : R;
  movePerFrame : R;
  lastGroundHeight : R;
  startFallAnimation : R;
  isAnimating : bool;
  grounded : bool;
  jumpFactor : R;
  startJumpAnimation : R
}.

Definition constructor : t :=
  mkHeightController 0 0 0 0 0 false false 0 0.

(** [update(timestamp, timeDiff)] *)
Definition update (hc : t) (timestamp timeDiff : R) : t :=
  (* gravity, only when not grounded *)
  let animating := negb (grounded hc) in
  let hc1 :=
    if animating then
      let t := timestamp - startFallAnimation hc in
      let h := 0.5 * Three.y GRAVITY * t * t in
      mkHeightController h (lastHeight hc) (h - lastHeight hc)
        (lastGroundHeight hc) (startFallAnimation hc) animating
        (grounded hc) (jumpFactor hc) (startJumpAnimation hc)
    else
      mkHeightController 0 0 0
        (lastGroundHeight hc) timestamp animating
        (grounded hc) (jumpFactor hc) (startJumpAnimation hc) in
  (* the jump, separate from gravity *)
  let jt := timestamp - startJumpAnimation hc1 in
  let hc2 :=
    if grounded hc1 && Rltb JUMP_DURATION jt then
      mkHeightController (height hc1) (lastHeight hc1) (movePerFrame hc1)
        (lastGroundHeight hc1) (startFallAnimation hc1) (isAnimating hc1)
        (grounded hc1) 0 timestamp
    else
      mkHeightController (height hc1) (lastHeight hc1)
        (movePerFrame hc1 +
           MathUtils.lerp 0 (jumpFactor hc1 * JUMP_AMPLITUDE)
             (MathUtils.UpDownCirc
                (MathUtils.clamp (jt / JUMP_DURATION) 0 1)))
        (lastGroundHeight hc1) (startFallAnimation hc1) (isAnimating hc1)
        (grounded hc1) (jumpFactor hc1) (startJumpAnimation hc1) in
  mkHeightController (height hc2) (height hc2) (movePerFrame hc2)
    (lastGroundHeight hc2) (startFallAnimation hc2) (isAnimating hc2)
    (grounded hc2) (jumpFactor hc2) (startJumpAnimation hc2).

(** [setGrounded(grounded)] *)
Definition setGrounded (hc : t) (g : bool) : t :=
  mkHeightController (height hc) (lastHeight hc) (movePerFrame hc)
    (lastGroundHeight hc) (startFallAnimation hc) (isAnimating hc)
    g (jumpFactor hc) (startJumpAnimation hc).

(** [setJumpFactor(jumpFactor)] *)
Definition setJumpFactor (hc : t) (j : R) : t :=
  mkHeightController (height hc) (lastHeight hc) (movePerFrame hc)
    (lastGroundHeight hc) (startFallAnimation hc) (isAnimating hc)
    (grounded hc) j (startJumpAnimation hc).

(** The assignment [heightController.lastGroundHeight = h] made by the
    ground detection. *)
Definition set_lastGroundHeight (hc : t) (h : R) : t :=
  mkHeightController (height hc) (lastHeight hc) (movePerFrame hc)
    h (startFallAnimation hc) (isAnimating hc)
    (grounded hc) (jumpFactor hc) (startJumpAnimation hc).

End HeightController.

(** ** Module-level scratch objects

    [quaternion_0], [quaternion_1], [vec3_0] and [vec3_1] are shared by all
    methods, and [ray_0] holds references: its origin and direction are
    whichever vector object was last assigned to them, so a later write to
    that vector shows through the ray. *)

Inductive VecRef : Type :=
| ref_vec3_0
| ref_vec3_1
| ref_DOWN
| ref_UP.

Record Ray : Type := mkRay { origin : VecRef; dir : VecRef }.

Record Scratch : Type := mkScratch {
  quaternion_0 : Quaternion;
  quaternion_1 : Quaternion;
  vec3_0 : Vector3;
  vec3_1 : Vector3;
  ray_0 : Ray
}.

Definition deref (sc : Scratch) (r : VecRef) : Vector3 :=
  match r with
  | ref_vec3_0 => vec3_0 sc
  | ref_vec3_1 => vec3_1 sc
  | ref_DOWN => DOWN
  | ref_UP => UP
  end.

(** [ray.pointAt(t)] of the physics library: origin + dir * t, a fresh
    object. *)
Definition pointAt (sc : Scratch) (r : Ray) (t : R) : Vector3 :=
  Three.add (deref sc (origin r)) (Three.multiplyScalar (deref sc (dir r)) t).

Definition set_quaternion_0 (sc : Scratch) (q : Quaternion) : Scratch :=
  mkScratch q (quaternion_1 sc) (vec3_0 sc) (vec3_1 sc) (ray_0 sc).

Definition set_quaternion_1 (sc : Scratch) (q : Quaternion) : Scratch :=
  mkScratch (quaternion_0 sc) q (vec3_0 sc) (vec3_1 sc) (ray_0 sc).

Definition set_vec3_0 (sc : Scratch) (v : Vector3) : Scratch :=
  mkScratch (quaternion_0 sc) (quaternion_1 sc) v (vec3_1 sc) (ray_0 sc).

Definition set_vec3_1 (sc : Scratch) (v : Vector3) : Scratch :=
  mkScratch (quaternion_0 sc) (quaternion_1 sc) (vec3_0 sc) v (ray_0 sc).

Definition set_ray_origin (sc : Scratch) (r : VecRef) : Scratch :=
  mkScratch (quaternion_0 sc) (quaternion_1 sc) (vec3_0 sc) (vec3_1 sc)
    (mkRay r (dir (ray_0 sc))).

Definition set_ray_dir (sc : Scratch) (r : VecRef) : Scratch :=
  mkScratch (quaternion_0 sc) (quaternion_1 sc) (vec3_0 sc) (vec3_1 sc)
    (mkRay (origin (ray_0 sc)) r).

(** The scratch objects once [initPhysics] has run:
    [ray_0 = new RAPIER.Ray(vec3_0, vec3_0)]. *)
Definition initialScratch : Scratch :=
  mkScratch (Three.mkQuaternion 0 0 0 1) (Three.mkQuaternion 0 0 0 1)
    (mkVector3 0 0 0) (mkVector3 0 0 0) (mkRay ref_vec3_0 ref_vec3_0).

(** The query filter of a ray cast: none, or the one of the ground
    detection ([EXCLUDE_DYNAMIC], and the character's own collider and
    rigid body excluded). *)
Inductive QueryFilter : Type :=
| NoFilter
| ExcludeDynamicAndSelf.

(** [useRenderSize()] *)
Record RenderSize : Type := mkRenderSize { width : R; height : R }.

(** ** CharacterController *)

Module Camera.
Record t : Type := mkCamera { position : Vector3; quaternion : Quaternion }.
End Camera.

(** The avatar that owns the controller: the size of its bounding box. *)
Module Avatar.
Record t : Type := mkAvatar { width : R; height : R }.
End Avatar.

Module CharacterController.

Record t : Type := mkCharacterController {
  position : Vector3;
  quaternion : Quaternion;
  camera : Camera.t;
  inputManager : InputManager.t;
  headBobController : HeadBobController.t;
  heightController : HeightController.t;
  phi : R;
  theta : R;
  isMoving2D : bool;
  zoomController : ZoomController.t;
  avatar : Avatar.t
}.

Definition set_position (c : t) (p : Vector3) : t :=
  mkCharacterController p (quaternion c) (camera c) (inputManager c)
    (headBobController c) (heightController c) (phi c) (theta c)
    (isMoving2D c) (zoomController c) (avatar c).

Definition set_quaternion (c : t) (q : Quaternion) : t :=
  mkCharacterController (position c) q (camera c) (inputManager c)
    (headBobController c) (heightController c) (phi c) (theta c)
    (isMoving2D c) (zoomController c) (avatar c).

Definition set_camera (c : t) (cam : Camera.t) : t :=
  mkCharacterController (position c) (quaternion c) cam (inputManager c)
    (headBobController c) (heightController c) (phi c) (theta c)
    (isMoving2D c) (zoomController c) (avatar c).

Definition set_inputManager (c : t) (im : InputManager.t) : t :=
  mkCharacterController (position c) (quaternion c) (camera c) im
    (headBobController c) (heightController c) (phi c) (theta c)
    (isMoving2D c) (zoomController c) (avatar c).

Definition set_headBobController (c : t) (hb : HeadBobController.t) : t :=
  mkCharacterController (position c) (quaternion c) (camera c) (inputManager c)
    hb (heightController c) (phi c) (theta c)
    (isMoving2D c) (zoomController c) (avatar c).

Definition set_heightController (c : t) (hc : HeightController.t) : t :=
  mkCharacterController (position c) (quaternion c) (camera c) (inputManager c)
    (headBobController c) hc (phi c) (theta c)
    (isMoving2D c) (zoomController c) (avatar c).

Definition set_phi (c : t) (a : R) : t :=
  mkCharacterController (position c) (quaternion c) (camera c) (inputManager c)
    (headBobController c) (heightController c) a (theta c)
    (isMoving2D c) (zoomController c) (avatar c).

Definition set_theta (c : t) (a : R) : t :=
  mkCharacterController (position c) (quaternion c) (camera c) (inputManager c)
    (headBobController c) (heightController c) (phi c) a
    (isMoving2D c) (zoomController c) (avatar c).

Definition set_isMoving2D (c : t) (b : bool) : t :=
  mkCharacterController (position c) (quaternion c) (camera c) (inputManager c)
    (headBobController c) (heightController c) (phi c) (theta c)
    b (zoomController c) (avatar c).

Definition set_zoomController (c : t) (zc : ZoomController.t) : t :=
  mkCharacterController (position c) (quaternion c) (camera c) (inputManager c)
    (headBobController c) (heightController c) (phi c) (theta c)
    (isMoving2D c) zc (avatar c).

(** The fields the constructor sets; the mesh starts with the identity
    orientation. *)
Definition constructor (avatarPosition : Vector3) (av : Avatar.t)
    (cam : Camera.t) : t :=
  mkCharacterController avatarPosition (Three.mkQuaternion 0 0 0 1) cam
    InputManager.constructor HeadBobController.constructor
    HeightController.constructor 0 0 false ZoomController.constructor av.

Definition PHI_SPEED : R := 2.5.
Definition THETA_SPEED : R := 2.5.

Section WithEngine.

(** The physics world, as far as the controller uses it: the character's
    collider can be moved, and rays can be cast.  [castRay] returns the
    time of impact of the hit, if any. *)
Variable World : Type.
Variable setTranslation : World -> Vector3 -> World.
Variable castRay :
  World -> Vector3 -> Vector3 -> R -> bool -> QueryFilter -> option R.

(** [camera.lookAt(target)] of the rendering library: the orientation of a
    camera placed at the first argument that looks at the second. *)
Variable lookAt : Vector3 -> Vector3 -> Quaternion.

(** What a frame works on: the controller, the module-level scratch
    objects, and the physics world. *)
Record State : Type := mkState {
  this : t;
  scratch : Scratch;
  physics : World
}.

Definition set_this (s : State) (c : t) : State :=
  mkState c (scratch s) (physics s).

Definition set_scratch (s : State) (sc : Scratch) : State :=
  mkState (this s) sc (physics s).

Definition set_physics (s : State) (w : World) : State :=
  mkState (this s) (scratch s) w.

(** [physics.castRay(ray_0, maxToi, solid, ...)] through the references
    the ray holds. *)
Definition castRay_0 (s : State) (maxToi : R) (solid : bool)
    (f : QueryFilter) : option R :=
  castRay (physics s)
    (deref (scratch s) (origin (ray_0 (scratch s))))
    (deref (scratch s) (dir (ray_0 (scratch s))))
    maxToi solid f.

(** [updateRotation()]; [windowSize] is what [useRenderSize()] returns. *)
Definition updateRotation (windowSize : RenderSize) (s : State) : State :=
  let c := this s in
  let mouse := InputManager.currentMouse (inputManager c) in
  let xh := InputManager.mouseXDelta mouse / width windowSize in
  let yh := InputManager.mouseYDelta mouse / height windowSize in
  let phi' := phi c + - xh * PHI_SPEED in
  let theta' :=
    MathUtils.clamp (theta c + - yh * THETA_SPEED) (- PI / 2) (PI / 2) in
  let qx := Three.setFromAxisAngle UP phi' in
  let qz := Three.setFromAxisAngle RIGHT theta' in
  let q := Three.multiply qx qz in
  mkState
    (set_quaternion (set_theta (set_phi c phi') theta') q)
    (set_quaternion_1 (set_quaternion_0 (scratch s) q) qz)
    (physics s).

(** [updateTranslation(timeDiff)] *)
Definition updateTranslation (timeDiff : R) (s : State) : State :=
  let c := this s in
  let im := inputManager c in
  let timeDiff_d10 := timeDiff * 10 in
  let shiftSpeedUpAction := fun _ : unit =>
    InputManager.runActionByOneKey im [KEYS.shiftL; KEYS.shiftR] FIVE ONE in
  let forwardVelocity :=
    InputManager.runActionByKey im KEYS.w shiftSpeedUpAction ZERO -
    InputManager.runActionByKey im KEYS.s shiftSpeedUpAction ZERO in
  let sideVelocity :=
    InputManager.runActionByKey im KEYS.a shiftSpeedUpAction ZERO -
    InputManager.runActionByKey im KEYS.d shiftSpeedUpAction ZERO in
  let qx := Three.setFromAxisAngle UP (phi c + HALF_PI) in
  let v0 :=
    Three.multiplyScalar (Three.applyQuaternion FORWARD qx)
      (forwardVelocity * timeDiff_d10) in
  let v1 :=
    Three.multiplyScalar (Three.applyQuaternion LEFT qx)
      (sideVelocity * timeDiff_d10) in
  let p1 := Three.add (Three.add (position c) v0) v1 in
  (* height and jump *)
  let elevationFactor := InputManager.runActionByKey im KEYS.space ONE ZERO in
  let hc :=
    if HeightController.grounded (heightController c)
    then HeightController.setJumpFactor (heightController c) elevationFactor
    else heightController c in
  let p2 := Three.add_y p1 (HeightController.movePerFrame hc) in
  let moving := negb (Reqb forwardVelocity 0) || negb (Reqb sideVelocity 0) in
  mkState
    (set_isMoving2D (set_position (set_heightController c hc) p2) moving)
    (set_vec3_1 (set_vec3_0 (set_quaternion_1 (scratch s) qx) v0) v1)
    (physics s).

(** [updateGravity(timestamp, timeDiff)] *)
Definition updateGravity (timestamp timeDiff : R) (s : State) : State :=
  set_this s
    (set_heightController (this s)
       (HeightController.update (heightController (this s)) timestamp timeDiff)).

(** [detectGround()] *)
Definition detectGround (s : State) : State :=
  let c := this s in
  let avatarHalfHeight := Avatar.height (avatar c) / 2 in
  (* set collider position *)
  let sc1 := set_vec3_0 (scratch s) (position c) in
  let w1 := setTranslation (physics s) (vec3_0 sc1) in
  (* the ray starts at the foot of the avatar and points down *)
  let sc2 := set_vec3_1 sc1 (Three.add_y (position c) (- avatarHalfHeight)) in
  let rayOrigin := ref_vec3_1 in
  let sc3 := set_ray_dir (set_ray_origin sc2 rayOrigin) ref_DOWN in
  let s3 := mkState c sc3 w1 in
  match castRay_0 s3 1000 true ExcludeDynamicAndSelf with
  | Some toi =>
      let hitPoint := pointAt sc3 (ray_0 sc3) toi in
      let distance := Three.y (deref sc3 rayOrigin) - Three.y hitPoint in
      if Rleb distance 0 then
        set_this s3
          (set_heightController c
             (HeightController.setGrounded (heightController c) true))
      else
        set_this s3
          (set_heightController c
             (HeightController.setGrounded
                (HeightController.set_lastGroundHeight (heightController c)
                   (Three.y hitPoint + avatarHalfHeight))
                false))
  | None =>
      (* another ray, upwards, to see whether the ground has been passed *)
      let sc4 := set_ray_dir sc3 ref_UP in
      let s4 := mkState c sc4 w1 in
      match castRay_0 s4 (Avatar.height (avatar c) / 2) true
              ExcludeDynamicAndSelf with
      | Some _ =>
          set_this s4
            (set_heightController
               (set_position c
                  (Three.set_y (position c)
                     (HeightController.lastGroundHeight (heightController c))))
               (HeightController.setGrounded (heightController c) true))
      | None =>
          set_this s4
            (set_heightController c
               (HeightController.setGrounded (heightController c) false))
      end
  end.

(** [updateZoom(timestamp, timeDiff)] *)
Definition updateZoom (timestamp timeDiff : R) (s : State) : State :=
  let c := this s in
  set_this s
    (set_zoomController c
       (ZoomController.update (zoomController c)
          (InputManager.mouseWheelDelta
             (InputManager.currentMouse (inputManager c)))
          timestamp timeDiff)).

(** [updateCamera(timestamp, timeDiff)] *)
Definition updateCamera (timestamp timeDiff : R) (s : State) : State :=
  let c := this s in
  (* place the camera on a sphere around the character *)
  let circleRadius := ZoomController.zoom (zoomController c) in
  let cameraOffset :=
    mkVector3
      (circleRadius * cos (- phi c))
      (circleRadius * cos (theta c + HALF_PI))
      (circleRadius * sin (- phi c)) in
  let sc1 := set_vec3_0 (scratch s) cameraOffset in
  let camPos1 := Three.add (position c) (vec3_0 sc1) in
  let cam1 := Camera.mkCamera camPos1 (lookAt camPos1 (position c)) in
  (* head bob *)
  let isFirstPerson :=
    Rleb (ZoomController.zoom (zoomController c)) (Avatar.width (avatar c)) in
  if isFirstPerson then
    let '(hb, bob) :=
      HeadBobController.getHeadBob (headBobController c) timeDiff
        (isMoving2D c) in
    let camPos2 := Three.add_y camPos1 bob in
    let cam2 := Camera.mkCamera camPos2 (Camera.quaternion cam1) in
    (* keep looking at the same position in the object in front *)
    let sc2 := set_vec3_1 sc1 camPos2 in
    let rayDirection :=
      Three.normalize
        (Three.applyQuaternion (mkVector3 0 0 (-1)) (Camera.quaternion cam2)) in
    let sc3 := set_vec3_0 sc2 rayDirection in
    let sc4 := set_ray_dir (set_ray_origin sc3 ref_vec3_1) ref_vec3_0 in
    let c2 := set_headBobController c hb in
    let s4 := mkState (set_camera c2 cam2) sc4 (physics s) in
    match castRay_0 s4 1000 false NoFilter with
    | Some toi =>
        let point := pointAt sc4 (ray_0 sc4) toi in
        let sc5 := set_vec3_0 sc4 point in
        let hitPoint := vec3_0 sc5 in
        mkState
          (set_camera c2 (Camera.mkCamera camPos2 (lookAt camPos2 hitPoint)))
          sc5 (physics s)
    | None => s4
    end
  else
    mkState (set_camera c cam1) sc1 (physics s).

(** The input manager's [update()], as the last step of a frame. *)
Definition resetInput (s : State) : State :=
  set_this s
    (set_inputManager (this s) (InputManager.update (inputManager (this s)))).

(** [update(timestamp, timeDiff)] *)
Definition update (windowSize : RenderSize) (timestamp timeDiff : R)
    (s : State) : State :=
  let s1 := updateRotation windowSize s in
  let s2 := updateTranslation timeDiff s1 in
  let s3 := updateGravity timestamp timeDiff s2 in
  let s4 := detectGround s3 in
  let s5 := updateZoom timestamp timeDiff s4 in
  let s6 := updateCamera timestamp timeDiff s5 in
  resetInput s6.

End WithEngine.

End CharacterController.

(** ** physics.ts: addPhysics

    The physics library (its descriptors, bodies, colliders and world) is
    external: its types and the calls [addPhysics] makes are Section
    variables.  A call that raises is [Thrown]; a descriptor constructor
    that yields nothing usable ([undefined], [null]) returns [None].  The
    mesh enters through its position and through the two arrays of its
    geometry the default branch reads. *)

Module Physics.

Inductive Outcome (A : Type) : Type :=
| Returned (a : A)
| Thrown.

Arguments Returned {A} a.
Arguments Thrown {A}.

Definition COLLIDER_ERROR : string :=
  "Collider Mesh Error: collision shape creation failed.".

Section WithRapier.

Variables Mesh RigidBodyDesc RigidBody ColliderDesc Collider World Fn : Type.

(** [mesh.position] *)
Variable mesh_position : Mesh -> Vector3.

(** [mesh.geometry.attributes.position]: the array of the position
    attribute, [None] for a geometry without that attribute (reading
    [.array] of it raises); and [mesh.geometry.index?.array], [None] for a
    geometry without index. *)
Variable geometry_position : Mesh -> option (list R).
Variable geometry_index : Mesh -> option (list N).

(** [(RAPIER.RigidBodyDesc as any)[rigidBodyType]()]; [None] when the name
    is not one of the library's constructors and the call raises. *)
Variable rigidBodyDesc : string -> option RigidBodyDesc.
Variable desc_setTranslation : RigidBodyDesc -> R -> R -> R -> RigidBodyDesc.
Variable createRigidBody : World -> RigidBodyDesc -> World * RigidBody.

(** [RAPIER.ColliderDesc.cuboid], [.ball], [.capsule] and [.trimesh]; an
    argument read from a settings object that lacks the property is
    [None]. *)
Variable cuboid : option R -> option R -> option R -> option ColliderDesc.
Variable ball : option R -> option ColliderDesc.
Variable capsule : option R -> option R -> option ColliderDesc.
Variable trimesh : list R -> option (list N) -> option ColliderDesc.

(** [physics.createCollider(colliderDesc, rigidBody)]; [None] when the call
    raises. *)
Variable createCollider :
  World -> option ColliderDesc -> RigidBody -> option (World * Collider).

Record PhysicsObject : Type := mkPhysicsObject {
  mesh : Mesh;
  collider : Collider;
  rigidBody : RigidBody;
  fn : option Fn;
  autoAnimate : bool
}.

(** The engine state [addPhysics] touches: the physics world, the shared
    list behind [usePhysicsObjects()], and the lines written with
    [console.error]. *)
Record Engine : Type := mkEngine {
  physicsWorld : World;
  physicsObjects : list PhysicsObject;
  console : list string
}.

(** The default branch of the [switch]: the descriptor of the mesh's own
    geometry, or [Thrown] when the geometry has no position attribute to
    read the array of. *)
Definition trimeshDescFor (m : Mesh) : Outcome (option ColliderDesc) :=
  match geometry_position m with
  | Some vertices => Returned (trimesh vertices (geometry_index m))
  | None => Thrown
  end.

(** The [switch (colliderType)]: the descriptor, or [Thrown] when the
    settings object to destructure is missing or, in the default branch,
    the position attribute is. *)
Definition colliderDescFor (m : Mesh) (colliderType : option string)
    (colliderSettings : option (gmap string R))
    : Outcome (option ColliderDesc) :=
  match colliderType with
  | Some ty =>
      if String.eqb ty "cuboid" then
        match colliderSettings with
        | Some cs => Returned (cuboid (cs !! "width") (cs !! "height") (cs !! "depth"))
        | None => Thrown
        end
      else if String.eqb ty "ball" then
        match colliderSettings with
        | Some cs => Returned (ball (cs !! "radius"))
        | None => Thrown
        end
      else if String.eqb ty "capsule" then
        match colliderSettings with
        | Some cs => Returned (capsule (cs !! "halfHeight") (cs !! "radius"))
        | None => Thrown
        end
      else trimeshDescFor m
  | None => trimeshDescFor m
  end.

(** [addPhysics(mesh, rigidBodyType, autoAnimate, postPhysicsFn,
    colliderType, colliderSettings)]: the engine afterwards and what the
    caller gets. *)
Definition addPhysics (e : Engine) (m : Mesh) (rigidBodyType : string)
    (auto : bool) (postPhysicsFn : option Fn)
    (colliderType : option string)
    (colliderSettings : option (gmap string R))
    : Engine * Outcome PhysicsObject :=
  match rigidBodyDesc rigidBodyType with
  | None => (e, Thrown)
  | Some d0 =>
      let d :=
        desc_setTranslation d0 (Three.x (mesh_position m))
          (Three.y (mesh_position m)) (Three.z (mesh_position m)) in
      let '(w1, rb) := createRigidBody (physicsWorld e) d in
      let e1 := mkEngine w1 (physicsObjects e) (console e) in
      match colliderDescFor m colliderType colliderSettings with
      | Thrown => (e1, Thrown)
      | Returned colliderDesc =>
          let e2 :=
            match colliderDesc with
            | None => mkEngine w1 (physicsObjects e1) (console e1 ++ [COLLIDER_ERROR])
            | Some _ => e1
            end in
          match createCollider (physicsWorld e2) colliderDesc rb with
          | None => (e2, Thrown)
          | Some (w2, col) =>
              let physicsObject := mkPhysicsObject m col rb postPhysicsFn auto in
              (mkEngine w2 (physicsObjects e2 ++ [physicsObject]) (console e2),
               Returned physicsObject)
          end
      end
  end.

End WithRapier.

End Physics.

Arguments CharacterController.State World : clear implicits.
Arguments CharacterController.mkState {World} this scratch physics.
Arguments CharacterController.this {World} s.
Arguments CharacterController.scratch {World} s.
Arguments CharacterController.physics {World} s.
Arguments CharacterController.set_this {World} s c.
Arguments CharacterController.set_scratch {World} s sc.
Arguments CharacterController.updateRotation {World} windowSize s.
Arguments CharacterController.updateTranslation {World} timeDiff s.
Arguments CharacterController.updateGravity {World} timestamp timeDiff s.
Arguments CharacterController.detectGround {World} setTranslation castRay s.
Arguments CharacterController.updateZoom {World} timestamp timeDiff s.
Arguments CharacterController.updateCamera {World} castRay lookAt timestamp timeDiff s.
Arguments CharacterController.resetInput {World} s.
Arguments CharacterController.update {World} setTranslation castRay lookAt
  windowSize timestamp timeDiff s.

(** ** CharacterController.initPhysics

    The capsule collider of the character: [radius = avatar.width / 2] and
    [halfHeight = avatar.height / 2 - radius], registered as a
    position-based kinematic body that is not auto-animated and has no
    callback.  (Its other effect, [ray_0 = new RAPIER.Ray(vec3_0, vec3_0)],
    is [initialScratch].) *)

(** The settings object [{ halfHeight, radius }]. *)
Definition capsuleSettings (av : Avatar.t) : gmap string R :=
  let radius := Avatar.width av / 2 in
  let halfHeight := Avatar.height av / 2 - radius in
  <["halfHeight" := halfHeight]> (<["radius" := radius]> ∅).

Section InitPhysics.

Variables Mesh RigidBodyDesc RigidBody ColliderDesc Collider World Fn : Type.
Variable mesh_position : Mesh -> Vector3.
Variable geometry_position : Mesh -> option (list R).
Variable geometry_index : Mesh -> option (list N).
Variable rigidBodyDesc : string -> option RigidBodyDesc.
Variable desc_setTranslation : RigidBodyDesc -> R -> R -> R -> RigidBodyDesc.
Variable createRigidBody : World -> RigidBodyDesc -> World * RigidBody.
Variable cuboid : option R -> option R -> option R -> option ColliderDesc.
Variable ball : option R -> option ColliderDesc.
Variable capsule : option R -> option R -> option ColliderDesc.
Variable trimesh : list R -> option (list N) -> option ColliderDesc.
Variable createCollider :
  World -> option ColliderDesc -> RigidBody -> option (World * Collider).

(** [initPhysics(avatar)]; [self] is the controller as a mesh. *)
Definition initPhysics (e : Physics.Engine Mesh RigidBody Collider World Fn)
    (self : Mesh) (av : Avatar.t)
    : Physics.Engine Mesh RigidBody Collider World Fn
      * Physics.Outcome (Physics.PhysicsObject Mesh RigidBody Collider Fn) :=
  Physics.addPhysics Mesh RigidBodyDesc RigidBody ColliderDesc Collider World Fn
    mesh_position geometry_position geometry_index rigidBodyDesc
    desc_setTranslation createRigidBody
    cuboid ball capsule trimesh createCollider
    e self "kinematicPositionBased" false None (Some "capsule"%string)
    (Some (capsuleSettings av)).

End InitPhysics.

(** ** tick-manager.ts: the frame callback

    What a frame does besides timing (stepping the physics, copying
    collider transforms to meshes, the post-physics callbacks, the
    controller, rendering, the tick event, the stats) acts on the engine as
    a whole; these enter as Section variables.  Timestamps are in
    milliseconds; the controller is handed seconds. *)

Module TickManager.

Record t : Type := mkTickManager {
  timestamp : R;
  timeDiff : R;
  lastTimestamp : R;
  fps : R
}.

(** The constructor, with the defaults of [localTickData]. *)
Definition constructor : t := mkTickManager 0 0 0 0.

(** The data of a tick event. *)
Record TickData : Type := mkTickData {
  tick_timestamp : R;
  tick_timeDiff : R;
  tick_fps : R
}.

(** [Math.min(Math.max(this.timeDiff, 0), 100)], with
    [this.timeDiff = timestamp - this.lastTimestamp]. *)
Definition timeDiffCapped (tm : t) (now : R) : R :=
  Rmin (Rmax (now - lastTimestamp tm) 0) 100.

(** The arguments of [controls.update(timestamp / 1000,
    timeDiffCapped / 1000)]. *)
Definition controlsArgs (tm : t) (now : R) : R * R :=
  (now / 1000, timeDiffCapped tm now / 1000).

Section WithEngine.

Variables Sys Mesh RigidBody Collider Fn : Type.
Variable physics_step : Sys -> Sys.
Variable syncMesh : Mesh -> Collider -> Sys -> Sys.
Variable callFn : Fn -> Sys -> Sys.
Variable controls_update : R -> R -> Sys -> Sys.
Variable composer_render : Sys -> Sys.
Variable dispatchTick : TickData -> Sys -> Sys.
Variable stats_update : Sys -> Sys.

(** The loop over the physics objects: copy the collider's transform to
    the mesh when the object is auto-animated, then run its callback if it
    has one. *)
Definition updateObjects
    (physicsObjects : list (Physics.PhysicsObject Mesh RigidBody Collider Fn))
    (sys : Sys) : Sys :=
  fold_left
    (fun st po =>
       let st1 :=
         if Physics.autoAnimate _ _ _ _ po
         then syncMesh (Physics.mesh _ _ _ _ po) (Physics.collider _ _ _ _ po) st
         else st in
       match Physics.fn _ _ _ _ po with
       | Some f => callFn f st1
       | None => st1
       end)
    physicsObjects sys.

(** [animate(timestamp, frame)] *)
Definition animate (tm : t)
    (physicsObjects : list (Physics.PhysicsObject Mesh RigidBody Collider Fn))
    (now : R) (sys : Sys) : t * Sys :=
  let diff := now - lastTimestamp tm in
  let capped := timeDiffCapped tm now in
  let sys1 := updateObjects physicsObjects (physics_step sys) in
  let fps' := 1000 / diff in
  let tm' := mkTickManager now diff now fps' in
  let sys2 := controls_update (fst (controlsArgs tm now)) (snd (controlsArgs tm now)) sys1 in
  let sys3 := composer_render sys2 in
  let sys4 := dispatchTick (mkTickData now capped fps') sys3 in
  (tm', stats_update sys4).

End WithEngine.

End TickManager.

(** ** loaders/general-loader.ts: choosing the loader

    Paths are ASCII strings.  The loaders themselves are external; [load]
    is modelled up to the loader it hands the path to. *)

Module GeneralLoader.

(** [c.toLowerCase()] on an ASCII character. *)
Definition lower_char (c : ascii) : ascii :=
  let n := nat_of_ascii c in
  if (Nat.leb 65 n && Nat.leb n 90)%bool then ascii_of_nat (n + 32) else c.

(** [s.toLowerCase()] *)
Fixpoint toLowerCase (s : string) : string :=
  match s with
  | EmptyString => EmptyString
  | String c rest => String (lower_char c) (toLowerCase rest)
  end.

(** [s.split('.')] *)
Fixpoint split_dot (s : string) : list string :=
  match s with
  | EmptyString => [EmptyString]
  | String c rest =>
      if Ascii.eqb c "."%char then EmptyString :: split_dot rest
      else
        match split_dot rest with
        | [] => [String c EmptyString]
        | h :: t => String c h :: t
        end
  end.

(** [path.split('.').pop()?.toLowerCase()] *)
Definition fileType (path : string) : option string :=
  option_map toLowerCase (last (split_dot path)).

(** What [load] ends in: one of the three loaders called on the path, or
    the two console lines and [null]. *)
Inductive Outcome : Type :=
| LoadGltf (path : string)
| LoadVrm (path : string)
| LoadTexture (path : string)
| Unsupported (errorLine logLine : string).

Definition SUPPORTED : string :=
  "Supported formats: .gltf, .vrm, .png, .jpg, .jpeg".

(** [load(path)] *)
Definition load (path : string) : Outcome :=
  match fileType path with
  | Some ty =>
      if String.eqb ty "gltf" then LoadGltf path
      else if String.eqb ty "vrm" then LoadVrm path
      else if String.eqb ty "png" || String.eqb ty "jpg" || String.eqb ty "jpeg"
      then LoadTexture path
      else
        Unsupported
          ("GeneralLoader: File type '" ++ ty ++ "' is not supported.")%string
          SUPPORTED
  | None =>
      Unsupported "GeneralLoader: File type 'undefined' is not supported."
        SUPPORTED
  end.

(** A string without a dot. *)
Fixpoint no_dot (s : string) : bool :=
  match s with
  | EmptyString => true
  | String c rest => negb (Ascii.eqb c "."%char) && no_dot rest
  end.

End GeneralLoader.

(** ** Runs *)

(** Timestamps that never go back. *)
Fixpoint nondecreasing_from (t0 : R) (ts : list R) : Prop :=
  match ts with
  | [] => True
  | t :: rest => t0 <= t /\ nondecreasing_from t rest
  end.

Definition nondecreasing (ts : list R) : Prop :=
  match ts with
  | [] => True
  | t :: rest => nondecreasing_from t rest
  end.

(** The timestamp of a [ZoomController.update] call [(zoomLevel, timestamp,
    timeDiff)]. *)
Definition call_timestamp (c : R * R * R) : R := snd (fst c).

(** Input events reaching the controller between two frames. *)
Definition deliver {World : Type} (es : list InputManager.Event)
    (s : CharacterController.State World) : CharacterController.State World :=
  CharacterController.set_this s
    (CharacterController.set_inputManager (CharacterController.this s)
       (InputManager.run
          (CharacterController.inputManager (CharacterController.this s)) es)).

(** A sequence of [updateRotation] calls, each after some input events and
    under some viewport size. *)
Definition rotations {World : Type} (s : CharacterController.State World)
    (calls : list (list InputManager.Event * RenderSize))
    : CharacterController.State World :=
  fold_left
    (fun st c => CharacterController.updateRotation (snd c) (deliver (fst c) st))
    calls s.

Definition viewport_ok (ws : RenderSize) : Prop :=
  width ws <> 0 /\ height ws <> 0.

(** ** A sample world

    One horizontal, infinitely thin ground plane at a given height; a ray
    hits it where it crosses that height.  The camera orientation is a
    stand-in: nothing stated below on this world depends on it. *)

Module PlaneWorld.

Definition World : Type := R.

Definition setTranslation (w : World) (_ : Vector3) : World := w.

Definition castRay (ground : World) (o d : Vector3) (maxToi : R)
    (solid : bool) (f : QueryFilter) : option R :=
  if Reqb (Three.y d) 0 then None
  else
    let toi := (ground - Three.y o) / Three.y d in
    if Rleb 0 toi && Rleb toi maxToi then Some toi else None.

Definition lookAt (eye target : Vector3) : Quaternion :=
  Three.mkQuaternion 0 0 0 1.

Definition update :=
  CharacterController.update setTranslation castRay lookAt.

Definition detectGround :=
  CharacterController.detectGround setTranslation castRay.

(** A capsule avatar of width 1 and height 2.5 standing at height [h] over
    a ground plane at height [ground], as constructed. *)
Definition start (h ground : R) : CharacterController.State World :=
  CharacterController.mkState
    (CharacterController.constructor (mkVector3 0 h 0)
       (Avatar.mkAvatar 1 2.5)
       (Camera.mkCamera (mkVector3 0 0 5) (Three.mkQuaternion 0 0 0 1)))
    initialScratch ground.

End PlaneWorld.

(** ** A sample physics library

    Bodies and colliders are numbered handles and the world counts them.  A
    shape constructor always yields a descriptor, which records the
    arguments it was given, and [createCollider] raises when it is handed
    no descriptor.  A mesh is its position and the two arrays of its
    geometry. *)

Module ToyRapier.

Record Mesh : Type := mkMesh {
  position : Vector3;
  vertices : option (list R);
  indices : option (list N)
}.

Definition RigidBodyDesc : Type := (string * Vector3)%type.
Definition RigidBody : Type := nat.
Definition ColliderDesc : Type := (string * list (option R))%type.
Definition Collider : Type := nat.
Definition World : Type := (nat * nat)%type.
Definition Fn : Type := unit.

Definition mesh_position (m : Mesh) : Vector3 := position m.

Definition geometry_position (m : Mesh) : option (list R) := vertices m.

Definition geometry_index (m : Mesh) : option (list N) := indices m.

Definition rigidBodyDesc (name : string) : option RigidBodyDesc :=
  if String.eqb name "fixed" || String.eqb name "dynamic"
     || String.eqb name "kinematicPositionBased"
     || String.eqb name "kinematicVelocityBased"
  then Some (name, mkVector3 0 0 0)
  else None.

Definition desc_setTranslation (d : RigidBodyDesc) (px py pz : R) : RigidBodyDesc :=
  (fst d, mkVector3 px py pz).

Definition createRigidBody (w : World) (d : RigidBodyDesc) : World * RigidBody :=
  ((S (fst w), snd w), fst w).

Definition cuboid (hx hy hz : option R) : option ColliderDesc :=
  Some ("cuboid"%string, [hx; hy; hz]).

Definition ball (radius : option R) : option ColliderDesc :=
  Some ("ball"%string, [radius]).

Definition capsule (halfHeight radius : option R) : option ColliderDesc :=
  Some ("capsule"%string, [halfHeight; radius]).

Definition trimesh (vs : list R) (idx : option (list N)) : option ColliderDesc :=
  Some ("trimesh"%string, map Some vs).

Definition createCollider (w : World) (d : option ColliderDesc) (rb : RigidBody)
    : option (World * Collider) :=
  match d with
  | Some _ => Some ((fst w, S (snd w)), snd w)
  | None => None
  end.

Definition addPhysics :=
  Physics.addPhysics Mesh RigidBodyDesc RigidBody ColliderDesc Collider World Fn
    mesh_position geometry_position geometry_index rigidBodyDesc
    desc_setTranslation createRigidBody
    cuboid ball capsule trimesh createCollider.

(** An engine with nothing registered and nothing logged. *)
Definition empty_engine
    : Physics.Engine Mesh RigidBody Collider World Fn :=
  Physics.mkEngine Mesh RigidBody Collider World Fn (0%nat, 0%nat) [] [].

(** A mesh made with no geometry data ([new THREE.Mesh()]): its geometry
    has no position attribute and no index. *)
Definition bare_mesh : Mesh := mkMesh (mkVector3 0 2 0) None None.

(** A mesh with one triangle. *)
Definition triangle_mesh : Mesh :=
  mkMesh (mkVector3 0 2 0) (Some [0; 0; 0; 1; 0; 0; 0; 0; 1])
    (Some [0%N; 1%N; 2%N]).

End ToyRapier.

(** ** Sample inputs *)

(** On the ground, a jump just committed at time 0. *)
Definition jumping : HeightController.t :=
  HeightController.mkHeightController 0 0 0 0 0 false true 1 0.

Definition screen : RenderSize := mkRenderSize 1920 1080.

(** One notch of the wheel (target 1.5) seen at time 0, and the next frame
    0.6 s later, past the end of the animation; the frame time is capped at
    0.1 by the tick manager. *)
Definition late_frame_calls : list (R * R * R) :=
  [(1.5, 0, 0); (1.5, 0.6, 0.1)].

(** Scrolling out, then far out, over three frames. *)
Definition zoom_calls : list (R * R * R) :=
  [(1.5, 0, 0); (1.5, 0.1, 0.1); (30, 0.2, 0.1)].

(** Mouse moves over two frames, the viewport resized in between. *)
Definition rotation_calls : list (list InputManager.Event * RenderSize) :=
  [([InputManager.PointerLockChange true; InputManager.MouseMove 30 5000], screen);
   ([InputManager.MouseMove (-12) (-9000)], mkRenderSize 800 600)].

(** ** Vocabulary of the statements *)

(** What every run keeps: the zoom is in range, and a running animation
    started from a zoom in range no later than the last timestamp seen. *)
Definition zoom_inv (tlast : R) (zc : ZoomController.t) : Prop :=
  MIN_ZOOM_LEVEL <= ZoomController.zoom zc <= MAX_ZOOM_LEVEL /\
  (ZoomController.isAnimating zc = true ->
   MIN_ZOOM_LEVEL <= ZoomController.startingZoom zc <= MAX_ZOOM_LEVEL /\
   ZoomController.startZoomAnimation zc <= tlast * SCROLL_ANIMATION_SPEED).

(** The accumulated scroll value of an input manager. *)
Definition wheel_of (im : InputManager.t) : R :=
  InputManager.mouseWheelDelta (InputManager.currentMouse im).

(** The scroll value is untouched, or clamped into the zoom range. *)
Definition wheel_ok (v : R) : Prop :=
  v = 0 \/ MIN_ZOOM_LEVEL <= v <= MAX_ZOOM_LEVEL.

(** A pitch within a quarter turn up or down. *)
Definition pitch_ok (a : R) : Prop := - PI / 2 <= a <= PI / 2.

Section GroundCasts.

Context {World : Type}.
Variable setTranslation : World -> Vector3 -> World.
Variable castRay :
  World -> Vector3 -> Vector3 -> R -> bool -> QueryFilter -> option R.

Local Abbreviation State := (CharacterController.State World).

(** The foot of the avatar: the origin of both rays. *)
Definition foot (s : State) : Vector3 :=
  Three.add_y (CharacterController.position (CharacterController.this s))
    (- (Avatar.height (CharacterController.avatar (CharacterController.this s)) / 2)).

(** The world once the collider has been moved to the character. *)
Definition world_at_character (s : State) : World :=
  setTranslation (CharacterController.physics s)
    (CharacterController.position (CharacterController.this s)).

(** The downward and the upward cast of [detectGround]. *)
Definition downward_hit (s : State) : option R :=
  castRay (world_at_character s) (foot s) DOWN 1000 true ExcludeDynamicAndSelf.

Definition upward_hit (s : State) : option R :=
  castRay (world_at_character s) (foot s) UP
    (Avatar.height (CharacterController.avatar (CharacterController.this s)) / 2)
    true ExcludeDynamicAndSelf.

(** The point a downward hit at time of impact [toi] is at. *)
Definition hit_point (s : State) (toi : R) : Vector3 :=
  Three.add (foot s) (Three.multiplyScalar DOWN toi).

End GroundCasts.

(** Two states with the same controller and the same world; their scratch
    objects may differ. *)
Definition same_body {World : Type} (s s' : CharacterController.State World)
    : Prop :=
  CharacterController.this s = CharacterController.this s' /\
  CharacterController.physics s = CharacterController.physics s'.

(** The input manager with the pointer locked and the wheel one notch
    out. *)
Definition one_notch_out : InputManager.t :=
  InputManager.mkInputManager
    (InputManager.mkMouseState false false 0 0 1.5) ∅ true.

(** A run of [HeightController.update] calls, each [(timestamp,
    timeDiff)], with the vertical deltas it produced added up. *)
Definition height_frames (hc : HeightController.t) (frames : list (R * R))
    : HeightController.t * R :=
  fold_left
    (fun st f =>
       let hc' := HeightController.update (fst st) (fst f) (snd f) in
       (hc', snd st + HeightController.movePerFrame hc'))
    frames (hc, 0).

(** The offsets a run of [getHeadBob] calls returns, each call
    [(timeDiff, isMoving)]. *)
Fixpoint headbob_offsets (hb : HeadBobController.t) (calls : list (R * bool))
    : list R :=
  match calls with
  | [] => []
  | c :: rest =>
      let r := HeadBobController.getHeadBob hb (fst c) (snd c) in
      snd r :: headbob_offsets (fst r) rest
  end.

(** The forward and the side velocity [updateTranslation] reads from the
    keys: W against S and A against D, each 1, or 5 with a shift key down. *)
Definition keySpeed (im : InputManager.t) (key : string) : R :=
  InputManager.runActionByKey im key
    (fun _ : unit =>
       InputManager.runActionByOneKey im [KEYS.shiftL; KEYS.shiftR] FIVE ONE)
    ZERO.

Definition forwardVelocity (im : InputManager.t) : R :=
  keySpeed im KEYS.w - keySpeed im KEYS.s.

Definition sideVelocity (im : InputManager.t) : R :=
  keySpeed im KEYS.a - keySpeed im KEYS.d.

(** The demo state with the pointer locked and W and S both held. *)
Definition pulling_both_ways : CharacterController.State PlaneWorld.World :=
  deliver
    [InputManager.PointerLockChange true; InputManager.KeyDown KEYS.w;
     InputManager.KeyDown KEYS.s]
    (PlaneWorld.start 11.25 0).

(** A sequence of frames of the controller, each after some input events. *)
Definition run_frames {World : Type}
    (setTranslation : World -> Vector3 -> World)
    (castRay : World -> Vector3 -> Vector3 -> R -> bool -> QueryFilter -> option R)
    (lookAt : Vector3 -> Vector3 -> Quaternion)
    (s : CharacterController.State World)
    (frames : list (list InputManager.Event * RenderSize * (R * R)))
    : CharacterController.State World :=
  fold_left
    (fun st f =>
       CharacterController.update setTranslation castRay lookAt
         (snd (fst f)) (fst (snd f)) (snd (snd f)) (deliver (fst (fst f)) st))
    frames s.

(** A collider type the [switch] of [addPhysics] has a case for. *)
Definition named_shape (colliderType : option string) : bool :=
  match colliderType with
  | Some ty =>
      String.eqb ty "cuboid" || String.eqb ty "ball" || String.eqb ty "capsule"
  | None => false
  end.

(** An event other than a change of the pointer lock. *)
Definition keeps_lock (e : InputManager.Event) : bool :=
  match e with
  | InputManager.PointerLockChange _ => false
  | _ => true
  end.

(** * Properties *)

(** ** Deciding comparisons *)

Lemma Rltb_true (a b : R) : a < b -> Rltb a b = true.
Proof. intros H. unfold Rltb. destruct (Rlt_dec a b); [reflexivity | contradiction]. Qed.

Lemma Rltb_false (a b : R) : b <= a -> Rltb a b = false.
Proof. intros H. unfold Rltb. destruct (Rlt_dec a b); [lra | reflexivity]. Qed.

Lemma Rleb_true (a b : R) : a <= b -> Rleb a b = true.
Proof. intros H. unfold Rleb. destruct (Rle_dec a b); [reflexivity | contradiction]. Qed.

Lemma Rleb_false (a b : R) : b < a -> Rleb a b = false.
Proof. intros H. unfold Rleb. destruct (Rle_dec a b); [lra | reflexivity]. Qed.

Lemma Reqb_true (a b : R) : a = b -> Reqb a b = true.
Proof. intros H. unfold Reqb. destruct (Req_dec_T a b); [reflexivity | contradiction]. Qed.

Lemma Reqb_false (a b : R) : a <> b -> Reqb a b = false.
Proof. intros H. unfold Reqb. destruct (Req_dec_T a b); [contradiction | reflexivity]. Qed.

(** ** utils/math.ts *)

Lemma clamp_bounds (x a b : R) :
  a <= b -> a <= MathUtils.clamp x a b <= b.
Proof.
  intros Hab. unfold MathUtils.clamp, Rmin, Rmax.
  destruct (Rle_dec x a); destruct (Rle_dec _ b); lra.
Qed.

Lemma clamp_inside (x a b : R) :
  a <= x <= b -> MathUtils.clamp x a b = x.
Proof.
  intros Hx. unfold MathUtils.clamp, Rmin, Rmax.
  destruct (Rle_dec x a); destruct (Rle_dec _ b); lra.
Qed.

Lemma lerp_zero_start (b u : R) : MathUtils.lerp 0 b u = b * u.
Proof. unfold MathUtils.lerp. ring. Qed.

Lemma lerp_at_0 (a b : R) : MathUtils.lerp a b 0 = a.
Proof. unfold MathUtils.lerp. ring. Qed.

Lemma lerp_at_1 (a b : R) : MathUtils.lerp a b 1 = b.
Proof. unfold MathUtils.lerp. ring. Qed.

Lemma lerp_between (lo hi a b u : R) :
  lo <= a <= hi -> lo <= b <= hi -> 0 <= u <= 1 ->
  lo <= MathUtils.lerp a b u <= hi.
Proof. intros Ha Hb Hu. unfold MathUtils.lerp. split; nra. Qed.

Lemma pow2_pos (e : R) : 0 < MathUtils.pow2 e.
Proof. unfold MathUtils.pow2, Rpower. apply exp_pos. Qed.

Lemma pow2_0 : MathUtils.pow2 0 = 1.
Proof. unfold MathUtils.pow2. apply Rpower_O. lra. Qed.

Lemma pow2_le_1 (e : R) : e <= 0 -> MathUtils.pow2 e <= 1.
Proof.
  intros He. rewrite <- pow2_0. unfold MathUtils.pow2.
  apply Rle_Rpower; lra.
Qed.

Lemma easeOutExpo_0 : MathUtils.easeOutExpo 0 = 0.
Proof.
  unfold MathUtils.easeOutExpo. destruct (Req_dec_T 0 1) as [H | _]; [lra |].
  replace (-10 * 0) with 0 by ring. rewrite pow2_0. ring.
Qed.

Lemma easeOutExpo_1 : MathUtils.easeOutExpo 1 = 1.
Proof.
  unfold MathUtils.easeOutExpo. destruct (Req_dec_T 1 1) as [_ | H]; [reflexivity | lra].
Qed.

Lemma easeOutExpo_range (x : R) : 0 <= x -> 0 <= MathUtils.easeOutExpo x <= 1.
Proof.
  intros Hx. unfold MathUtils.easeOutExpo. destruct (Req_dec_T x 1); [lra |].
  pose proof (pow2_pos (-10 * x)). pose proof (pow2_le_1 (-10 * x)). lra.
Qed.

Lemma easeOutExpo_lt_1 (x : R) : x <> 1 -> MathUtils.easeOutExpo x < 1.
Proof.
  intros Hx. unfold MathUtils.easeOutExpo. destruct (Req_dec_T x 1); [contradiction |].
  pose proof (pow2_pos (-10 * x)). lra.
Qed.

(** ** HeightController.update on the ground *)

(** The up-down curve is positive half-way through the jump window. *)
Lemma UpDownCirc_mid_pos : 0 < MathUtils.UpDownCirc 0.5.
Proof.
  unfold MathUtils.UpDownCirc, MathUtils.EaseOutCirc.
  replace (1 - (0.5 - 1) ^ 2) with 0.75 by lra.
  assert (H0 : 0 < sqrt 0.75) by (apply sqrt_lt_R0; lra).
  assert (H1 : sqrt 0.75 < 1).
  { rewrite <- sqrt_1. apply sqrt_lt_1_alt. lra. }
  pose proof PI_RGT_0 as Hpi.
  apply sin_gt_0; nra.
Qed.

(** C1, as the code has it: with the grounded flag set,
    [HeightController.update(t, dt)] clears the gravity part (height and
    lastHeight are 0, the fall animation is off), sets startFallAnimation to
    [t], and leaves in movePerFrame the jump offset alone.  When more than
    JUMP_DURATION has passed since the jump started, that offset is 0 and
    the jump is reset: jumpFactor becomes 0 and startJumpAnimation becomes
    [t].  Otherwise the offset is jumpFactor * JUMP_AMPLITUDE blended by the
    up-down curve at the clamped jump progress, which is 0 when jumpFactor
    is 0, and jumpFactor and startJumpAnimation are kept.  The grounded flag
    and lastGroundHeight are not touched. *)
Theorem grounded_update_resets_fall_keeps_jump
    (hc : HeightController.t) (t dt : R) :
  0 <= dt ->
  HeightController.grounded hc = true ->
  let hc' := HeightController.update hc t dt in
  let jt := t - HeightController.startJumpAnimation hc in
  HeightController.height hc' = 0 /\
  HeightController.lastHeight hc' = 0 /\
  HeightController.isAnimating hc' = false /\
  HeightController.startFallAnimation hc' = t /\
  HeightController.movePerFrame hc' =
    (if Rltb JUMP_DURATION jt then 0
     else MathUtils.lerp 0 (HeightController.jumpFactor hc * JUMP_AMPLITUDE)
            (MathUtils.UpDownCirc (MathUtils.clamp (jt / JUMP_DURATION) 0 1))) /\
  HeightController.jumpFactor hc' =
    (if Rltb JUMP_DURATION jt then 0 else HeightController.jumpFactor hc) /\
  HeightController.startJumpAnimation hc' =
    (if Rltb JUMP_DURATION jt then t
     else HeightController.startJumpAnimation hc) /\
  (HeightController.jumpFactor hc = 0 -> HeightController.movePerFrame hc' = 0) /\
  HeightController.grounded hc' = true /\
  HeightController.lastGroundHeight hc' = HeightController.lastGroundHeight hc.
Proof.
  intros _ Hg hc' jt. subst hc' jt. unfold HeightController.update.
  rewrite Hg. cbn [negb HeightController.grounded HeightController.startJumpAnimation andb].
  destruct (Rltb JUMP_DURATION (t - HeightController.startJumpAnimation hc));
    cbn; repeat split; try ring; try assumption;
    intros Hj; rewrite Hj; unfold MathUtils.lerp; ring.
Qed.

(** Two grounded calls after a jump committed at time 0: one in the middle
    of the jump window, where the offset is the blended one and the jump is
    kept, and one past its end, where the offset is 0 and the jump is
    reset. *)
Lemma grounded_update_resets_fall_keeps_jump_witness :
  (HeightController.startFallAnimation (HeightController.update jumping 0.25 0.016)
     = 0.25 /\
   HeightController.movePerFrame (HeightController.update jumping 0.25 0.016)
     = MathUtils.lerp 0 (1 * JUMP_AMPLITUDE)
         (MathUtils.UpDownCirc (MathUtils.clamp ((0.25 - 0) / JUMP_DURATION) 0 1)) /\
   HeightController.jumpFactor (HeightController.update jumping 0.25 0.016) = 1 /\
   HeightController.startJumpAnimation (HeightController.update jumping 0.25 0.016)
     = 0) /\
  (HeightController.startFallAnimation (HeightController.update jumping 1 0.016)
     = 1 /\
   HeightController.movePerFrame (HeightController.update jumping 1 0.016) = 0 /\
   HeightController.jumpFactor (HeightController.update jumping 1 0.016) = 0 /\
   HeightController.startJumpAnimation (HeightController.update jumping 1 0.016)
     = 1).
Proof.
  assert (Hdt : 0 <= 0.016) by lra.
  assert (Hg : HeightController.grounded jumping = true) by reflexivity.
  pose proof (grounded_update_resets_fall_keeps_jump jumping 0.25 0.016 Hdt Hg) as Hmid.
  pose proof (grounded_update_resets_fall_keeps_jump jumping 1 0.016 Hdt Hg) as Hend.
  cbv zeta in Hmid, Hend.
  change (HeightController.startJumpAnimation jumping) with 0 in Hmid, Hend.
  change (HeightController.jumpFactor jumping) with 1 in Hmid, Hend.
  rewrite (Rltb_false JUMP_DURATION (0.25 - 0)) in Hmid
    by (unfold JUMP_DURATION; lra).
  rewrite (Rltb_true JUMP_DURATION (1 - 0)) in Hend
    by (unfold JUMP_DURATION; lra).
  destruct Hmid as (_ & _ & _ & Hf1 & Hm1 & Hj1 & Hs1 & _).
  destruct Hend as (_ & _ & _ & Hf2 & Hm2 & Hj2 & Hs2 & _).
  repeat split; assumption.
Defined.

(** C1 as stated fails: on the ground, a quarter of a second into a jump of
    full strength, the frame's vertical delta is positive, not zero. *)
Lemma grounded_update_moves_during_jump :
  HeightController.grounded jumping = true /\
  0 < HeightController.movePerFrame (HeightController.update jumping 0.25 0.016).
Proof.
  split; [reflexivity |].
  unfold HeightController.update, jumping.
  cbn [negb HeightController.grounded HeightController.startJumpAnimation andb
       HeightController.jumpFactor HeightController.movePerFrame].
  rewrite Rltb_false by (unfold JUMP_DURATION; lra).
  cbn [HeightController.movePerFrame].
  rewrite lerp_zero_start.
  replace ((0.25 - 0) / JUMP_DURATION) with 0.5 by (unfold JUMP_DURATION; lra).
  rewrite clamp_inside by lra.
  pose proof UpDownCirc_mid_pos. unfold JUMP_AMPLITUDE. lra.
Qed.

(** ** ZoomController.update *)

(** The three ways a call goes: a new target restarts the animation, an
    old target animates, or nothing moves. *)
Lemma zoom_update_changed (zc : ZoomController.t) (zoomLevel t dt : R) :
  ZoomController.lastZoomLevel zc <> zoomLevel ->
  ZoomController.update zc zoomLevel t dt =
    ZoomController.mkZoomController (ZoomController.zoom zc) zoomLevel
      (t * SCROLL_ANIMATION_SPEED) true (ZoomController.zoom zc).
Proof.
  intros Hne. unfold ZoomController.update.
  rewrite (Reqb_false _ _ Hne).
  cbn [negb ZoomController.isAnimating ZoomController.startZoomAnimation
       ZoomController.startingZoom ZoomController.zoom ZoomController.lastZoomLevel].
  replace (t * SCROLL_ANIMATION_SPEED - t * SCROLL_ANIMATION_SPEED) with 0 by ring.
  rewrite easeOutExpo_0, lerp_at_0, Rleb_false by lra.
  reflexivity.
Qed.

Lemma zoom_update_animating (zc : ZoomController.t) (t dt : R) :
  ZoomController.isAnimating zc = true ->
  let progress :=
    t * SCROLL_ANIMATION_SPEED - ZoomController.startZoomAnimation zc in
  ZoomController.update zc (ZoomController.lastZoomLevel zc) t dt =
    ZoomController.mkZoomController
      (MathUtils.lerp (ZoomController.startingZoom zc)
         (MathUtils.clamp (ZoomController.lastZoomLevel zc)
            MIN_ZOOM_LEVEL MAX_ZOOM_LEVEL)
         (MathUtils.easeOutExpo progress))
      (ZoomController.lastZoomLevel zc)
      (ZoomController.startZoomAnimation zc)
      (if Rleb 1 progress then false else true)
      (ZoomController.startingZoom zc).
Proof.
  intros Ha progress. subst progress. unfold ZoomController.update.
  rewrite Reqb_true by reflexivity. cbn [negb]. rewrite Ha.
  cbn [ZoomController.isAnimating ZoomController.startZoomAnimation
       ZoomController.startingZoom ZoomController.zoom ZoomController.lastZoomLevel].
  reflexivity.
Qed.

Lemma zoom_update_idle (zc : ZoomController.t) (t dt : R) :
  ZoomController.isAnimating zc = false ->
  ZoomController.update zc (ZoomController.lastZoomLevel zc) t dt = zc.
Proof.
  intros Ha. unfold ZoomController.update.
  rewrite Reqb_true by reflexivity. cbn [negb]. rewrite Ha.
  destruct zc; cbn in *. subst. reflexivity.
Qed.


Lemma zoom_levels_ordered : MIN_ZOOM_LEVEL <= MAX_ZOOM_LEVEL.
Proof. unfold MIN_ZOOM_LEVEL, MAX_ZOOM_LEVEL. lra. Qed.

Lemma zoom_inv_constructor (t0 : R) : zoom_inv t0 ZoomController.constructor.
Proof.
  split; cbn.
  - unfold MIN_ZOOM_LEVEL, MAX_ZOOM_LEVEL. lra.
  - discriminate.
Qed.

Lemma zoom_inv_step (t0 t zoomLevel dt : R) (zc : ZoomController.t) :
  zoom_inv t0 zc -> t0 <= t ->
  zoom_inv t (ZoomController.update zc zoomLevel t dt).
Proof.
  intros [Hz Ha] Ht.
  destruct (Req_dec_T (ZoomController.lastZoomLevel zc) zoomLevel) as [He | Hne].
  - subst zoomLevel.
    destruct (ZoomController.isAnimating zc) eqn:Han.
    + destruct (Ha eq_refl) as [Hs Hst].
      rewrite zoom_update_animating by assumption. cbv zeta.
      assert (Hp : 0 <= t * SCROLL_ANIMATION_SPEED
                        - ZoomController.startZoomAnimation zc).
      { unfold SCROLL_ANIMATION_SPEED in *. lra. }
      split; cbn.
      * apply lerp_between; [assumption | | apply easeOutExpo_range; assumption].
        apply clamp_bounds, zoom_levels_ordered.
      * intros _. split; [assumption |]. unfold SCROLL_ANIMATION_SPEED in *. lra.
    + rewrite zoom_update_idle by assumption.
      split; [assumption |]. rewrite Han. discriminate.
  - rewrite zoom_update_changed by assumption.
    split; cbn; [assumption |]. intros _. split; [assumption | lra].
Qed.

Lemma zoom_inv_run (calls : list (R * R * R)) :
  forall (t0 : R) (zc : ZoomController.t),
    zoom_inv t0 zc ->
    nondecreasing_from t0 (map call_timestamp calls) ->
    exists tlast, zoom_inv tlast (ZoomController.run zc calls).
Proof.
  induction calls as [| [[zl t] dt] rest IH]; intros t0 zc Hinv Hsorted.
  - exists t0. exact Hinv.
  - cbn in Hsorted. destruct Hsorted as [Ht Hrest].
    cbn. apply (IH t).
    + apply (zoom_inv_step t0); assumption.
    + exact Hrest.
Qed.

Lemma nondecreasing_from_firstn (n : nat) :
  forall (ts : list R) (t0 : R),
    nondecreasing_from t0 ts -> nondecreasing_from t0 (firstn n ts).
Proof.
  induction n as [| n IH]; intros [| t rest] t0 H; cbn; try exact I.
  destruct H as [H1 H2]. split; [assumption | apply IH; assumption].
Qed.

Lemma nondecreasing_firstn (n : nat) (ts : list R) :
  nondecreasing ts -> nondecreasing (firstn n ts).
Proof.
  destruct ts as [| t rest]; destruct n; cbn; try (intros; exact I).
  apply nondecreasing_from_firstn.
Qed.

(** C4: from construction, along any sequence of [update] calls whose
    timestamps never decrease, whatever the requested zoom levels, the zoom
    distance after every call (after the first [n] calls, for every [n])
    lies within [MIN_ZOOM_LEVEL, MAX_ZOOM_LEVEL]. *)
Theorem zoom_always_in_range (calls : list (R * R * R)) (n : nat) :
  nondecreasing (map call_timestamp calls) ->
  MIN_ZOOM_LEVEL
    <= ZoomController.zoom (ZoomController.run ZoomController.constructor (firstn n calls))
    <= MAX_ZOOM_LEVEL.
Proof.
  intros Hsorted.
  apply (nondecreasing_firstn n) in Hsorted.
  rewrite firstn_map in Hsorted.
  destruct (firstn n calls) as [| c rest] eqn:E.
  - cbn. unfold MIN_ZOOM_LEVEL, MAX_ZOOM_LEVEL. lra.
  - cbn [map nondecreasing] in Hsorted.
    destruct (zoom_inv_run (c :: rest) (call_timestamp c) ZoomController.constructor)
      as [tl [Hr _]].
    + apply zoom_inv_constructor.
    + cbn. split; [lra | assumption].
    + exact Hr.
Qed.

Lemma zoom_always_in_range_witness :
  MIN_ZOOM_LEVEL
    <= ZoomController.zoom (ZoomController.run ZoomController.constructor (firstn 3 zoom_calls))
    <= MAX_ZOOM_LEVEL.
Proof.
  apply (zoom_always_in_range zoom_calls 3).
  cbn. lra.
Defined.

(** C5: a call whose target differs from the last requested one leaves the
    zoom where it was; the animation restarts from that value. *)
Theorem zoom_continuous_at_target_change
    (zc : ZoomController.t) (zoomLevel t dt : R) :
  ZoomController.lastZoomLevel zc <> zoomLevel ->
  ZoomController.zoom (ZoomController.update zc zoomLevel t dt)
    = ZoomController.zoom zc /\
  ZoomController.startingZoom (ZoomController.update zc zoomLevel t dt)
    = ZoomController.zoom zc /\
  ZoomController.isAnimating (ZoomController.update zc zoomLevel t dt) = true.
Proof.
  intros Hne. rewrite zoom_update_changed by assumption. cbn. auto.
Qed.

Lemma zoom_continuous_at_target_change_witness :
  ZoomController.zoom (ZoomController.update ZoomController.constructor 5 1 0.016)
    = ZoomController.zoom ZoomController.constructor.
Proof.
  apply (zoom_continuous_at_target_change ZoomController.constructor 5 1 0.016).
  cbn. lra.
Defined.

(** Once the progress of a running animation reaches 1 the animation is
    marked complete; the zoom is left at the eased interpolation for that
    progress. *)
Lemma zoom_animation_completes (zc : ZoomController.t) (t dt : R) :
  ZoomController.isAnimating zc = true ->
  1 <= t * SCROLL_ANIMATION_SPEED - ZoomController.startZoomAnimation zc ->
  let zc' := ZoomController.update zc (ZoomController.lastZoomLevel zc) t dt in
  ZoomController.isAnimating zc' = false /\
  ZoomController.zoom zc' =
    MathUtils.lerp (ZoomController.startingZoom zc)
      (MathUtils.clamp (ZoomController.lastZoomLevel zc) MIN_ZOOM_LEVEL MAX_ZOOM_LEVEL)
      (MathUtils.easeOutExpo
         (t * SCROLL_ANIMATION_SPEED - ZoomController.startZoomAnimation zc)).
Proof.
  intros Ha Hp zc'. subst zc'.
  rewrite zoom_update_animating by assumption. cbn.
  rewrite Rleb_true by assumption. auto.
Qed.

(** After completion, calls with the same target change nothing: the zoom
    is held at the value the last animated frame left. *)
Lemma zoom_held_while_target_unchanged (calls : list (R * R * R)) :
  forall zc : ZoomController.t,
    ZoomController.isAnimating zc = false ->
    Forall (fun c => fst (fst c) = ZoomController.lastZoomLevel zc) calls ->
    ZoomController.run zc calls = zc.
Proof.
  induction calls as [| [[zl t] dt] rest IH]; intros zc Ha Hall.
  - reflexivity.
  - inversion Hall as [| c l Hc Hrest]; subst. cbn in Hc. subst zl.
    cbn. rewrite zoom_update_idle by assumption.
    apply IH; assumption.
Qed.

(** The value left at completion is the clamped target only if the
    completing frame fell exactly on progress 1, or there was no distance to
    cover. *)
Lemma zoom_completion_value_on_target (start target progress : R) :
  MathUtils.lerp start target (MathUtils.easeOutExpo progress) = target <->
  progress = 1 \/ start = target.
Proof.
  unfold MathUtils.lerp. split.
  - intros H. destruct (Req_dec_T progress 1) as [Hp | Hp]; [left; assumption | right].
    pose proof (easeOutExpo_lt_1 progress Hp) as He.
    apply Rmult_eq_reg_r with (1 - MathUtils.easeOutExpo progress); lra.
  - intros [Hp | Hs].
    + subst progress. rewrite easeOutExpo_1. ring.
    + subst start. ring.
Qed.

(** C6, where the code departs from it: a target of 1.5 is requested at
    time 0 and the next frame comes 0.6 s later (progress 1.2).  The
    animation is then marked complete with the zoom strictly short of the
    clamped target, and every later call with the same target holds that
    value. *)
Theorem zoom_settles_short_of_target :
  let settled := ZoomController.run ZoomController.constructor late_frame_calls in
  ZoomController.isAnimating settled = false /\
  ZoomController.lastZoomLevel settled = 1.5 /\
  ZoomController.zoom settled < MathUtils.clamp 1.5 MIN_ZOOM_LEVEL MAX_ZOOM_LEVEL /\
  (forall t dt : R,
     ZoomController.zoom (ZoomController.update settled 1.5 t dt)
       = ZoomController.zoom settled).
Proof.
  cbv zeta. unfold ZoomController.run, late_frame_calls.
  cbn [fold_left fst snd].
  rewrite (zoom_update_changed ZoomController.constructor 1.5 0 0) by (cbn; lra).
  change (ZoomController.zoom ZoomController.constructor) with MIN_ZOOM_LEVEL.
  pose proof (zoom_update_animating
                (ZoomController.mkZoomController MIN_ZOOM_LEVEL 1.5
                   (0 * SCROLL_ANIMATION_SPEED) true MIN_ZOOM_LEVEL)
                0.6 0.1 eq_refl) as Hstep.
  cbn in Hstep. rewrite Hstep. clear Hstep.
  rewrite Rleb_true by (unfold SCROLL_ANIMATION_SPEED; lra).
  cbn [ZoomController.isAnimating ZoomController.lastZoomLevel ZoomController.zoom].
  split; [reflexivity |]. split; [reflexivity |]. split.
  - rewrite clamp_inside by (unfold MIN_ZOOM_LEVEL, MAX_ZOOM_LEVEL; lra).
    assert (Hlt : MathUtils.easeOutExpo
                    (0.6 * SCROLL_ANIMATION_SPEED - 0 * SCROLL_ANIMATION_SPEED) < 1).
    { apply easeOutExpo_lt_1. unfold SCROLL_ANIMATION_SPEED. lra. }
    unfold MathUtils.lerp, MIN_ZOOM_LEVEL. nra.
  - intros t dt.
    match goal with
    | |- ZoomController.zoom (ZoomController.update ?st _ _ _) = _ =>
        pose proof (zoom_update_idle st t dt eq_refl) as Hidle
    end.
    cbn in Hidle. rewrite Hidle. reflexivity.
Qed.

(** ** InputManager: the accumulated scroll value *)






(** A wheel event that takes effect (pointer locked, nonzero deltaY) leaves
    the scroll value inside the zoom range. *)
Lemma effective_wheel_in_range (im : InputManager.t) (deltaY : R) :
  InputManager.pointerLocked im = true -> deltaY <> 0 ->
  wheel_ok (wheel_of im) ->
  MIN_ZOOM_LEVEL <= wheel_of (InputManager.onMouseWheel im deltaY) <= MAX_ZOOM_LEVEL.
Proof.
  unfold wheel_ok, wheel_of, InputManager.onMouseWheel.
  unfold MIN_ZOOM_LEVEL, MAX_ZOOM_LEVEL, SCROLL_LEVEL_STEP.
  intros Hl Hd H. rewrite Hl.
  destruct (Rlt_dec deltaY 0) as [Hneg | Hnn].
  - rewrite Rltb_true by assumption. cbn. unfold Rmax.
    match goal with |- context [Rle_dec ?a ?b] => destruct (Rle_dec a b) end; lra.
  - rewrite Rltb_false by lra. rewrite Rltb_true by lra. cbn. unfold Rmin.
    match goal with |- context [Rle_dec ?a ?b] => destruct (Rle_dec a b) end; lra.
Qed.



(** ** CharacterController.updateRotation *)


Section Rotation.

Context {World : Type}.

Local Abbreviation State := (CharacterController.State World).

Lemma updateRotation_theta (ws : RenderSize) (s : State) :
  pitch_ok (CharacterController.theta
              (CharacterController.this (CharacterController.updateRotation ws s))).
Proof.
  unfold pitch_ok. cbn. apply clamp_bounds.
  pose proof PI_RGT_0. lra.
Qed.

Lemma updateRotation_phi (ws : RenderSize) (s : State) :
  CharacterController.phi
    (CharacterController.this (CharacterController.updateRotation ws s))
  = CharacterController.phi (CharacterController.this s)
    + - (InputManager.mouseXDelta
           (InputManager.currentMouse
              (CharacterController.inputManager (CharacterController.this s)))
         / width ws) * CharacterController.PHI_SPEED.
Proof. reflexivity. Qed.

Lemma rotations_theta (calls : list (list InputManager.Event * RenderSize)) :
  forall s : State,
    pitch_ok (CharacterController.theta (CharacterController.this s)) ->
    pitch_ok (CharacterController.theta
                (CharacterController.this (rotations s calls))).
Proof.
  induction calls as [| [es ws] rest IH]; intros s H; cbn.
  - assumption.
  - apply IH. apply updateRotation_theta.
Qed.

(** A mouse move far enough to the left, with the pointer locked, takes the
    yaw past any bound in one call. *)
Lemma yaw_exceeds (bound : R) (s : State) :
  exists dx : R,
    bound < CharacterController.phi
              (CharacterController.this
                 (CharacterController.updateRotation screen
                    (deliver [InputManager.PointerLockChange true;
                              InputManager.MouseMove dx 0] s))).
Proof.
  exists (- (bound - CharacterController.phi (CharacterController.this s) + 1) * 1920 / 2.5).
  rewrite updateRotation_phi. cbn.
  unfold CharacterController.PHI_SPEED. lra.
Qed.

(** C8: from a pitch within [-pi/2, pi/2] (the constructor's 0 is), along
    any sequence of [updateRotation] calls, whatever input events come in
    between and whatever the nonzero viewport sizes, the pitch theta stays
    within [-pi/2, pi/2]; the yaw phi is never clamped: each call adds
    -(mouseXDelta / width) * 2.5 to it, and a single call can take it past
    any bound. *)
Theorem pitch_clamped_yaw_accumulates
    (s : State) (calls : list (list InputManager.Event * RenderSize)) :
  pitch_ok (CharacterController.theta (CharacterController.this s)) ->
  Forall (fun c => viewport_ok (snd c)) calls ->
  let s' := rotations s calls in
  pitch_ok (CharacterController.theta (CharacterController.this s')) /\
  (forall ws : RenderSize,
     viewport_ok ws ->
     CharacterController.phi
       (CharacterController.this (CharacterController.updateRotation ws s'))
     = CharacterController.phi (CharacterController.this s')
       + - (InputManager.mouseXDelta
              (InputManager.currentMouse
                 (CharacterController.inputManager (CharacterController.this s')))
            / width ws) * CharacterController.PHI_SPEED) /\
  (forall bound : R, exists dx : R,
     bound < CharacterController.phi
               (CharacterController.this
                  (CharacterController.updateRotation screen
                     (deliver [InputManager.PointerLockChange true;
                               InputManager.MouseMove dx 0] s')))).
Proof.
  intros Hs _ s'. split; [| split].
  - apply rotations_theta. assumption.
  - intros ws _. apply updateRotation_phi.
  - intros bound. apply yaw_exceeds.
Qed.

End Rotation.

(** ** CharacterController.detectGround *)

Section Ground.

Context {World : Type}.
Variable setTranslation : World -> Vector3 -> World.
Variable castRay :
  World -> Vector3 -> Vector3 -> R -> bool -> QueryFilter -> option R.

Local Abbreviation State := (CharacterController.State World).
Local Abbreviation detectGround :=
  (CharacterController.detectGround setTranslation castRay).


(** The controller after [detectGround], by the outcome of the casts. *)
Lemma detectGround_this (s : State) :
  CharacterController.this (detectGround s) =
    let c := CharacterController.this s in
    let hc := CharacterController.heightController c in
    match downward_hit setTranslation castRay s with
    | Some toi =>
        if Rleb (Three.y (foot s) - Three.y (hit_point s toi)) 0 then
          CharacterController.set_heightController c
            (HeightController.setGrounded hc true)
        else
          CharacterController.set_heightController c
            (HeightController.setGrounded
               (HeightController.set_lastGroundHeight hc
                  (Three.y (hit_point s toi)
                   + Avatar.height (CharacterController.avatar c) / 2))
               false)
    | None =>
        match upward_hit setTranslation castRay s with
        | Some _ =>
            CharacterController.set_heightController
              (CharacterController.set_position c
                 (Three.set_y (CharacterController.position c)
                    (HeightController.lastGroundHeight hc)))
              (HeightController.setGrounded hc true)
        | None =>
            CharacterController.set_heightController c
              (HeightController.setGrounded hc false)
        end
    end.
Proof.
  unfold CharacterController.detectGround, CharacterController.castRay_0,
    downward_hit, upward_hit, hit_point, foot, world_at_character, pointAt.
  cbn [CharacterController.this CharacterController.scratch
       CharacterController.physics deref origin dir ray_0 vec3_0 vec3_1
       set_vec3_0 set_vec3_1 set_ray_origin set_ray_dir].
  destruct (castRay _ _ DOWN _ _ _) as [toi |].
  - destruct (Rleb _ 0); reflexivity.
  - destruct (castRay _ _ UP _ _ _); reflexivity.
Qed.

Lemma detectGround_physics (s : State) :
  CharacterController.physics (detectGround s) = world_at_character setTranslation s.
Proof.
  unfold CharacterController.detectGround, CharacterController.castRay_0,
    world_at_character.
  cbn [CharacterController.this CharacterController.scratch
       CharacterController.physics deref origin dir ray_0 vec3_0 vec3_1
       set_vec3_0 set_vec3_1 set_ray_origin set_ray_dir].
  destruct (castRay _ _ DOWN _ _ _) as [toi |].
  - destruct (Rleb _ 0); reflexivity.
  - destruct (castRay _ _ UP _ _ _); reflexivity.
Qed.

(** Case analysis on the two casts. *)
Ltac ground_cases s :=
  rewrite ?detectGround_this, ?detectGround_physics; cbv zeta;
  destruct (downward_hit setTranslation castRay s) as [? |];
  [ destruct (Rleb _ 0) | destruct (upward_hit setTranslation castRay s) ].

Lemma detectGround_movePerFrame (s : State) :
  HeightController.movePerFrame
    (CharacterController.heightController (CharacterController.this (detectGround s)))
  = HeightController.movePerFrame
      (CharacterController.heightController (CharacterController.this s)).
Proof. ground_cases s; reflexivity. Qed.

Lemma detectGround_position_xz (s : State) :
  Three.x (CharacterController.position (CharacterController.this (detectGround s)))
    = Three.x (CharacterController.position (CharacterController.this s)) /\
  Three.z (CharacterController.position (CharacterController.this (detectGround s)))
    = Three.z (CharacterController.position (CharacterController.this s)).
Proof. ground_cases s; split; reflexivity. Qed.

(** position.y is written only on a downward miss with an upward hit. *)
Lemma detectGround_position_y (s : State) :
  Three.y (CharacterController.position (CharacterController.this (detectGround s)))
  = match downward_hit setTranslation castRay s, upward_hit setTranslation castRay s with
    | None, Some _ =>
        HeightController.lastGroundHeight
          (CharacterController.heightController (CharacterController.this s))
    | _, _ => Three.y (CharacterController.position (CharacterController.this s))
    end.
Proof.
  rewrite detectGround_this. cbv zeta.
  destruct (downward_hit setTranslation castRay s) as [toi |].
  - destruct (Rleb _ 0); destruct (upward_hit setTranslation castRay s); reflexivity.
  - destruct (upward_hit setTranslation castRay s); reflexivity.
Qed.

(** The scratch objects after the call: [vec3_0] holds the position the
    collider was moved to, [vec3_1] the foot, and [ray_0] starts at
    [vec3_1] and points down, or up once the downward cast has missed; the
    two scratch quaternions are not used. *)
Lemma detectGround_scratch (s : State) :
  CharacterController.scratch (detectGround s)
  = mkScratch
      (quaternion_0 (CharacterController.scratch s))
      (quaternion_1 (CharacterController.scratch s))
      (CharacterController.position (CharacterController.this s))
      (foot s)
      (mkRay ref_vec3_1
         match downward_hit setTranslation castRay s with
         | Some _ => ref_DOWN
         | None => ref_UP
         end).
Proof.
  unfold CharacterController.detectGround, CharacterController.castRay_0,
    downward_hit, upward_hit, foot, world_at_character.
  cbn [CharacterController.this CharacterController.scratch
       CharacterController.physics deref origin dir ray_0 vec3_0 vec3_1
       set_vec3_0 set_vec3_1 set_ray_origin set_ray_dir].
  destruct (castRay _ _ DOWN _ _ _) as [toi |].
  - destruct (Rleb _ 0); reflexivity.
  - destruct (castRay _ _ UP _ _ _); reflexivity.
Qed.

(** With a downward hit the position is not touched at all. *)
Lemma detectGround_position_down_hit (s : State) (toi : R) :
  downward_hit setTranslation castRay s = Some toi ->
  CharacterController.position (CharacterController.this (detectGround s))
    = CharacterController.position (CharacterController.this s).
Proof.
  intros Hd. rewrite detectGround_this. cbv zeta. rewrite Hd.
  destruct (Rleb _ 0); reflexivity.
Qed.

Lemma detectGround_keeps (s : State) :
  CharacterController.inputManager (CharacterController.this (detectGround s))
    = CharacterController.inputManager (CharacterController.this s) /\
  CharacterController.zoomController (CharacterController.this (detectGround s))
    = CharacterController.zoomController (CharacterController.this s).
Proof. ground_cases s; split; reflexivity. Qed.

(** The scratch vectors and the ray are working storage: what they held
    before the call has no bearing on the controller or the world after
    it. *)
Lemma detectGround_ignores_scratch (s : State) (sc : Scratch) :
  CharacterController.this (detectGround (CharacterController.set_scratch s sc))
    = CharacterController.this (detectGround s) /\
  CharacterController.physics (detectGround (CharacterController.set_scratch s sc))
    = CharacterController.physics (detectGround s).
Proof.
  rewrite !detectGround_this, !detectGround_physics. split; reflexivity.
Qed.

(** C3: the four outcomes of [detectGround].  A downward hit at
    non-positive distance sets grounded; a downward hit at positive distance
    clears it and records the hit point's Y plus the avatar half-height as
    lastGroundHeight; a downward miss with an upward hit from the same
    origin snaps position.y to lastGroundHeight and sets grounded; two
    misses clear grounded. *)
Theorem detectGround_outcomes (s : State) :
  let c := CharacterController.this s in
  let c' := CharacterController.this (detectGround s) in
  let hc' := CharacterController.heightController c' in
  let half := Avatar.height (CharacterController.avatar c) / 2 in
  (forall toi : R,
     downward_hit setTranslation castRay s = Some toi ->
     Three.y (foot s) - Three.y (hit_point s toi) <= 0 ->
     HeightController.grounded hc' = true) /\
  (forall toi : R,
     downward_hit setTranslation castRay s = Some toi ->
     0 < Three.y (foot s) - Three.y (hit_point s toi) ->
     HeightController.grounded hc' = false /\
     HeightController.lastGroundHeight hc' = Three.y (hit_point s toi) + half) /\
  (forall toi : R,
     downward_hit setTranslation castRay s = None ->
     upward_hit setTranslation castRay s = Some toi ->
     Three.y (CharacterController.position c')
       = HeightController.lastGroundHeight (CharacterController.heightController c) /\
     HeightController.grounded hc' = true) /\
  (downward_hit setTranslation castRay s = None ->
   upward_hit setTranslation castRay s = None ->
   HeightController.grounded hc' = false).
Proof.
  cbv zeta. rewrite detectGround_this. cbv zeta.
  split; [| split; [| split]].
  - intros toi Hd Hle. rewrite Hd, Rleb_true by assumption. reflexivity.
  - intros toi Hd Hlt. rewrite Hd, Rleb_false by assumption. split; reflexivity.
  - intros toi Hd Hu. rewrite Hd, Hu. split; reflexivity.
  - intros Hd Hu. rewrite Hd, Hu. reflexivity.
Qed.

(** C10, as the code has it: everything [detectGround] does.  position.x
    and position.z are unchanged; position.y is written only when the
    downward ray misses and the upward ray hits, and then with
    lastGroundHeight; phi, theta, the orientation, the zoom state, the
    camera, the input and head-bob state and every HeightController field
    other than grounded and lastGroundHeight are unchanged; the world is the
    old one with the collider moved to the character.  Besides the grounded
    flag and lastGroundHeight, the call overwrites the module-level scratch
    objects: [vec3_0] with the position, [vec3_1] with the foot, and [ray_0]
    with origin [vec3_1] and direction DOWN, or UP once the downward cast
    has missed; the two scratch quaternions are kept. *)
Theorem detectGround_frame (s : State) :
  let c := CharacterController.this s in
  let c' := CharacterController.this (detectGround s) in
  let hc := CharacterController.heightController c in
  let hc' := CharacterController.heightController c' in
  let sc := CharacterController.scratch s in
  let sc' := CharacterController.scratch (detectGround s) in
  let half := Avatar.height (CharacterController.avatar c) / 2 in
  Three.x (CharacterController.position c') = Three.x (CharacterController.position c) /\
  Three.z (CharacterController.position c') = Three.z (CharacterController.position c) /\
  Three.y (CharacterController.position c')
    = match downward_hit setTranslation castRay s, upward_hit setTranslation castRay s with
      | None, Some _ => HeightController.lastGroundHeight hc
      | _, _ => Three.y (CharacterController.position c)
      end /\
  CharacterController.phi c' = CharacterController.phi c /\
  CharacterController.theta c' = CharacterController.theta c /\
  CharacterController.quaternion c' = CharacterController.quaternion c /\
  CharacterController.zoomController c' = CharacterController.zoomController c /\
  CharacterController.camera c' = CharacterController.camera c /\
  CharacterController.inputManager c' = CharacterController.inputManager c /\
  CharacterController.headBobController c' = CharacterController.headBobController c /\
  CharacterController.isMoving2D c' = CharacterController.isMoving2D c /\
  CharacterController.avatar c' = CharacterController.avatar c /\
  HeightController.height hc' = HeightController.height hc /\
  HeightController.lastHeight hc' = HeightController.lastHeight hc /\
  HeightController.movePerFrame hc' = HeightController.movePerFrame hc /\
  HeightController.startFallAnimation hc' = HeightController.startFallAnimation hc /\
  HeightController.isAnimating hc' = HeightController.isAnimating hc /\
  HeightController.jumpFactor hc' = HeightController.jumpFactor hc /\
  HeightController.startJumpAnimation hc' = HeightController.startJumpAnimation hc /\
  CharacterController.physics (detectGround s)
    = setTranslation (CharacterController.physics s) (CharacterController.position c) /\
  (* the two fields of the height controller the call sets *)
  HeightController.grounded hc'
    = match downward_hit setTranslation castRay s with
      | Some toi => Rleb (Three.y (foot s) - Three.y (hit_point s toi)) 0
      | None =>
          match upward_hit setTranslation castRay s with
          | Some _ => true
          | None => false
          end
      end /\
  HeightController.lastGroundHeight hc'
    = match downward_hit setTranslation castRay s with
      | Some toi =>
          if Rleb (Three.y (foot s) - Three.y (hit_point s toi)) 0
          then HeightController.lastGroundHeight hc
          else Three.y (hit_point s toi) + half
      | None => HeightController.lastGroundHeight hc
      end /\
  (* the scratch objects *)
  vec3_0 sc' = CharacterController.position c /\
  vec3_1 sc' = foot s /\
  ray_0 sc'
    = mkRay ref_vec3_1
        match downward_hit setTranslation castRay s with
        | Some _ => ref_DOWN
        | None => ref_UP
        end /\
  quaternion_0 sc' = quaternion_0 sc /\
  quaternion_1 sc' = quaternion_1 sc.
Proof.
  cbv zeta. rewrite detectGround_scratch.
  rewrite detectGround_this, detectGround_physics. cbv zeta.
  destruct (downward_hit setTranslation castRay s) as [toi |].
  - destruct (Rleb _ 0); destruct (upward_hit setTranslation castRay s); cbn; repeat split; reflexivity.
  - destruct (upward_hit setTranslation castRay s); cbn; repeat split; reflexivity.
Qed.

End Ground.

(** ** CharacterController.update: the frame pipeline *)

Section Pipeline.

Context {World : Type}.
Variable setTranslation : World -> Vector3 -> World.
Variable castRay :
  World -> Vector3 -> Vector3 -> R -> bool -> QueryFilter -> option R.
Variable lookAt : Vector3 -> Vector3 -> Quaternion.

Local Abbreviation State := (CharacterController.State World).
Local Abbreviation detectGround :=
  (CharacterController.detectGround setTranslation castRay).
Local Abbreviation updateCamera :=
  (CharacterController.updateCamera castRay lookAt).
Local Abbreviation update :=
  (CharacterController.update setTranslation castRay lookAt).
Local Abbreviation this := CharacterController.this.
Local Abbreviation position := CharacterController.position.
Local Abbreviation heightController := CharacterController.heightController.

(** Step 1 touches the angles and the orientation only. *)
Lemma updateRotation_keeps (ws : RenderSize) (s : State) :
  position (this (CharacterController.updateRotation ws s)) = position (this s) /\
  heightController (this (CharacterController.updateRotation ws s))
    = heightController (this s) /\
  CharacterController.inputManager (this (CharacterController.updateRotation ws s))
    = CharacterController.inputManager (this s) /\
  CharacterController.zoomController (this (CharacterController.updateRotation ws s))
    = CharacterController.zoomController (this s).
Proof. repeat split; reflexivity. Qed.

(** Rotating a horizontal direction about the vertical axis keeps it
    horizontal. *)
Lemma turned_forward_is_level (angle : R) :
  Three.y (Three.applyQuaternion FORWARD (Three.setFromAxisAngle UP angle)) = 0.
Proof. cbn. ring. Qed.

Lemma turned_left_is_level (angle : R) :
  Three.y (Three.applyQuaternion LEFT (Three.setFromAxisAngle UP angle)) = 0.
Proof. cbn. ring. Qed.

(** Step 2 adds to position.y the vertical delta stored in the height
    controller when the frame began. *)
Lemma updateTranslation_y (dt : R) (s : State) :
  Three.y (position (this (CharacterController.updateTranslation dt s)))
  = Three.y (position (this s))
    + HeightController.movePerFrame (heightController (this s)).
Proof.
  unfold CharacterController.updateTranslation. cbv zeta.
  cbn [CharacterController.this CharacterController.position
       CharacterController.set_position CharacterController.set_isMoving2D
       CharacterController.set_heightController
       CharacterController.heightController
       Three.y Three.add Three.add_y Three.multiplyScalar].
  rewrite turned_forward_is_level, turned_left_is_level.
  destruct (HeightController.grounded _); cbn; ring.
Qed.

(** Step 2 moves x and z along the forward and the left direction turned
    by the yaw, by the key velocities times ten times the frame time. *)
Lemma updateTranslation_xz (dt : R) (s : State) :
  let im := CharacterController.inputManager (this s) in
  let a := (CharacterController.phi (this s) + HALF_PI) / 2 in
  let k := dt * 10 in
  Three.x (position (this (CharacterController.updateTranslation dt s)))
  = Three.x (position (this s))
    + - (2 * sin a * cos a) * (forwardVelocity im * k)
    + - (cos a * cos a - sin a * sin a) * (sideVelocity im * k) /\
  Three.z (position (this (CharacterController.updateTranslation dt s)))
  = Three.z (position (this s))
    + - (cos a * cos a - sin a * sin a) * (forwardVelocity im * k)
    + (2 * sin a * cos a) * (sideVelocity im * k).
Proof.
  cbv zeta. unfold CharacterController.updateTranslation, forwardVelocity,
    sideVelocity, keySpeed. cbv zeta.
  cbn [CharacterController.this CharacterController.position
       CharacterController.set_position CharacterController.set_isMoving2D
       CharacterController.set_heightController
       Three.x Three.y Three.z Three.add Three.add_y Three.multiplyScalar
       Three.applyQuaternion Three.setFromAxisAngle
       Three.qx Three.qy Three.qz Three.qw FORWARD LEFT UP].
  split; ring.
Qed.

(** Step 2 commits the jump input while grounded, and nothing else of the
    height controller. *)
Lemma updateTranslation_heightController (dt : R) (s : State) :
  heightController (this (CharacterController.updateTranslation dt s))
  = if HeightController.grounded (heightController (this s))
    then HeightController.setJumpFactor (heightController (this s))
           (InputManager.runActionByKey
              (CharacterController.inputManager (this s)) KEYS.space ONE ZERO)
    else heightController (this s).
Proof. reflexivity. Qed.

Lemma updateTranslation_keeps (dt : R) (s : State) :
  HeightController.grounded
    (heightController (this (CharacterController.updateTranslation dt s)))
  = HeightController.grounded (heightController (this s)) /\
  HeightController.movePerFrame
    (heightController (this (CharacterController.updateTranslation dt s)))
  = HeightController.movePerFrame (heightController (this s)) /\
  CharacterController.inputManager (this (CharacterController.updateTranslation dt s))
    = CharacterController.inputManager (this s) /\
  CharacterController.zoomController (this (CharacterController.updateTranslation dt s))
    = CharacterController.zoomController (this s).
Proof.
  rewrite updateTranslation_heightController.
  destruct (HeightController.grounded (heightController (this s))) eqn:E;
    repeat split; try reflexivity; assumption.
Qed.

(** Step 3 recomputes the height controller and leaves the position
    alone. *)
Lemma updateGravity_effect (t dt : R) (s : State) :
  position (this (CharacterController.updateGravity t dt s)) = position (this s) /\
  heightController (this (CharacterController.updateGravity t dt s))
    = HeightController.update (heightController (this s)) t dt /\
  CharacterController.inputManager (this (CharacterController.updateGravity t dt s))
    = CharacterController.inputManager (this s) /\
  CharacterController.zoomController (this (CharacterController.updateGravity t dt s))
    = CharacterController.zoomController (this s).
Proof. repeat split; reflexivity. Qed.

(** Steps 5 to 7 leave the body and the height controller alone. *)
Lemma updateZoom_effect (t dt : R) (s : State) :
  position (this (CharacterController.updateZoom t dt s)) = position (this s) /\
  heightController (this (CharacterController.updateZoom t dt s))
    = heightController (this s) /\
  CharacterController.inputManager (this (CharacterController.updateZoom t dt s))
    = CharacterController.inputManager (this s) /\
  CharacterController.zoomController (this (CharacterController.updateZoom t dt s))
    = ZoomController.update (CharacterController.zoomController (this s))
        (wheel_of (CharacterController.inputManager (this s))) t dt.
Proof. repeat split; reflexivity. Qed.

Lemma updateCamera_keeps (t dt : R) (s : State) :
  position (this (updateCamera t dt s)) = position (this s) /\
  heightController (this (updateCamera t dt s)) = heightController (this s) /\
  CharacterController.inputManager (this (updateCamera t dt s))
    = CharacterController.inputManager (this s) /\
  CharacterController.zoomController (this (updateCamera t dt s))
    = CharacterController.zoomController (this s).
Proof.
  unfold CharacterController.updateCamera. cbv zeta.
  destruct (Rleb _ _).
  - destruct (HeadBobController.getHeadBob _ _ _) as [hb bob].
    destruct (CharacterController.castRay_0 _ _ _ _ _ _); repeat split; reflexivity.
  - repeat split; reflexivity.
Qed.

(** Step 6 puts the camera on the circle of radius zoom around the body;
    the head bob moves it vertically only. *)
Lemma updateCamera_places (t dt : R) (s : State) :
  let c := this s in
  let cam := Camera.position (CharacterController.camera (this (updateCamera t dt s))) in
  let zoom := ZoomController.zoom (CharacterController.zoomController c) in
  Three.x cam = Three.x (position c) + zoom * cos (- CharacterController.phi c) /\
  Three.z cam = Three.z (position c) + zoom * sin (- CharacterController.phi c) /\
  (Avatar.width (CharacterController.avatar c) < zoom ->
   Three.y cam
   = Three.y (position c) + zoom * cos (CharacterController.theta c + HALF_PI)).
Proof.
  cbv zeta. unfold CharacterController.updateCamera. cbv zeta.
  destruct (Rleb _ _) eqn:Efp.
  - destruct (HeadBobController.getHeadBob _ _ _) as [hb bob].
    destruct (CharacterController.castRay_0 _ _ _ _ _ _);
      (split; [reflexivity | split; [reflexivity |]]);
      intros Hz; rewrite Rleb_false in Efp by assumption; discriminate.
  - repeat split; reflexivity.
Qed.

Lemma resetInput_effect (s : State) :
  position (this (CharacterController.resetInput s)) = position (this s) /\
  heightController (this (CharacterController.resetInput s)) = heightController (this s) /\
  CharacterController.zoomController (this (CharacterController.resetInput s))
    = CharacterController.zoomController (this s) /\
  CharacterController.camera (this (CharacterController.resetInput s))
    = CharacterController.camera (this s) /\
  InputManager.mouseXDelta
    (InputManager.currentMouse
       (CharacterController.inputManager (this (CharacterController.resetInput s)))) = 0 /\
  InputManager.mouseYDelta
    (InputManager.currentMouse
       (CharacterController.inputManager (this (CharacterController.resetInput s)))) = 0 /\
  wheel_of (CharacterController.inputManager (this (CharacterController.resetInput s)))
    = wheel_of (CharacterController.inputManager (this s)).
Proof. repeat split; reflexivity. Qed.


(** The scratch objects carry nothing from one step to the next: two
    states with the same body come out of a frame with the same body,
    whatever their scratch objects held. *)
Lemma updateCamera_same_body (t dt : R) (s s' : State) :
  same_body s s' -> same_body (updateCamera t dt s) (updateCamera t dt s').
Proof.
  destruct s as [c sc w], s' as [c' sc' w']. intros [Hc Hw]. cbn in Hc, Hw. subst c' w'.
  unfold CharacterController.updateCamera, CharacterController.castRay_0, pointAt.
  cbn [CharacterController.this CharacterController.scratch
       CharacterController.physics deref origin dir ray_0 vec3_0 vec3_1
       set_vec3_0 set_vec3_1 set_ray_origin set_ray_dir].
  destruct (Rleb _ _); [| split; reflexivity].
  destruct (HeadBobController.getHeadBob _ _ _) as [hb bob].
  cbn [CharacterController.this CharacterController.scratch
       CharacterController.physics deref origin dir ray_0 vec3_0 vec3_1
       set_vec3_0 set_vec3_1 set_ray_origin set_ray_dir].
  destruct (castRay _ _ _ _ _ _); split; reflexivity.
Qed.

Lemma detectGround_same_body (s s' : State) :
  same_body s s' -> same_body (detectGround s) (detectGround s').
Proof.
  destruct s as [c sc w], s' as [c' sc' w']. intros [Hc Hw]. cbn in Hc, Hw. subst c' w'.
  split.
  - rewrite !detectGround_this. reflexivity.
  - rewrite !detectGround_physics. reflexivity.
Qed.

Lemma update_ignores_scratch (ws : RenderSize) (t dt : R) (s : State) (sc : Scratch) :
  same_body (update ws t dt (CharacterController.set_scratch s sc)) (update ws t dt s).
Proof.
  unfold CharacterController.update. cbv zeta.
  assert (Hstep : forall u u' : State, same_body u u' ->
            same_body (CharacterController.resetInput u) (CharacterController.resetInput u')).
  { intros [c1 sc1 w1] [c2 sc2 w2] [Hc Hw]. cbn in Hc, Hw. subst. split; reflexivity. }
  apply Hstep. apply updateCamera_same_body.
  assert (Hzoom : forall u u' : State, same_body u u' ->
            same_body (CharacterController.updateZoom t dt u)
              (CharacterController.updateZoom t dt u')).
  { intros [c1 sc1 w1] [c2 sc2 w2] [Hc Hw]. cbn in Hc, Hw. subst. split; reflexivity. }
  apply Hzoom. apply detectGround_same_body.
  destruct s as [c sc0 w]. split; reflexivity.
Qed.

(** C2, as the code has it.  A frame is the seven steps in this order:
    rotation, translation, vertical motion update, ground detection, zoom,
    camera placement, input reset.  The rotation step turns the yaw and the
    clamped pitch by the mouse deltas and leaves the position alone.  The
    translation step moves x and z by the key velocities, commits the jump
    input to the height controller while it is grounded, and adds to
    position.y the vertical delta the height controller held when the frame
    began, computed by the vertical motion update of the frame before (0
    for a controller just constructed).  The vertical motion update of this
    frame changes the height controller and nothing else, and runs on the
    grounded flag left by the previous ground detection; its delta reaches
    position.y in the translation step of the next frame.  Ground detection
    keeps x and z, writes y only on a downward miss with an upward hit, and
    leaves the height controller the next frame starts with. *)
Theorem frame_steps_and_vertical_lag (ws : RenderSize) (t dt : R) (s : State) :
  let s1 := CharacterController.updateRotation ws s in
  let s2 := CharacterController.updateTranslation dt s1 in
  let s3 := CharacterController.updateGravity t dt s2 in
  let s4 := detectGround s3 in
  let s5 := CharacterController.updateZoom t dt s4 in
  let s6 := updateCamera t dt s5 in
  let s7 := CharacterController.resetInput s6 in
  let delta := HeightController.movePerFrame
                 (HeightController.update (heightController (this s2)) t dt) in
  let im := CharacterController.inputManager (this s) in
  let mouse := InputManager.currentMouse im in
  let a := (CharacterController.phi (this s1) + HALF_PI) / 2 in
  update ws t dt s = s7 /\
  Three.y (position (this s2))
    = Three.y (position (this s))
      + HeightController.movePerFrame (heightController (this s)) /\
  position (this s3) = position (this s2) /\
  heightController (this s3)
    = HeightController.update (heightController (this s2)) t dt /\
  HeightController.grounded (heightController (this s2))
    = HeightController.grounded (heightController (this s)) /\
  Three.x (position (this s4)) = Three.x (position (this s3)) /\
  Three.z (position (this s4)) = Three.z (position (this s3)) /\
  position (this s7) = position (this s4) /\
  heightController (this s7) = heightController (this s4) /\
  HeightController.movePerFrame (heightController (this s7)) = delta /\
  (forall (ws' : RenderSize) (dt' : R),
     Three.y (position
                (this (CharacterController.updateTranslation dt'
                         (CharacterController.updateRotation ws' s7))))
     = Three.y (position (this s7)) + delta) /\
  CharacterController.zoomController (this s7)
    = ZoomController.update (CharacterController.zoomController (this s))
        (wheel_of (CharacterController.inputManager (this s))) t dt /\
  Three.x (Camera.position (CharacterController.camera (this s7)))
    = Three.x (position (this s7))
      + ZoomController.zoom (CharacterController.zoomController (this s7))
        * cos (- CharacterController.phi (this s5)) /\
  Three.z (Camera.position (CharacterController.camera (this s7)))
    = Three.z (position (this s7))
      + ZoomController.zoom (CharacterController.zoomController (this s7))
        * sin (- CharacterController.phi (this s5)) /\
  InputManager.mouseXDelta
    (InputManager.currentMouse (CharacterController.inputManager (this s7))) = 0 /\
  InputManager.mouseYDelta
    (InputManager.currentMouse (CharacterController.inputManager (this s7))) = 0 /\
  (* step 1, the rotation *)
  CharacterController.phi (this s1)
    = CharacterController.phi (this s)
      + - (InputManager.mouseXDelta mouse / width ws) * CharacterController.PHI_SPEED /\
  CharacterController.theta (this s1)
    = MathUtils.clamp
        (CharacterController.theta (this s)
         + - (InputManager.mouseYDelta mouse / height ws)
           * CharacterController.THETA_SPEED)
        (- PI / 2) (PI / 2) /\
  CharacterController.quaternion (this s1)
    = Three.multiply
        (Three.setFromAxisAngle UP (CharacterController.phi (this s1)))
        (Three.setFromAxisAngle RIGHT (CharacterController.theta (this s1))) /\
  position (this s1) = position (this s) /\
  heightController (this s1) = heightController (this s) /\
  (* step 2, the horizontal move and the jump input *)
  Three.x (position (this s2))
    = Three.x (position (this s))
      + - (2 * sin a * cos a) * (forwardVelocity im * (dt * 10))
      + - (cos a * cos a - sin a * sin a) * (sideVelocity im * (dt * 10)) /\
  Three.z (position (this s2))
    = Three.z (position (this s))
      + - (cos a * cos a - sin a * sin a) * (forwardVelocity im * (dt * 10))
      + (2 * sin a * cos a) * (sideVelocity im * (dt * 10)) /\
  heightController (this s2)
    = (if HeightController.grounded (heightController (this s))
       then HeightController.setJumpFactor (heightController (this s))
              (InputManager.runActionByKey im KEYS.space ONE ZERO)
       else heightController (this s)) /\
  (forall (p : Vector3) (av : Avatar.t) (cam : Camera.t),
     HeightController.movePerFrame
       (heightController (CharacterController.constructor p av cam)) = 0) /\
  (* step 3 changes the height controller only *)
  this s3
    = CharacterController.set_heightController (this s2)
        (HeightController.update (heightController (this s2)) t dt) /\
  (* step 4, the one write to position.y *)
  Three.y (position (this s4))
    = match downward_hit setTranslation castRay s3,
            upward_hit setTranslation castRay s3 with
      | None, Some _ =>
          HeightController.lastGroundHeight (heightController (this s3))
      | _, _ => Three.y (position (this s3))
      end.
Proof.
  intros s1 s2 s3 s4 s5 s6 s7 delta im mouse a.
  destruct (updateRotation_keeps ws s) as (Hp1 & Hh1 & Hi1 & Hz1).
  destruct (updateTranslation_keeps dt s1) as (Hg2 & Hm2 & Hi2 & Hz2).
  destruct (updateGravity_effect t dt s2) as (Hp3 & Hh3 & Hi3 & Hz3).
  destruct (detectGround_position_xz setTranslation castRay s3) as (Hx4 & Hzz4).
  destruct (detectGround_keeps setTranslation castRay s3) as (Hi4 & Hz4).
  destruct (updateZoom_effect t dt s4) as (Hp5 & Hh5 & Hi5 & Hz5).
  destruct (updateCamera_keeps t dt s5) as (Hp6 & Hh6 & Hi6 & Hz6).
  destruct (updateCamera_places t dt s5) as (Hcx & Hcz & _).
  destruct (resetInput_effect s6) as (Hp7 & Hh7 & Hz7 & Hc7 & Hdx & Hdy & _).
  destruct (updateTranslation_xz dt s1) as (Hx2 & Hzz2). cbv zeta in Hx2, Hzz2.
  fold s1 in Hp1, Hh1, Hi1, Hz1. fold s2 in Hg2, Hm2, Hi2, Hz2.
  fold s3 in Hp3, Hh3, Hi3, Hz3. fold s4 in Hx4, Hzz4, Hi4, Hz4.
  fold s5 in Hp5, Hh5, Hi5, Hz5. fold s6 in Hp6, Hh6, Hi6, Hz6, Hcx, Hcz.
  fold s7 in Hp7, Hh7, Hz7, Hc7, Hdx, Hdy.
  fold s1 s2 in Hx2, Hzz2. rewrite Hp1, Hi1 in Hx2, Hzz2. fold im a in Hx2, Hzz2.
  assert (Hpos7 : position (this s7) = position (this s4)) by congruence.
  assert (Hhc7 : heightController (this s7) = heightController (this s4)) by congruence.
  assert (Hmove : HeightController.movePerFrame (heightController (this s7)) = delta).
  { rewrite Hhc7. subst s4. rewrite detectGround_movePerFrame. rewrite Hh3. reflexivity. }
  repeat match goal with |- _ /\ _ => split end.
  - reflexivity.
  - subst s2. rewrite updateTranslation_y. rewrite Hp1, Hh1. reflexivity.
  - exact Hp3.
  - exact Hh3.
  - rewrite Hg2, Hh1. reflexivity.
  - exact Hx4.
  - exact Hzz4.
  - exact Hpos7.
  - exact Hhc7.
  - exact Hmove.
  - intros ws' dt'. rewrite updateTranslation_y.
    destruct (updateRotation_keeps ws' s7) as (Hp & Hh & _).
    rewrite Hp, Hh, Hmove. reflexivity.
  - rewrite Hz7, Hz6, Hz5, Hz4, Hz3, Hz2, Hz1.
    rewrite Hi4, Hi3, Hi2, Hi1. reflexivity.
  - rewrite Hc7, Hcx, Hp7, Hp6, Hz7, Hz6. reflexivity.
  - rewrite Hc7, Hcz, Hp7, Hp6, Hz7, Hz6. reflexivity.
  - exact Hdx.
  - exact Hdy.
  - reflexivity.
  - reflexivity.
  - reflexivity.
  - exact Hp1.
  - exact Hh1.
  - exact Hx2.
  - exact Hzz2.
  - subst s2. rewrite updateTranslation_heightController. rewrite Hh1, Hi1.
    reflexivity.
  - intros p av cam. reflexivity.
  - reflexivity.
  - subst s4. apply detectGround_position_y.
Qed.

End Pipeline.

(** ** The first frame of the demo scene

    The capsule of the demo (width 1, height 2.5) starts at height 11.25
    over a ground plane at height 0; the first frame comes at time 1. *)

Lemma plane_first_frame_hits_ground :
  let s3 :=
    CharacterController.updateGravity 1 0.016
      (CharacterController.updateTranslation 0.016
         (CharacterController.updateRotation screen (PlaneWorld.start 11.25 0))) in
  downward_hit PlaneWorld.setTranslation PlaneWorld.castRay s3 = Some 10.
Proof.
  cbv zeta. unfold downward_hit, PlaneWorld.castRay, world_at_character, foot.
  cbn. rewrite Reqb_false by lra. rewrite !Rleb_true by lra.
  cbn. f_equal. lra.
Qed.

Lemma first_fall_delta :
  HeightController.movePerFrame
    (HeightController.update HeightController.constructor 1 0.016) = -4.905.
Proof.
  unfold HeightController.update.
  cbn [negb andb HeightController.constructor HeightController.grounded
       HeightController.startFallAnimation HeightController.lastHeight
       HeightController.jumpFactor HeightController.startJumpAnimation
       HeightController.movePerFrame HeightController.height].
  rewrite lerp_zero_start. cbn. lra.
Qed.

(** C2 as stated fails: in the first frame the vertical motion update
    computes a delta of -4.905, yet position.y, 11.25 before the frame, is
    11.25 after it (the ground is 10 below the foot, so ground detection
    does not write it either). *)
Lemma first_frame_delta_not_added :
  let s := PlaneWorld.start 11.25 0 in
  let s' := PlaneWorld.update screen 1 0.016 s in
  Three.y (CharacterController.position (CharacterController.this s)) = 11.25 /\
  HeightController.movePerFrame
    (CharacterController.heightController (CharacterController.this s')) = -4.905 /\
  Three.y (CharacterController.position (CharacterController.this s')) = 11.25.
Proof.
  cbv zeta. unfold PlaneWorld.update, CharacterController.update. cbv zeta.
  pose proof plane_first_frame_hits_ground as Hd. cbv zeta in Hd.
  set (s3 := CharacterController.updateGravity 1 0.016 _) in *.
  set (s4 := CharacterController.detectGround _ _ s3).
  set (s5 := CharacterController.updateZoom 1 0.016 s4).
  destruct (resetInput_effect
              (CharacterController.updateCamera PlaneWorld.castRay PlaneWorld.lookAt
                 1 0.016 s5)) as (Hp7 & Hh7 & _).
  destruct (updateCamera_keeps PlaneWorld.castRay PlaneWorld.lookAt 1 0.016 s5)
    as (Hp6 & Hh6 & _).
  destruct (updateZoom_effect 1 0.016 s4) as (Hp5 & Hh5 & _).
  fold s5 in Hp5, Hh5.
  split; [reflexivity |]. split.
  - rewrite Hh7, Hh6, Hh5. subst s4. rewrite detectGround_movePerFrame.
    subst s3. exact first_fall_delta.
  - rewrite Hp7, Hp6, Hp5. subst s4.
    rewrite (detectGround_position_down_hit _ _ s3 10 Hd).
    subst s3. cbn. lra.
Qed.

(** The casts of the ground detection on the sample world, for a capsule
    well above the plane, standing on it, sunk below it within reach of the
    upward ray, and far below. *)
Lemma plane_cast_above :
  downward_hit PlaneWorld.setTranslation PlaneWorld.castRay (PlaneWorld.start 11.25 0)
    = Some 10.
Proof.
  unfold downward_hit, PlaneWorld.castRay, world_at_character, foot.
  cbn. rewrite Reqb_false by lra. rewrite !Rleb_true by lra.
  cbn. f_equal. lra.
Qed.

Lemma plane_cast_standing :
  downward_hit PlaneWorld.setTranslation PlaneWorld.castRay (PlaneWorld.start 1.25 0)
    = Some 0.
Proof.
  unfold downward_hit, PlaneWorld.castRay, world_at_character, foot.
  cbn. rewrite Reqb_false by lra. rewrite !Rleb_true by lra.
  cbn. f_equal. lra.
Qed.

Lemma plane_cast_sunk :
  downward_hit PlaneWorld.setTranslation PlaneWorld.castRay (PlaneWorld.start 1 0)
    = None /\
  upward_hit PlaneWorld.setTranslation PlaneWorld.castRay (PlaneWorld.start 1 0)
    = Some 0.25.
Proof.
  unfold downward_hit, upward_hit, PlaneWorld.castRay, world_at_character, foot.
  cbn. split.
  - rewrite Reqb_false by lra. rewrite Rleb_false by lra. reflexivity.
  - rewrite Reqb_false by lra. rewrite !Rleb_true by lra. cbn. f_equal. lra.
Qed.

Lemma plane_cast_far_below :
  downward_hit PlaneWorld.setTranslation PlaneWorld.castRay (PlaneWorld.start (-10) 0)
    = None /\
  upward_hit PlaneWorld.setTranslation PlaneWorld.castRay (PlaneWorld.start (-10) 0)
    = None.
Proof.
  unfold downward_hit, upward_hit, PlaneWorld.castRay, world_at_character, foot.
  cbn. split.
  - rewrite Reqb_false by lra. rewrite Rleb_false by lra. reflexivity.
  - rewrite Reqb_false by lra. rewrite Rleb_true by lra. rewrite Rleb_false by lra.
    reflexivity.
Qed.

(** The four outcomes of the ground detection, each met on the sample
    world. *)
Lemma detectGround_outcomes_witness :
  HeightController.grounded
    (CharacterController.heightController
       (CharacterController.this (PlaneWorld.detectGround (PlaneWorld.start 1.25 0))))
    = true /\
  (HeightController.grounded
     (CharacterController.heightController
        (CharacterController.this (PlaneWorld.detectGround (PlaneWorld.start 11.25 0))))
     = false /\
   HeightController.lastGroundHeight
     (CharacterController.heightController
        (CharacterController.this (PlaneWorld.detectGround (PlaneWorld.start 11.25 0))))
     = Three.y (hit_point (PlaneWorld.start 11.25 0) 10) + 2.5 / 2) /\
  (Three.y
     (CharacterController.position
        (CharacterController.this (PlaneWorld.detectGround (PlaneWorld.start 1 0))))
     = 0 /\
   HeightController.grounded
     (CharacterController.heightController
        (CharacterController.this (PlaneWorld.detectGround (PlaneWorld.start 1 0))))
     = true) /\
  HeightController.grounded
    (CharacterController.heightController
       (CharacterController.this (PlaneWorld.detectGround (PlaneWorld.start (-10) 0))))
    = false.
Proof.
  split; [| split; [| split]].
  - apply (proj1 (detectGround_outcomes PlaneWorld.setTranslation PlaneWorld.castRay
                    (PlaneWorld.start 1.25 0)) 0).
    + exact plane_cast_standing.
    + cbn. lra.
  - apply (proj1 (proj2 (detectGround_outcomes PlaneWorld.setTranslation
                           PlaneWorld.castRay (PlaneWorld.start 11.25 0))) 10).
    + exact plane_cast_above.
    + cbn. lra.
  - apply (proj1 (proj2 (proj2 (detectGround_outcomes PlaneWorld.setTranslation
                                  PlaneWorld.castRay (PlaneWorld.start 1 0)))) 0.25).
    + exact (proj1 plane_cast_sunk).
    + exact (proj2 plane_cast_sunk).
  - apply (proj2 (proj2 (proj2 (detectGround_outcomes PlaneWorld.setTranslation
                                  PlaneWorld.castRay (PlaneWorld.start (-10) 0))))).
    + exact (proj1 plane_cast_far_below).
    + exact (proj2 plane_cast_far_below).
Defined.

(** C10 as stated fails: the call has effects beyond the collider and the
    two height-controller fields.  On the demo state, where the scratch
    vectors are still zero and the ray starts at [vec3_0], the call leaves
    the position in [vec3_0], the foot (at height 10) in [vec3_1], and the
    ray starting at [vec3_1] and pointing down. *)
Lemma detectGround_overwrites_scratch :
  let s := PlaneWorld.start 11.25 0 in
  let s' := PlaneWorld.detectGround s in
  vec3_0 (CharacterController.scratch s) = mkVector3 0 0 0 /\
  vec3_0 (CharacterController.scratch s') = mkVector3 0 11.25 0 /\
  Three.y (vec3_1 (CharacterController.scratch s)) = 0 /\
  Three.y (vec3_1 (CharacterController.scratch s')) = 10 /\
  ray_0 (CharacterController.scratch s) = mkRay ref_vec3_0 ref_vec3_0 /\
  ray_0 (CharacterController.scratch s') = mkRay ref_vec3_1 ref_DOWN.
Proof.
  cbv zeta. unfold PlaneWorld.detectGround.
  rewrite detectGround_scratch, plane_cast_above.
  cbn [vec3_0 vec3_1 ray_0].
  repeat split; try reflexivity.
  unfold foot. cbn. lra.
Qed.

(** Two frames of mouse moves on the constructed demo state. *)
Lemma pitch_clamped_yaw_accumulates_witness :
  pitch_ok
    (CharacterController.theta
       (CharacterController.this (rotations (PlaneWorld.start 11.25 0) rotation_calls))).
Proof.
  assert (Hp : pitch_ok
                 (CharacterController.theta
                    (CharacterController.this (PlaneWorld.start 11.25 0)))).
  { unfold pitch_ok. cbn. pose proof PI_RGT_0. lra. }
  assert (Hv : Forall (fun c : list InputManager.Event * RenderSize => viewport_ok (snd c))
                 rotation_calls).
  { repeat constructor; cbn; lra. }
  exact (proj1 (pitch_clamped_yaw_accumulates (PlaneWorld.start 11.25 0)
                  rotation_calls Hp Hv)).
Defined.

(** ** addPhysics when the collider description fails *)

Section AddPhysics.

Context {Mesh RigidBodyDesc RigidBody ColliderDesc Collider World Fn : Type}.
Variable mesh_position : Mesh -> Vector3.
Variable geometry_position : Mesh -> option (list R).
Variable geometry_index : Mesh -> option (list N).
Variable rigidBodyDesc : string -> option RigidBodyDesc.
Variable desc_setTranslation : RigidBodyDesc -> R -> R -> R -> RigidBodyDesc.
Variable createRigidBody : World -> RigidBodyDesc -> World * RigidBody.
Variable cuboid : option R -> option R -> option R -> option ColliderDesc.
Variable ball : option R -> option ColliderDesc.
Variable capsule : option R -> option R -> option ColliderDesc.
Variable trimesh : list R -> option (list N) -> option ColliderDesc.
Variable createCollider :
  World -> option ColliderDesc -> RigidBody -> option (World * Collider).

Local Abbreviation Engine := (Physics.Engine Mesh RigidBody Collider World Fn).
Local Abbreviation addPhysics :=
  (Physics.addPhysics Mesh RigidBodyDesc RigidBody ColliderDesc Collider World Fn
     mesh_position geometry_position geometry_index rigidBodyDesc
    desc_setTranslation createRigidBody
     cuboid ball capsule trimesh createCollider).
Local Abbreviation colliderDescFor :=
  (Physics.colliderDescFor Mesh ColliderDesc geometry_position geometry_index
     cuboid ball capsule trimesh).
Local Abbreviation trimeshDescFor :=
  (Physics.trimeshDescFor Mesh ColliderDesc geometry_position geometry_index
     trimesh).

(** A shape name outside cuboid, ball and capsule is not refused: it takes
    the default branch and gets the mesh's own geometry. *)
Lemma unknown_shape_is_trimesh (m : Mesh) (colliderType : option string)
    (settings : option (gmap string R)) :
  named_shape colliderType = false ->
  colliderDescFor m colliderType settings = trimeshDescFor m.
Proof.
  unfold named_shape, Physics.colliderDescFor.
  destruct colliderType as [ty |]; [| reflexivity].
  destruct (String.eqb ty "cuboid"); [discriminate |].
  destruct (String.eqb ty "ball"); [discriminate |].
  destruct (String.eqb ty "capsule"); [discriminate | reflexivity].
Qed.

(** When the [switch] raises: a cuboid, ball or capsule without a settings
    object, or the default branch on a geometry without position
    attribute. *)
Lemma colliderDescFor_raises (m : Mesh) (colliderType : option string)
    (settings : option (gmap string R)) :
  colliderDescFor m colliderType settings = Physics.Thrown <->
  (named_shape colliderType = true /\ settings = None) \/
  (named_shape colliderType = false /\ geometry_position m = None).
Proof.
  unfold named_shape, Physics.colliderDescFor, Physics.trimeshDescFor.
  destruct colliderType as [ty |].
  - destruct (String.eqb ty "cuboid"), (String.eqb ty "ball"),
      (String.eqb ty "capsule"), settings as [cs |],
      (geometry_position m) as [vertices |];
      cbn [orb]; intuition congruence.
  - destruct (geometry_position m) as [vertices |]; intuition congruence.
Qed.

(** A list is not itself with one more element. *)
Lemma snoc_neq {A : Type} (l : list A) (x : A) : l = l ++ [x] -> False.
Proof.
  intros H. apply (f_equal (@List.length A)) in H.
  rewrite length_app in H. cbn in H. lia.
Qed.

(** [addPhysics] once the rigid body exists, by the outcome of the
    [switch]. *)
Lemma addPhysics_after_body
    (e : Engine) (m : Mesh) (rigidBodyType : string) (auto : bool)
    (postPhysicsFn : option Fn) (colliderType : option string)
    (colliderSettings : option (gmap string R))
    (d0 : RigidBodyDesc) (w1 : World) (rb : RigidBody) :
  rigidBodyDesc rigidBodyType = Some d0 ->
  createRigidBody (Physics.physicsWorld _ _ _ _ _ e)
    (desc_setTranslation d0 (Three.x (mesh_position m))
       (Three.y (mesh_position m)) (Three.z (mesh_position m))) = (w1, rb) ->
  addPhysics e m rigidBodyType auto postPhysicsFn colliderType colliderSettings
  = match colliderDescFor m colliderType colliderSettings with
    | Physics.Thrown =>
        (Physics.mkEngine _ _ _ _ _ w1 (Physics.physicsObjects _ _ _ _ _ e)
           (Physics.console _ _ _ _ _ e),
         Physics.Thrown)
    | Physics.Returned (Some desc) =>
        match createCollider w1 (Some desc) rb with
        | None =>
            (Physics.mkEngine _ _ _ _ _ w1 (Physics.physicsObjects _ _ _ _ _ e)
               (Physics.console _ _ _ _ _ e),
             Physics.Thrown)
        | Some (w2, col) =>
            (Physics.mkEngine _ _ _ _ _ w2
               (Physics.physicsObjects _ _ _ _ _ e
                ++ [Physics.mkPhysicsObject Mesh RigidBody Collider Fn
                      m col rb postPhysicsFn auto])
               (Physics.console _ _ _ _ _ e),
             Physics.Returned
               (Physics.mkPhysicsObject Mesh RigidBody Collider Fn
                  m col rb postPhysicsFn auto))
        end
    | Physics.Returned None =>
        match createCollider w1 None rb with
        | None =>
            (Physics.mkEngine _ _ _ _ _ w1 (Physics.physicsObjects _ _ _ _ _ e)
               (Physics.console _ _ _ _ _ e ++ [Physics.COLLIDER_ERROR]),
             Physics.Thrown)
        | Some (w2, col) =>
            (Physics.mkEngine _ _ _ _ _ w2
               (Physics.physicsObjects _ _ _ _ _ e
                ++ [Physics.mkPhysicsObject Mesh RigidBody Collider Fn
                      m col rb postPhysicsFn auto])
               (Physics.console _ _ _ _ _ e ++ [Physics.COLLIDER_ERROR]),
             Physics.Returned
               (Physics.mkPhysicsObject Mesh RigidBody Collider Fn
                  m col rb postPhysicsFn auto))
        end
    end.
Proof.
  intros Hd Hrb. unfold Physics.addPhysics. rewrite Hd, Hrb.
  destruct (colliderDescFor m colliderType colliderSettings) as [[desc |] |];
    cbn; try reflexivity;
    destruct (createCollider _ _ _) as [[w2 col] |]; reflexivity.
Qed.

(** C9, as the code has it.  Once the rigid body exists, the collider
    description can fail in two ways.  The [switch] can raise (a cuboid,
    ball or capsule without a settings object; or any other collider type,
    which is not refused but takes the trimesh branch, on a geometry without
    position attribute): then [addPhysics] raises, nothing is logged and
    nothing is pushed, and the rigid body stays in the world.  Or the shape
    constructor can yield no descriptor: then, and only then, the diagnostic
    is logged, and [createCollider] is still called with the missing
    descriptor, so that the object is kept off the list exactly when that
    call raises. *)
Theorem addPhysics_on_failed_description
    (e : Engine) (m : Mesh) (rigidBodyType : string) (auto : bool)
    (postPhysicsFn : option Fn) (colliderType : option string)
    (colliderSettings : option (gmap string R))
    (d0 : RigidBodyDesc) (w1 : World) (rb : RigidBody) :
  rigidBodyDesc rigidBodyType = Some d0 ->
  createRigidBody (Physics.physicsWorld _ _ _ _ _ e)
    (desc_setTranslation d0 (Three.x (mesh_position m))
       (Three.y (mesh_position m)) (Three.z (mesh_position m))) = (w1, rb) ->
  let r := addPhysics e m rigidBodyType auto postPhysicsFn colliderType
             colliderSettings in
  let description := colliderDescFor m colliderType colliderSettings in
  let objects := Physics.physicsObjects _ _ _ _ _ e in
  let log := Physics.console _ _ _ _ _ e in
  (description = Physics.Thrown <->
   (named_shape colliderType = true /\ colliderSettings = None) \/
   (named_shape colliderType = false /\ geometry_position m = None)) /\
  (named_shape colliderType = false -> description = trimeshDescFor m) /\
  (description = Physics.Thrown ->
   r = (Physics.mkEngine _ _ _ _ _ w1 objects log, Physics.Thrown)) /\
  (description = Physics.Returned None ->
   match createCollider w1 None rb with
   | None =>
       r = (Physics.mkEngine _ _ _ _ _ w1 objects (log ++ [Physics.COLLIDER_ERROR]),
            Physics.Thrown)
   | Some (w2, col) =>
       let physicsObject :=
         Physics.mkPhysicsObject Mesh RigidBody Collider Fn
           m col rb postPhysicsFn auto in
       r = (Physics.mkEngine _ _ _ _ _ w2 (objects ++ [physicsObject])
              (log ++ [Physics.COLLIDER_ERROR]),
            Physics.Returned physicsObject)
   end) /\
  (Physics.console _ _ _ _ _ (fst r) = log ++ [Physics.COLLIDER_ERROR] <->
   description = Physics.Returned None).
Proof.
  intros Hd Hrb r description objects log.
  pose proof (addPhysics_after_body e m rigidBodyType auto postPhysicsFn
                colliderType colliderSettings d0 w1 rb Hd Hrb) as Hr.
  fold r description in Hr. fold objects log in Hr.
  split; [apply colliderDescFor_raises |].
  split; [apply unknown_shape_is_trimesh |].
  split; [| split].
  - intros Hdesc. rewrite Hr, Hdesc. reflexivity.
  - intros Hdesc. rewrite Hdesc in Hr.
    destruct (createCollider w1 None rb) as [[w2 col] |]; exact Hr.
  - split.
    + intros Hlog. rewrite Hr in Hlog.
      destruct description as [[desc |] |]; [| reflexivity |].
      * destruct (createCollider w1 (Some desc) rb) as [[w2 col] |];
          cbn in Hlog; destruct (snoc_neq _ _ Hlog).
      * cbn in Hlog. destruct (snoc_neq _ _ Hlog).
    + intros Hdesc. rewrite Hr, Hdesc.
      destruct (createCollider w1 None rb) as [[w2 col] |]; reflexivity.
Qed.

End AddPhysics.

(** A collider type the [switch] does not know, on a mesh made without
    geometry data: the call raises once the body is in the world. *)
Lemma addPhysics_on_failed_description_witness :
  ToyRapier.addPhysics ToyRapier.empty_engine ToyRapier.bare_mesh "fixed" true None
    (Some "cylinder"%string) None
  = (Physics.mkEngine _ _ _ _ _ (1%nat, 0%nat) [] [], Physics.Thrown).
Proof.
  apply (proj1 (proj2 (proj2
           (addPhysics_on_failed_description
              ToyRapier.mesh_position ToyRapier.geometry_position
              ToyRapier.geometry_index ToyRapier.rigidBodyDesc
              ToyRapier.desc_setTranslation ToyRapier.createRigidBody
              ToyRapier.cuboid ToyRapier.ball ToyRapier.capsule ToyRapier.trimesh
              ToyRapier.createCollider
              ToyRapier.empty_engine ToyRapier.bare_mesh "fixed" true None
              (Some "cylinder"%string) None
              ("fixed"%string, mkVector3 0 0 0) (1%nat, 0%nat) 0%nat
              eq_refl eq_refl))));
    reflexivity.
Defined.

(** C9 as stated fails.  A collider type outside the three, on a mesh made
    without geometry data, and a ball without a settings object: in both
    calls the collider description cannot be made, and in both the call
    raises with nothing written to the console.  The same collider type on
    a mesh with geometry is not refused at all: the object is registered
    with a trimesh collider and nothing is logged. *)
Lemma addPhysics_raises_without_diagnostic :
  ToyRapier.addPhysics ToyRapier.empty_engine ToyRapier.bare_mesh "fixed" true None
    (Some "cylinder"%string) None
  = (Physics.mkEngine _ _ _ _ _ (1%nat, 0%nat) [] [], Physics.Thrown) /\
  ToyRapier.addPhysics ToyRapier.empty_engine ToyRapier.triangle_mesh "fixed" true None
    (Some "ball"%string) None
  = (Physics.mkEngine _ _ _ _ _ (1%nat, 0%nat) [] [], Physics.Thrown) /\
  ToyRapier.addPhysics ToyRapier.empty_engine ToyRapier.triangle_mesh "fixed" true None
    (Some "cylinder"%string) None
  = (Physics.mkEngine _ _ _ _ _ (1%nat, 1%nat)
       [Physics.mkPhysicsObject _ _ _ _ ToyRapier.triangle_mesh 0%nat 0%nat None true]
       [],
     Physics.Returned
       (Physics.mkPhysicsObject _ _ _ _ ToyRapier.triangle_mesh 0%nat 0%nat None true)).
Proof. repeat split. Qed.

(** * Further properties of the code *)

(** ** InputManager: the pointer-lock gate, keys, mouse and wheel *)

Lemma handle_unlocked (im : InputManager.t) (e : InputManager.Event) :
  InputManager.pointerLocked im = false -> keeps_lock e = true ->
  InputManager.handle im e = im.
Proof.
  intros Hl He.
  destruct e; cbn in *; try discriminate;
    unfold InputManager.onMouseWheel, InputManager.onMouseMove,
      InputManager.onMouseDown, InputManager.onMouseUp,
      InputManager.onKeyDown, InputManager.onKeyUp;
    rewrite Hl; reflexivity.
Qed.

(** X1. While the pointer is not locked every input event other than a lock
    change is dropped: the whole state stays as it was, and no key reads as
    pressed. *)
Theorem unlocked_input_is_ignored
    (im : InputManager.t) (es : list InputManager.Event) :
  InputManager.pointerLocked im = false ->
  Forall (fun e => keeps_lock e = true) es ->
  InputManager.run im es = im /\
  (forall key : string, InputManager.isKeyDown (InputManager.run im es) key = false).
Proof.
  intros Hl Hes.
  assert (Hrun : InputManager.run im es = im).
  { induction Hes as [| e rest He _ IH]; [reflexivity |].
    cbn. rewrite handle_unlocked by assumption. exact IH. }
  split; [exact Hrun |].
  intros key. rewrite Hrun. unfold InputManager.isKeyDown. rewrite Hl. reflexivity.
Qed.

Lemma unlocked_input_is_ignored_witness :
  InputManager.run InputManager.constructor
    [InputManager.KeyDown KEYS.w; InputManager.Wheel 3;
     InputManager.MouseDown 4 5 0; InputManager.MouseMove 7 8]
  = InputManager.constructor.
Proof.
  refine (proj1 (unlocked_input_is_ignored InputManager.constructor _ eq_refl _)).
  repeat constructor.
Defined.

(** X2. A key released while the pointer lock is lost stays recorded as
    pressed: once the lock is back it reads as down although it is up. *)
Theorem key_stuck_across_lock_loss (im : InputManager.t) (key : string) :
  InputManager.isKeyDown
    (InputManager.run im
       [InputManager.PointerLockChange true; InputManager.KeyDown key;
        InputManager.PointerLockChange false; InputManager.KeyUp key;
        InputManager.PointerLockChange true])
    key = true.
Proof.
  cbn. unfold InputManager.isKeyDown. cbn.
  rewrite lookup_insert_eq. reflexivity.
Qed.

(** X3. With the pointer locked, pressing a key makes it read as down and
    releasing it makes it read as up, and neither touches what any other
    key reads. *)
Theorem key_press_and_release (im : InputManager.t) (key : string) :
  InputManager.pointerLocked im = true ->
  InputManager.isKeyDown (InputManager.onKeyDown im key) key = true /\
  InputManager.isKeyDown (InputManager.onKeyUp im key) key = false /\
  (forall other : string,
     other <> key ->
     InputManager.isKeyDown (InputManager.onKeyDown im key) other
       = InputManager.isKeyDown im other /\
     InputManager.isKeyDown (InputManager.onKeyUp im key) other
       = InputManager.isKeyDown im other).
Proof.
  intros Hl.
  unfold InputManager.isKeyDown, InputManager.onKeyDown, InputManager.onKeyUp.
  rewrite Hl. cbn. rewrite ?Hl, !lookup_insert_eq.
  split; [reflexivity |]. split; [reflexivity |].
  intros other Hne. rewrite !lookup_insert_ne by congruence. split; reflexivity.
Qed.

Lemma key_press_and_release_witness :
  InputManager.isKeyDown
    (InputManager.onKeyDown
       (InputManager.setPointerLocked InputManager.constructor true) KEYS.w)
    KEYS.w = true.
Proof.
  exact (proj1 (key_press_and_release
                  (InputManager.setPointerLocked InputManager.constructor true)
                  KEYS.w eq_refl)).
Defined.

Lemma checkOneKey_spec (im : InputManager.t) (keys : list string) :
  InputManager.checkOneKey im keys = true <->
  exists key, In key keys /\ InputManager.isKeyDown im key = true.
Proof.
  induction keys as [| k rest IH]; cbn.
  - split; [discriminate | intros (key & [] & _)].
  - destruct (InputManager.isKeyDown im k) eqn:Ek.
    + split; [intros _; exists k; auto | reflexivity].
    + rewrite IH. split.
      * intros (key & Hin & Hd). exists key. auto.
      * intros (key & [Heq | Hin] & Hd); [subst; congruence | exists key; auto].
Qed.

Lemma checkAllKeys_spec (im : InputManager.t) (keys : list string) :
  InputManager.checkAllKeys im keys = true <->
  forall key, In key keys -> InputManager.isKeyDown im key = true.
Proof.
  induction keys as [| k rest IH]; cbn.
  - split; [intros _ key [] | reflexivity].
  - destruct (InputManager.isKeyDown im k) eqn:Ek.
    + rewrite IH. split.
      * intros H key [Heq | Hin]; [subst; assumption | auto].
      * intros H key Hin. auto.
    + split; [discriminate |]. intros H. rewrite <- Ek. apply H. auto.
Qed.

(** X4. [runActionByOneKey] runs the action exactly when some listed key is
    down, [runActionByAllKeys] exactly when every listed key is down; so
    with no key listed the first runs [inAction] and the second runs
    [action]. *)
Theorem key_combinations (A : Type) (im : InputManager.t) (keys : list string)
    (action inAction : unit -> A) :
  ((exists key, In key keys /\ InputManager.isKeyDown im key = true) ->
   InputManager.runActionByOneKey im keys action inAction = action tt) /\
  ((forall key, In key keys -> InputManager.isKeyDown im key = false) ->
   InputManager.runActionByOneKey im keys action inAction = inAction tt) /\
  ((forall key, In key keys -> InputManager.isKeyDown im key = true) ->
   InputManager.runActionByAllKeys im keys action inAction = action tt) /\
  ((exists key, In key keys /\ InputManager.isKeyDown im key = false) ->
   InputManager.runActionByAllKeys im keys action inAction = inAction tt) /\
  InputManager.runActionByOneKey im [] action inAction = inAction tt /\
  InputManager.runActionByAllKeys im [] action inAction = action tt.
Proof.
  unfold InputManager.runActionByOneKey, InputManager.runActionByAllKeys.
  repeat match goal with |- _ /\ _ => split end; try reflexivity.
  - intros H. apply checkOneKey_spec in H. rewrite H. reflexivity.
  - intros H. destruct (InputManager.checkOneKey im keys) eqn:E; [| reflexivity].
    apply checkOneKey_spec in E. destruct E as (key & Hin & Hd).
    rewrite (H key Hin) in Hd. discriminate.
  - intros H. apply checkAllKeys_spec in H. rewrite H. reflexivity.
  - intros (key & Hin & Hd).
    destruct (InputManager.checkAllKeys im keys) eqn:E; [| reflexivity].
    rewrite checkAllKeys_spec in E. rewrite (E key Hin) in Hd. discriminate.
Qed.

(** X5. Mouse moves between two frames do not add up: a later move replaces an
    earlier one, whatever the lock state. *)
Theorem later_mouse_move_replaces_earlier
    (im : InputManager.t) (x1 y1 x2 y2 : R) :
  InputManager.onMouseMove (InputManager.onMouseMove im x1 y1) x2 y2
  = InputManager.onMouseMove im x2 y2.
Proof.
  unfold InputManager.onMouseMove.
  destruct (InputManager.pointerLocked im) eqn:Hl; cbn; rewrite ?Hl; reflexivity.
Qed.

(** X6. With the pointer locked and the scroll value in range, a notch out
    never lowers the value and a notch in never raises it; within one step
    of an end the value saturates there: a notch out gives exactly
    MAX_ZOOM_LEVEL, a notch in exactly MIN_ZOOM_LEVEL. *)
Theorem wheel_notch_saturates (im : InputManager.t) (out_dy in_dy : R) :
  InputManager.pointerLocked im = true ->
  0 < out_dy -> in_dy < 0 ->
  MIN_ZOOM_LEVEL <= wheel_of im <= MAX_ZOOM_LEVEL ->
  wheel_of im <= wheel_of (InputManager.onMouseWheel im out_dy) /\
  wheel_of (InputManager.onMouseWheel im in_dy) <= wheel_of im /\
  (MAX_ZOOM_LEVEL <= wheel_of im + SCROLL_LEVEL_STEP ->
   wheel_of (InputManager.onMouseWheel im out_dy) = MAX_ZOOM_LEVEL) /\
  (wheel_of im - SCROLL_LEVEL_STEP <= MIN_ZOOM_LEVEL ->
   wheel_of (InputManager.onMouseWheel im in_dy) = MIN_ZOOM_LEVEL).
Proof.
  intros Hl Hout Hin Hv.
  unfold wheel_of, InputManager.onMouseWheel in *.
  unfold MIN_ZOOM_LEVEL, MAX_ZOOM_LEVEL, SCROLL_LEVEL_STEP in *.
  rewrite Hl.
  rewrite (Rltb_false out_dy 0) by lra. rewrite (Rltb_true 0 out_dy) by lra.
  rewrite (Rltb_true in_dy 0) by lra.
  cbn. unfold Rmax, Rmin.
  split; [| split; [| split]]; try intros H;
    repeat match goal with
           | |- context [Rle_dec ?a ?b] => destruct (Rle_dec a b)
           end;
    lra.
Qed.

(** One notch in from the first notch out lands on the lower end. *)
Lemma wheel_notch_saturates_witness :
  wheel_of (InputManager.onMouseWheel one_notch_out (-1)) = MIN_ZOOM_LEVEL.
Proof.
  refine (proj2 (proj2 (proj2
            (wheel_notch_saturates one_notch_out 1 (-1) eq_refl _ _ _))) _);
    unfold wheel_of, MIN_ZOOM_LEVEL, MAX_ZOOM_LEVEL, SCROLL_LEVEL_STEP; cbn; lra.
Defined.

(** ** utils/math.ts: clamp and the jump curve *)

(** X7. [clamp] lands in [a, b] when the bounds are in order, leaves a value
    inside them alone and is idempotent; with the bounds the wrong way round
    it returns the upper argument [b] whatever [x] is. *)
Theorem clamp_laws (x a b : R) :
  (a <= b -> a <= MathUtils.clamp x a b <= b) /\
  (a <= x <= b -> MathUtils.clamp x a b = x) /\
  MathUtils.clamp (MathUtils.clamp x a b) a b = MathUtils.clamp x a b /\
  (b < a -> MathUtils.clamp x a b = b).
Proof.
  unfold MathUtils.clamp, Rmin, Rmax.
  repeat split; intros;
    repeat match goal with
           | |- context [Rle_dec ?u ?v] => destruct (Rle_dec u v)
           | H : context [Rle_dec ?u ?v] |- _ => destruct (Rle_dec u v)
           end; lra.
Qed.

Lemma EaseOutCirc_range (x : R) :
  0 <= x <= 1 -> 0 <= MathUtils.EaseOutCirc x <= 1.
Proof.
  intros Hx. unfold MathUtils.EaseOutCirc. split.
  - apply sqrt_pos.
  - apply Rle_trans with (sqrt 1); [apply sqrt_le_1_alt; nra | rewrite sqrt_1; lra].
Qed.

Lemma UpDownCirc_unit_range (x : R) :
  0 <= x <= 1 -> 0 <= MathUtils.UpDownCirc x <= 1.
Proof.
  intros Hx. unfold MathUtils.UpDownCirc.
  pose proof (EaseOutCirc_range x Hx) as He. pose proof PI_RGT_0 as Hpi.
  split.
  - apply sin_ge_0; nra.
  - apply SIN_bound.
Qed.

(** X8. The jump curve starts and ends at 0, stays within [0, 1] in between,
    and reaches its top, 1, at x = 1 - sqrt(3)/2, about 13 % into the
    window. *)
Theorem UpDownCirc_arc :
  MathUtils.UpDownCirc 0 = 0 /\
  MathUtils.UpDownCirc 1 = 0 /\
  (forall x : R, 0 <= x <= 1 -> 0 <= MathUtils.UpDownCirc x <= 1) /\
  MathUtils.UpDownCirc (1 - sqrt 3 / 2) = 1.
Proof.
  split; [| split; [| split]].
  - unfold MathUtils.UpDownCirc, MathUtils.EaseOutCirc.
    replace (1 - (0 - 1) ^ 2) with 0 by ring.
    rewrite sqrt_0, Rmult_0_l. apply sin_0.
  - unfold MathUtils.UpDownCirc, MathUtils.EaseOutCirc.
    replace (1 - (1 - 1) ^ 2) with 1 by ring.
    rewrite sqrt_1, Rmult_1_l. apply sin_PI.
  - exact UpDownCirc_unit_range.
  - unfold MathUtils.UpDownCirc, MathUtils.EaseOutCirc.
    assert (H3 : sqrt 3 * sqrt 3 = 3) by (apply sqrt_sqrt; lra).
    replace (1 - (1 - sqrt 3 / 2 - 1) ^ 2) with ((1 / 2) * (1 / 2)) by (cbn; lra).
    rewrite sqrt_square by lra.
    replace (1 / 2 * PI) with (PI / 2) by lra. apply sin_PI2.
Qed.

(** ** HeightController: jumping and falling *)

(** X9. On the ground the frame's vertical delta is never downward: it lies
    between 0 and jumpFactor * JUMP_AMPLITUDE. *)
Theorem grounded_delta_is_upward (hc : HeightController.t) (t dt : R) :
  HeightController.grounded hc = true ->
  0 <= HeightController.jumpFactor hc ->
  0 <= HeightController.movePerFrame (HeightController.update hc t dt)
    <= HeightController.jumpFactor hc * JUMP_AMPLITUDE.
Proof.
  intros Hg Hj. unfold HeightController.update. rewrite Hg.
  cbn [negb HeightController.grounded HeightController.startJumpAnimation andb
       HeightController.jumpFactor HeightController.movePerFrame].
  destruct (Rltb JUMP_DURATION _).
  - cbn. unfold JUMP_AMPLITUDE. lra.
  - cbn [HeightController.movePerFrame]. rewrite lerp_zero_start.
    match goal with
    | |- context [MathUtils.UpDownCirc ?c] =>
        destruct (UpDownCirc_unit_range c) as [Hu0 Hu1];
        [apply clamp_bounds; lra | generalize dependent (MathUtils.UpDownCirc c)]
    end.
    intros u Hu0 Hu1. unfold JUMP_AMPLITUDE. nra.
Qed.

Lemma grounded_delta_is_upward_witness :
  0 <= HeightController.movePerFrame (HeightController.update jumping 0.1 0.016)
    <= 1 * JUMP_AMPLITUDE.
Proof.
  apply (grounded_delta_is_upward jumping 0.1 0.016); [reflexivity | cbn; lra].
Defined.

Lemma airborne_update (hc : HeightController.t) (t dt : R) :
  HeightController.grounded hc = false ->
  let h := 0.5 * Three.y GRAVITY * (t - HeightController.startFallAnimation hc)
             * (t - HeightController.startFallAnimation hc) in
  HeightController.update hc t dt =
    HeightController.mkHeightController h h
      (h - HeightController.lastHeight hc
       + MathUtils.lerp 0 (HeightController.jumpFactor hc * JUMP_AMPLITUDE)
           (MathUtils.UpDownCirc
              (MathUtils.clamp
                 ((t - HeightController.startJumpAnimation hc) / JUMP_DURATION) 0 1)))
      (HeightController.lastGroundHeight hc)
      (HeightController.startFallAnimation hc) true false
      (HeightController.jumpFactor hc) (HeightController.startJumpAnimation hc).
Proof.
  intros Hg h. subst h. unfold HeightController.update. rewrite Hg. reflexivity.
Qed.

Lemma height_frames_airborne (frames : list (R * R)) :
  forall (hc : HeightController.t) (acc : R),
    HeightController.grounded hc = false ->
    HeightController.jumpFactor hc = 0 ->
    let r :=
      fold_left
        (fun st f =>
           let hc' := HeightController.update (fst st) (fst f) (snd f) in
           (hc', snd st + HeightController.movePerFrame hc'))
        frames (hc, acc) in
    HeightController.grounded (fst r) = false /\
    HeightController.jumpFactor (fst r) = 0 /\
    HeightController.startFallAnimation (fst r)
      = HeightController.startFallAnimation hc /\
    snd r = acc + HeightController.lastHeight (fst r) - HeightController.lastHeight hc.
Proof.
  induction frames as [| [t dt] rest IH]; intros hc acc Hg Hj.
  - cbn. repeat split; try assumption. ring.
  - cbn [fold_left fst snd]. cbv zeta. cbv zeta in IH.
    pose proof (airborne_update hc t dt Hg) as Hu. cbv zeta in Hu.
    set (u := HeightController.update hc t dt) in *.
    assert (Hgu : HeightController.grounded u = false) by (rewrite Hu; reflexivity).
    assert (Hju : HeightController.jumpFactor u = 0) by (rewrite Hu; exact Hj).
    assert (Hsu : HeightController.startFallAnimation u
                  = HeightController.startFallAnimation hc) by (rewrite Hu; reflexivity).
    assert (Hmu : HeightController.movePerFrame u
                  = HeightController.lastHeight u - HeightController.lastHeight hc).
    { rewrite Hu. cbn. rewrite Hj, lerp_zero_start. ring. }
    destruct (IH u (acc + HeightController.movePerFrame u) Hgu Hju)
      as (H1 & H2 & H3 & H4).
    split; [exact H1 |]. split; [exact H2 |]. split.
    + etransitivity; [exact H3 | exact Hsu].
    + etransitivity; [exact H4 |]. rewrite Hmu. ring.
Qed.

(** X10. Falling does not depend on how time is cut into frames: while airborne
    with no jump under way, the vertical deltas of any run of updates add up
    to -4.905 * (t - startFallAnimation)^2 minus the height already
    accounted for, where t is the timestamp of the last update. *)
Theorem fall_is_frame_rate_independent
    (hc : HeightController.t) (frames : list (R * R)) (t dt : R) :
  HeightController.grounded hc = false ->
  HeightController.jumpFactor hc = 0 ->
  snd (height_frames hc (frames ++ [(t, dt)]))
  = -4.905 * (t - HeightController.startFallAnimation hc) ^ 2
    - HeightController.lastHeight hc.
Proof.
  intros Hg Hj. unfold height_frames. rewrite fold_left_app.
  destruct (height_frames_airborne frames hc 0 Hg Hj) as (Hg' & Hj' & Hs & Hacc).
  cbv zeta in Hg', Hj', Hs, Hacc.
  set (r := fold_left _ frames (hc, 0)) in *.
  cbn [fold_left fst snd]. cbv zeta.
  rewrite (airborne_update (fst r) t dt Hg'). cbv zeta.
  cbn [HeightController.movePerFrame].
  rewrite Hacc, Hj', Hs, lerp_zero_start. cbn. lra.
Qed.

Lemma fall_is_frame_rate_independent_witness :
  snd (height_frames HeightController.constructor [(0.3, 0.1); (0.7, 0.1); (1, 0.1)])
  = -4.905 * (1 - 0) ^ 2 - 0.
Proof.
  apply (fall_is_frame_rate_independent HeightController.constructor
           [(0.3, 0.1); (0.7, 0.1)] 1 0.1); reflexivity.
Defined.

(** ** ZoomController: how the animation closes in *)

(** X11. While an animation runs towards an unchanged target, the distance left
    to the clamped target is the distance at the start scaled by
    2^(-10 * progress); at progress exactly 1 the zoom is the target. *)
Theorem zoom_distance_decays (zc : ZoomController.t) (t dt : R) :
  ZoomController.isAnimating zc = true ->
  let progress :=
    t * SCROLL_ANIMATION_SPEED - ZoomController.startZoomAnimation zc in
  let target :=
    MathUtils.clamp (ZoomController.lastZoomLevel zc) MIN_ZOOM_LEVEL MAX_ZOOM_LEVEL in
  let zc' := ZoomController.update zc (ZoomController.lastZoomLevel zc) t dt in
  (progress <> 1 ->
   ZoomController.zoom zc' - target
   = (ZoomController.startingZoom zc - target) * MathUtils.pow2 (-10 * progress)) /\
  (progress = 1 -> ZoomController.zoom zc' = target).
Proof.
  intros Ha progress target zc'. subst zc'.
  rewrite zoom_update_animating by assumption. cbv zeta.
  cbn [ZoomController.zoom]. fold progress target.
  unfold MathUtils.lerp, MathUtils.easeOutExpo.
  split; intros Hp; destruct (Req_dec_T progress 1); try contradiction; ring.
Qed.

Lemma zoom_distance_decays_witness :
  ZoomController.zoom
    (ZoomController.update
       (ZoomController.mkZoomController 0.001 1.5 0 true 0.001) 1.5 0.5 0.1)
  = MathUtils.clamp 1.5 MIN_ZOOM_LEVEL MAX_ZOOM_LEVEL.
Proof.
  apply (proj2 (zoom_distance_decays
                  (ZoomController.mkZoomController 0.001 1.5 0 true 0.001)
                  0.5 0.1 eq_refl)).
  cbn. unfold SCROLL_ANIMATION_SPEED. lra.
Defined.

(** ** HeadBobController *)

Lemma getHeadBob_bounded (hb : HeadBobController.t) (dt : R) (moving : bool) :
  - HeadBobController.HEAD_BOB_AMPLITUDE
    <= HeadBobController.headBobAmount hb
    <= HeadBobController.HEAD_BOB_AMPLITUDE ->
  let r := HeadBobController.getHeadBob hb dt moving in
  - HeadBobController.HEAD_BOB_AMPLITUDE <= snd r
    <= HeadBobController.HEAD_BOB_AMPLITUDE /\
  - HeadBobController.HEAD_BOB_AMPLITUDE
    <= HeadBobController.headBobAmount (fst r)
    <= HeadBobController.HEAD_BOB_AMPLITUDE.
Proof.
  intros Hb. unfold HeadBobController.getHeadBob. cbv zeta.
  destruct (if HeadBobController.headBobActive hb then true else moving).
  - cbn [fst snd HeadBobController.headBobAmount].
    match goal with |- context [sin ?a] => pose proof (SIN_bound a) as Hs end.
    unfold HeadBobController.HEAD_BOB_AMPLITUDE in *. lra.
  - cbn. auto.
Qed.

(** X13. Whatever the frame times and the movement flags, every offset the head
    bob returns from construction on lies within [-0.3, 0.3]. *)
Theorem headbob_offset_bounded (calls : list (R * bool)) :
  Forall (fun o => - 0.3 <= o <= 0.3)
    (headbob_offsets HeadBobController.constructor calls).
Proof.
  assert (H : forall hb,
             - HeadBobController.HEAD_BOB_AMPLITUDE
               <= HeadBobController.headBobAmount hb
               <= HeadBobController.HEAD_BOB_AMPLITUDE ->
             Forall (fun o => - 0.3 <= o <= 0.3) (headbob_offsets hb calls)).
  { induction calls as [| [dt mv] rest IH]; intros hb Hb; cbn [headbob_offsets].
    - constructor.
    - destruct (getHeadBob_bounded hb dt mv Hb) as [Ho Hs]. cbv zeta in Ho, Hs.
      constructor.
      + unfold HeadBobController.HEAD_BOB_AMPLITUDE in Ho. cbn [fst snd]. lra.
      + apply IH. exact Hs. }
  apply H. cbn. unfold HeadBobController.HEAD_BOB_AMPLITUDE. lra.
Qed.

(** X14. As long as the character never moves, the head bob stays switched off:
    every offset is 0. *)
Theorem headbob_idle_is_zero (calls : list (R * bool)) :
  Forall (fun c => snd c = false) calls ->
  Forall (fun o => o = 0) (headbob_offsets HeadBobController.constructor calls).
Proof.
  intros Hidle. induction Hidle as [| [dt mv] rest Hc _ IH]; cbn [headbob_offsets].
  - constructor.
  - cbn in Hc. subst mv. constructor; [reflexivity | exact IH].
Qed.

Lemma headbob_idle_is_zero_witness :
  Forall (fun o => o = 0)
    (headbob_offsets HeadBobController.constructor [(0.016, false); (0.1, false)]).
Proof.
  apply (headbob_idle_is_zero [(0.016, false); (0.1, false)]).
  repeat constructor.
Defined.

(** ** One frame of the controller *)

Section Frame.

Context {World : Type}.
Variable setTranslation : World -> Vector3 -> World.
Variable castRay :
  World -> Vector3 -> Vector3 -> R -> bool -> QueryFilter -> option R.
Variable lookAt : Vector3 -> Vector3 -> Quaternion.

Local Abbreviation State := (CharacterController.State World).
Local Abbreviation detectGround :=
  (CharacterController.detectGround setTranslation castRay).
Local Abbreviation updateCamera :=
  (CharacterController.updateCamera castRay lookAt).
Local Abbreviation update :=
  (CharacterController.update setTranslation castRay lookAt).
Local Abbreviation this := CharacterController.this.
Local Abbreviation position := CharacterController.position.
Local Abbreviation heightController := CharacterController.heightController.

(** X15. The orientation [updateRotation] stores is a unit quaternion. *)
Theorem orientation_is_unit (ws : RenderSize) (s : State) :
  let q := CharacterController.quaternion
             (this (CharacterController.updateRotation ws s)) in
  Three.qx q * Three.qx q + Three.qy q * Three.qy q
  + Three.qz q * Three.qz q + Three.qw q * Three.qw q = 1.
Proof.
  cbv zeta. unfold CharacterController.updateRotation. cbv zeta.
  cbn [CharacterController.this CharacterController.quaternion
       CharacterController.set_quaternion Three.multiply Three.setFromAxisAngle
       Three.qx Three.qy Three.qz Three.qw Three.x Three.y Three.z UP RIGHT].
  match goal with
  | |- context [MathUtils.clamp ?a ?lo ?hi] =>
      generalize (MathUtils.clamp a lo hi)
  end.
  generalize (CharacterController.phi (CharacterController.this s)
              + - (InputManager.mouseXDelta
                     (InputManager.currentMouse
                        (CharacterController.inputManager (CharacterController.this s)))
                   / width ws) * CharacterController.PHI_SPEED).
  intros a b.
  pose proof (sin2_cos2 (a / 2)) as Ha. pose proof (sin2_cos2 (b / 2)) as Hb.
  unfold Rsqr in Ha, Hb.
  generalize dependent (sin (a / 2)). generalize dependent (cos (a / 2)).
  generalize dependent (sin (b / 2)). generalize dependent (cos (b / 2)).
  intros cb sb Hb ca sa Ha.
  replace (_ + _ + _ + _)
    with ((sa * sa + ca * ca) * (sb * sb + cb * cb)) by ring.
  rewrite Ha, Hb. ring.
Qed.

(** The algebra of a step along two perpendicular unit directions. *)
Lemma step_algebra (f g k sn c : R) :
  sn * sn + c * c = 1 ->
  (- (2 * sn * c) * (f * k) + - (c * c - sn * sn) * (g * k)) ^ 2
  + (- (c * c - sn * sn) * (f * k) + (2 * sn * c) * (g * k)) ^ 2
  = (f ^ 2 + g ^ 2) * k ^ 2.
Proof.
  intros H.
  replace (_ + _) with ((f ^ 2 + g ^ 2) * k ^ 2
                        * ((sn * sn + c * c) * (sn * sn + c * c))) by ring.
  rewrite H. ring.
Qed.

(** X16. The horizontal step of a frame has squared length
    (forward^2 + side^2) * (10 * timeDiff)^2: 10 units per second along one
    axis, 50 with shift, and a diagonal is not normalised. *)
Theorem horizontal_step_length (dt : R) (s : State) :
  let im := CharacterController.inputManager (this s) in
  let p := position (this s) in
  let p' := position (this (CharacterController.updateTranslation dt s)) in
  (Three.x p' - Three.x p) ^ 2 + (Three.z p' - Three.z p) ^ 2
  = (forwardVelocity im ^ 2 + sideVelocity im ^ 2) * (10 * dt) ^ 2.
Proof.
  cbv zeta. destruct (updateTranslation_xz dt s) as [Hx Hz]. cbv zeta in Hx, Hz.
  rewrite Hx, Hz.
  set (a := (CharacterController.phi (this s) + HALF_PI) / 2).
  pose proof (sin2_cos2 a) as Ha. unfold Rsqr in Ha.
  replace (10 * dt) with (dt * 10) by ring.
  rewrite <- (step_algebra _ _ (dt * 10) (sin a) (cos a) Ha). ring.
Qed.

(** X17. Opposite keys cancel: with W and S in the same state and A and D in the
    same state, a frame's translation leaves x and z where they were and
    reports no horizontal movement. *)
Theorem opposite_keys_cancel (dt : R) (s : State) :
  let im := CharacterController.inputManager (this s) in
  InputManager.isKeyDown im KEYS.w = InputManager.isKeyDown im KEYS.s ->
  InputManager.isKeyDown im KEYS.a = InputManager.isKeyDown im KEYS.d ->
  let s' := CharacterController.updateTranslation dt s in
  Three.x (position (this s')) = Three.x (position (this s)) /\
  Three.z (position (this s')) = Three.z (position (this s)) /\
  CharacterController.isMoving2D (this s') = false.
Proof.
  intros im Hws Had s'.
  assert (Hf : forwardVelocity im = 0).
  { unfold forwardVelocity, keySpeed, InputManager.runActionByKey.
    rewrite Hws. ring. }
  assert (Hs : sideVelocity im = 0).
  { unfold sideVelocity, keySpeed, InputManager.runActionByKey.
    rewrite Had. ring. }
  destruct (updateTranslation_xz dt s) as [Hx Hz]. cbv zeta in Hx, Hz.
  fold im in Hx, Hz. fold s' in Hx, Hz.
  split; [| split].
  - rewrite Hx, Hf, Hs. ring.
  - rewrite Hz, Hf, Hs. ring.
  - subst s'. unfold CharacterController.updateTranslation. cbv zeta.
    cbn [CharacterController.this CharacterController.isMoving2D
         CharacterController.set_isMoving2D].
    fold (keySpeed (CharacterController.inputManager (this s)) KEYS.w).
    fold (keySpeed (CharacterController.inputManager (this s)) KEYS.s).
    fold (keySpeed (CharacterController.inputManager (this s)) KEYS.a).
    fold (keySpeed (CharacterController.inputManager (this s)) KEYS.d).
    fold (forwardVelocity (CharacterController.inputManager (this s))).
    fold (sideVelocity (CharacterController.inputManager (this s))).
    fold im. rewrite Hf, Hs. rewrite !Reqb_true by reflexivity. reflexivity.
Qed.

Lemma detectGround_jump_state (s : State) :
  HeightController.jumpFactor (heightController (this (detectGround s)))
    = HeightController.jumpFactor (heightController (this s)) /\
  HeightController.startJumpAnimation (heightController (this (detectGround s)))
    = HeightController.startJumpAnimation (heightController (this s)).
Proof.
  rewrite detectGround_this. cbv zeta.
  destruct (downward_hit setTranslation castRay s) as [toi |].
  - destruct (Rleb _ 0); split; reflexivity.
  - destruct (upward_hit setTranslation castRay s); split; reflexivity.
Qed.

(** X18. A frame that starts in the air leaves the jump alone: whatever keys are
    held, the jump factor and the jump's start time are the same after the
    frame as before it. *)
Theorem airborne_frame_keeps_jump (ws : RenderSize) (t dt : R) (s : State) :
  HeightController.grounded (heightController (this s)) = false ->
  let s' := update ws t dt s in
  HeightController.jumpFactor (heightController (this s'))
    = HeightController.jumpFactor (heightController (this s)) /\
  HeightController.startJumpAnimation (heightController (this s'))
    = HeightController.startJumpAnimation (heightController (this s)).
Proof.
  intros Hg s'. subst s'. unfold CharacterController.update. cbv zeta.
  set (s1 := CharacterController.updateRotation ws s).
  set (s2 := CharacterController.updateTranslation dt s1).
  set (s3 := CharacterController.updateGravity t dt s2).
  set (s4 := detectGround s3).
  set (s5 := CharacterController.updateZoom t dt s4).
  set (s6 := updateCamera t dt s5).
  destruct (resetInput_effect s6) as (_ & Hh7 & _).
  destruct (updateCamera_keeps castRay lookAt t dt s5) as (_ & Hh6 & _).
  destruct (updateZoom_effect t dt s4) as (_ & Hh5 & _).
  destruct (detectGround_jump_state s3) as (Hj4 & Hsj4).
  fold s6 in Hh6. fold s5 in Hh5. fold s4 in Hj4, Hsj4.
  assert (Hh2 : heightController (this s2) = heightController (this s)).
  { subst s2. rewrite updateTranslation_heightController.
    subst s1. cbn [CharacterController.this CharacterController.heightController
                   CharacterController.updateRotation
                   CharacterController.set_quaternion CharacterController.set_theta
                   CharacterController.set_phi].
    rewrite Hg. reflexivity. }
  assert (Hh3 : heightController (this s3)
                = HeightController.update (heightController (this s)) t dt).
  { subst s3. cbn [CharacterController.updateGravity CharacterController.this
                   CharacterController.set_this CharacterController.set_heightController
                   CharacterController.heightController].
    fold (heightController (this s2)). rewrite Hh2. reflexivity. }
  rewrite Hh7, Hh6, Hh5, Hj4, Hsj4, Hh3.
  rewrite (airborne_update _ t dt Hg). split; reflexivity.
Qed.

Lemma vector3_ext (p q : Vector3) :
  Three.x p = Three.x q -> Three.y p = Three.y q -> Three.z p = Three.z q -> p = q.
Proof. destruct p, q. cbn. intros -> -> ->. reflexivity. Qed.

(** X19. No drift at rest: with no horizontal velocity from the keys, no stored
    vertical delta, and ground found under the foot, a whole frame leaves
    the position exactly where it was. *)
Theorem rest_frame_keeps_position
    (ws : RenderSize) (t dt toi : R) (s : State) :
  forwardVelocity (CharacterController.inputManager (this s)) = 0 ->
  sideVelocity (CharacterController.inputManager (this s)) = 0 ->
  HeightController.movePerFrame (heightController (this s)) = 0 ->
  downward_hit setTranslation castRay s = Some toi ->
  position (this (update ws t dt s)) = position (this s).
Proof.
  intros Hf Hs Hm Hd. unfold CharacterController.update. cbv zeta.
  set (s1 := CharacterController.updateRotation ws s).
  set (s2 := CharacterController.updateTranslation dt s1).
  set (s3 := CharacterController.updateGravity t dt s2).
  set (s4 := detectGround s3).
  set (s5 := CharacterController.updateZoom t dt s4).
  set (s6 := updateCamera t dt s5).
  destruct (resetInput_effect s6) as (Hp7 & _).
  destruct (updateCamera_keeps castRay lookAt t dt s5) as (Hp6 & _).
  destruct (updateZoom_effect t dt s4) as (Hp5 & _).
  fold s6 in Hp6. fold s5 in Hp5.
  assert (Hp2 : position (this s2) = position (this s)).
  { destruct (updateTranslation_xz dt s1) as [Hx Hz]. cbv zeta in Hx, Hz.
    fold s2 in Hx, Hz.
    pose proof (updateTranslation_y dt s1) as Hy. fold s2 in Hy.
    change (CharacterController.inputManager (this s1))
      with (CharacterController.inputManager (this s)) in Hx, Hz.
    change (heightController (this s1)) with (heightController (this s)) in Hy.
    change (position (this s1)) with (position (this s)) in Hx, Hy, Hz.
    apply vector3_ext.
    - rewrite Hx, Hf, Hs. ring.
    - rewrite Hy, Hm. ring.
    - rewrite Hz, Hf, Hs. ring. }
  assert (Hd3 : downward_hit setTranslation castRay s3 = Some toi).
  { rewrite <- Hd. unfold downward_hit, world_at_character, foot.
    change (position (this s3)) with (position (this s2)).
    change (CharacterController.physics s3) with (CharacterController.physics s).
    change (CharacterController.avatar (this s3))
      with (CharacterController.avatar (this s)).
    rewrite Hp2. reflexivity. }
  rewrite Hp7, Hp6, Hp5. subst s4.
  rewrite (detectGround_position_down_hit _ _ s3 toi Hd3).
  exact Hp2.
Qed.

(** X20. The camera sits at horizontal distance zoom from the body whatever the
    pitch, and in third person its height above the body is
    -zoom * sin(theta). *)
Theorem camera_orbit (t dt : R) (s : State) :
  let c := this s in
  let cam := Camera.position (CharacterController.camera (this (updateCamera t dt s))) in
  let zoom := ZoomController.zoom (CharacterController.zoomController c) in
  (Three.x cam - Three.x (position c)) ^ 2 + (Three.z cam - Three.z (position c)) ^ 2
    = zoom ^ 2 /\
  (Avatar.width (CharacterController.avatar c) < zoom ->
   Three.y cam - Three.y (position c) = - zoom * sin (CharacterController.theta c)).
Proof.
  cbv zeta. destruct (updateCamera_places castRay lookAt t dt s) as (Hx & Hz & Hy).
  cbv zeta in Hx, Hz, Hy. split.
  - rewrite Hx, Hz. clear Hx Hz Hy.
    pose proof (sin2_cos2 (- CharacterController.phi (this s))) as H.
    unfold Rsqr in H.
    generalize dependent (sin (- CharacterController.phi (this s))).
    generalize dependent (cos (- CharacterController.phi (this s))).
    intros c sn H.
    replace (_ + _)
      with (ZoomController.zoom (CharacterController.zoomController (this s)) ^ 2
            * (sn * sn + c * c)) by ring.
    rewrite H. ring.
  - intros Hw. rewrite (Hy Hw). unfold HALF_PI.
    rewrite cos_plus, cos_PI2, sin_PI2. ring.
Qed.

End Frame.

Lemma opposite_keys_cancel_witness :
  CharacterController.isMoving2D
    (CharacterController.this
       (CharacterController.updateTranslation 0.016 pulling_both_ways)) = false.
Proof.
  exact (proj2 (proj2 (opposite_keys_cancel 0.016 pulling_both_ways eq_refl eq_refl))).
Defined.

Lemma airborne_frame_keeps_jump_witness :
  HeightController.jumpFactor
    (CharacterController.heightController
       (CharacterController.this
          (PlaneWorld.update screen 1 0.016 (PlaneWorld.start 11.25 0))))
  = 0.
Proof.
  exact (proj1 (airborne_frame_keeps_jump PlaneWorld.setTranslation
                  PlaneWorld.castRay PlaneWorld.lookAt screen 1 0.016
                  (PlaneWorld.start 11.25 0) eq_refl)).
Defined.

Lemma rest_frame_keeps_position_witness :
  CharacterController.position
    (CharacterController.this
       (PlaneWorld.update screen 1 0.016 (PlaneWorld.start 1.25 0)))
  = mkVector3 0 1.25 0.
Proof.
  apply (rest_frame_keeps_position PlaneWorld.setTranslation PlaneWorld.castRay
           PlaneWorld.lookAt screen 1 0.016 0 (PlaneWorld.start 1.25 0)).
  - unfold forwardVelocity, keySpeed. cbn. lra.
  - unfold sideVelocity, keySpeed. cbn. lra.
  - reflexivity.
  - exact plane_cast_standing.
Defined.

(** ** TickManager: the frame time the controller is given *)

(** X22. Whatever the clock does, the controller gets the timestamp in seconds,
    uncapped, and a frame time within [0, 0.1] s: the true gap when it is
    between 0 and 100 ms, 0.1 after a longer stall, and 0 when the clock
    stands still or goes back. *)
Theorem controller_frame_time (tm : TickManager.t) (now : R) :
  let gap := now - TickManager.lastTimestamp tm in
  let args := TickManager.controlsArgs tm now in
  fst args = now / 1000 /\
  0 <= snd args <= 0.1 /\
  (0 <= gap <= 100 -> snd args = gap / 1000) /\
  (100 <= gap -> snd args = 0.1) /\
  (gap <= 0 -> snd args = 0).
Proof.
  cbv zeta. unfold TickManager.controlsArgs, TickManager.timeDiffCapped, Rmin, Rmax.
  cbn [fst snd].
  split; [reflexivity |].
  repeat split; intros;
    repeat match goal with
           | |- context [Rle_dec ?u ?v] => destruct (Rle_dec u v)
           | H : context [Rle_dec ?u ?v] |- _ => destruct (Rle_dec u v)
           end; lra.
Qed.

Lemma velocity_sq_bound (im : InputManager.t) :
  forwardVelocity im ^ 2 <= 25 /\ sideVelocity im ^ 2 <= 25.
Proof.
  unfold forwardVelocity, sideVelocity, keySpeed, InputManager.runActionByKey,
    InputManager.runActionByOneKey, FIVE, ONE, ZERO.
  destruct (InputManager.checkOneKey im [KEYS.shiftL; KEYS.shiftR]);
    destruct (InputManager.isKeyDown im KEYS.w);
    destruct (InputManager.isKeyDown im KEYS.s);
    destruct (InputManager.isKeyDown im KEYS.a);
    destruct (InputManager.isKeyDown im KEYS.d); split; lra.
Qed.

(** X23. However long a frame was stalled, the translation step driven by the
    tick manager moves the character at most sqrt(50), about 7.07 units,
    horizontally: the squared step is at most 50. *)
Theorem stalled_frame_step_bounded {World : Type}
    (tm : TickManager.t) (now : R) (s : CharacterController.State World) :
  let dt := snd (TickManager.controlsArgs tm now) in
  let p := CharacterController.position (CharacterController.this s) in
  let p' := CharacterController.position
              (CharacterController.this (CharacterController.updateTranslation dt s)) in
  (Three.x p' - Three.x p) ^ 2 + (Three.z p' - Three.z p) ^ 2 <= 50.
Proof.
  cbv zeta.
  destruct (updateTranslation_xz (snd (TickManager.controlsArgs tm now)) s) as [Hx Hz].
  cbv zeta in Hx, Hz. rewrite Hx, Hz.
  set (a := (CharacterController.phi (CharacterController.this s) + HALF_PI) / 2).
  pose proof (sin2_cos2 a) as Ha. unfold Rsqr in Ha.
  match goal with
  | |- ?l <= _ =>
      replace l with
        ((forwardVelocity
            (CharacterController.inputManager (CharacterController.this s)) ^ 2
          + sideVelocity
              (CharacterController.inputManager (CharacterController.this s)) ^ 2)
         * (snd (TickManager.controlsArgs tm now) * 10) ^ 2)
  end.
  2: { rewrite <- (step_algebra _ _ _ (sin a) (cos a) Ha). ring. }
  destruct (velocity_sq_bound
              (CharacterController.inputManager (CharacterController.this s)))
    as [Hf Hg].
  assert (Hdt : 0 <= snd (TickManager.controlsArgs tm now) <= 0.1).
  { unfold TickManager.controlsArgs, TickManager.timeDiffCapped, Rmin, Rmax.
    cbn [snd].
    repeat match goal with
           | |- context [Rle_dec ?u ?v] => destruct (Rle_dec u v)
           end; lra. }
  generalize dependent (snd (TickManager.controlsArgs tm now)).
  generalize dependent (forwardVelocity
                          (CharacterController.inputManager (CharacterController.this s))).
  generalize dependent (sideVelocity
                          (CharacterController.inputManager (CharacterController.this s))).
  intros g Hg f Hf d _ _ Hd.
  assert (Hk : (d * 10) ^ 2 <= 1) by nra.
  assert (H0 : 0 <= f ^ 2) by nra. assert (H1 : 0 <= g ^ 2) by nra.
  assert (H2 : 0 <= (d * 10) ^ 2) by nra.
  nra.
Qed.

(** ** addPhysics: what it appends and when it raises *)

Section AddPhysicsPaths.

Context {Mesh RigidBodyDesc RigidBody ColliderDesc Collider World Fn : Type}.
Variable mesh_position : Mesh -> Vector3.
Variable geometry_position : Mesh -> option (list R).
Variable geometry_index : Mesh -> option (list N).
Variable rigidBodyDesc : string -> option RigidBodyDesc.
Variable desc_setTranslation : RigidBodyDesc -> R -> R -> R -> RigidBodyDesc.
Variable createRigidBody : World -> RigidBodyDesc -> World * RigidBody.
Variable cuboid : option R -> option R -> option R -> option ColliderDesc.
Variable ball : option R -> option ColliderDesc.
Variable capsule : option R -> option R -> option ColliderDesc.
Variable trimesh : list R -> option (list N) -> option ColliderDesc.
Variable createCollider :
  World -> option ColliderDesc -> RigidBody -> option (World * Collider).

Local Abbreviation Engine := (Physics.Engine Mesh RigidBody Collider World Fn).
Local Abbreviation addPhysics :=
  (Physics.addPhysics Mesh RigidBodyDesc RigidBody ColliderDesc Collider World Fn
     mesh_position geometry_position geometry_index rigidBodyDesc
    desc_setTranslation createRigidBody
     cuboid ball capsule trimesh createCollider).

(** X24. [addPhysics] only ever appends: when it returns an object, the shared
    list is the old one with exactly that object added at the end; when it
    raises, the list is untouched.  The console gains nothing or the one
    diagnostic. *)
Theorem addPhysics_only_appends
    (e : Engine) (m : Mesh) (rigidBodyType : string) (auto : bool)
    (postPhysicsFn : option Fn) (colliderType : option string)
    (colliderSettings : option (gmap string R)) :
  let r := addPhysics e m rigidBodyType auto postPhysicsFn colliderType
             colliderSettings in
  match snd r with
  | Physics.Returned physicsObject =>
      Physics.physicsObjects _ _ _ _ _ (fst r)
        = Physics.physicsObjects _ _ _ _ _ e ++ [physicsObject] /\
      Physics.mesh _ _ _ _ physicsObject = m /\
      Physics.autoAnimate _ _ _ _ physicsObject = auto /\
      Physics.fn _ _ _ _ physicsObject = postPhysicsFn
  | Physics.Thrown =>
      Physics.physicsObjects _ _ _ _ _ (fst r) = Physics.physicsObjects _ _ _ _ _ e
  end /\
  (Physics.console _ _ _ _ _ (fst r) = Physics.console _ _ _ _ _ e \/
   Physics.console _ _ _ _ _ (fst r)
     = Physics.console _ _ _ _ _ e ++ [Physics.COLLIDER_ERROR]).
Proof.
  cbv zeta. unfold Physics.addPhysics.
  destruct (rigidBodyDesc rigidBodyType) as [d0 |]; [| cbn; auto].
  destruct (createRigidBody _ _) as [w1 rb].
  destruct (Physics.colliderDescFor _ _ _ _ _ _ _ _ _ _ _) as [cd |]; [| cbn; auto].
  destruct cd as [d |]; cbn;
    destruct (createCollider _ _ _) as [[w2 col] |]; cbn; auto.
Qed.

(** X25. Two raises before any collider exists.  An unknown rigid-body type
    changes nothing at all.  A cuboid, ball or capsule requested without a
    settings object raises after the rigid body has been created: the world
    keeps the body, and nothing is logged or registered. *)
Theorem addPhysics_raises_early
    (e : Engine) (m : Mesh) (rigidBodyType : string) (auto : bool)
    (postPhysicsFn : option Fn) (colliderType : option string)
    (colliderSettings : option (gmap string R)) :
  (rigidBodyDesc rigidBodyType = None ->
   addPhysics e m rigidBodyType auto postPhysicsFn colliderType colliderSettings
   = (e, Physics.Thrown)) /\
  (forall (d0 : RigidBodyDesc) (w1 : World) (rb : RigidBody) (shape : string),
     rigidBodyDesc rigidBodyType = Some d0 ->
     createRigidBody (Physics.physicsWorld _ _ _ _ _ e)
       (desc_setTranslation d0 (Three.x (mesh_position m))
          (Three.y (mesh_position m)) (Three.z (mesh_position m))) = (w1, rb) ->
     In shape ["cuboid"; "ball"; "capsule"]%string ->
     addPhysics e m rigidBodyType auto postPhysicsFn (Some shape) None
     = (Physics.mkEngine _ _ _ _ _ w1
          (Physics.physicsObjects _ _ _ _ _ e) (Physics.console _ _ _ _ _ e),
        Physics.Thrown)).
Proof.
  split.
  - intros Hd. unfold Physics.addPhysics. rewrite Hd. reflexivity.
  - intros d0 w1 rb shape Hd Hrb Hin.
    unfold Physics.addPhysics. rewrite Hd, Hrb.
    destruct Hin as [<- | [<- | [<- | []]]]; reflexivity.
Qed.

End AddPhysicsPaths.

Lemma addPhysics_raises_early_witness :
  ToyRapier.addPhysics ToyRapier.empty_engine ToyRapier.triangle_mesh "bouncy" true None
    (Some "ball"%string) (Some ∅)
  = (ToyRapier.empty_engine, Physics.Thrown).
Proof.
  apply (proj1 (addPhysics_raises_early
                  ToyRapier.mesh_position ToyRapier.geometry_position
                  ToyRapier.geometry_index ToyRapier.rigidBodyDesc
                  ToyRapier.desc_setTranslation ToyRapier.createRigidBody
                  ToyRapier.cuboid ToyRapier.ball ToyRapier.capsule ToyRapier.trimesh
                  ToyRapier.createCollider
                  ToyRapier.empty_engine ToyRapier.triangle_mesh "bouncy" true None
                  (Some "ball"%string) (Some ∅))).
  reflexivity.
Defined.

(** ** GeneralLoader.load: the file type of a path *)

Lemma split_dot_no_dot (s : string) :
  GeneralLoader.no_dot s = true -> GeneralLoader.split_dot s = [s].
Proof.
  induction s as [| c rest IH]; cbn; [reflexivity |].
  destruct (Ascii.eqb c ".") eqn:Ec; cbn; [discriminate |].
  intros H. rewrite (IH H). reflexivity.
Qed.

Lemma split_dot_last_segment (stem ext : string) :
  GeneralLoader.no_dot ext = true ->
  exists (h : string) (pre : list string),
    GeneralLoader.split_dot (stem ++ "." ++ ext)%string = h :: pre ++ [ext].
Proof.
  intros Hext. induction stem as [| c rest IH].
  - change ("" ++ "." ++ ext)%string with (String "." ext).
    cbn [GeneralLoader.split_dot]. rewrite Ascii.eqb_refl.
    exists EmptyString, []. rewrite (split_dot_no_dot ext Hext). reflexivity.
  - destruct IH as (h & pre & IH).
    change (String c rest ++ "." ++ ext)%string
      with (String c (rest ++ "." ++ ext))%string.
    cbn [GeneralLoader.split_dot]. rewrite IH.
    destruct (Ascii.eqb c ".").
    + exists EmptyString, (h :: pre). reflexivity.
    + exists (String c h), pre. reflexivity.
Qed.

Lemma toLowerCase_no_dot (s : string) :
  GeneralLoader.no_dot (GeneralLoader.toLowerCase s) = GeneralLoader.no_dot s.
Proof.
  induction s as [| c rest IH]; cbn; [reflexivity |].
  rewrite IH. f_equal. f_equal.
  unfold GeneralLoader.lower_char.
  destruct (Nat.leb 65 (nat_of_ascii c) && Nat.leb (nat_of_ascii c) 90)%bool eqn:E;
    [| reflexivity].
  apply andb_true_iff in E. destruct E as [E1 E2].
  apply Nat.leb_le in E1. apply Nat.leb_le in E2.
  destruct (Ascii.eqb c ".") eqn:Ec.
  - apply Ascii.eqb_eq in Ec. subst c.
    change (nat_of_ascii ".") with 46%nat in E1. lia.
  - destruct (Ascii.eqb (ascii_of_nat (nat_of_ascii c + 32)) ".") eqn:Ed; [| reflexivity].
    apply Ascii.eqb_eq in Ed.
    apply (f_equal nat_of_ascii) in Ed.
    rewrite nat_ascii_embedding in Ed by lia.
    change (nat_of_ascii ".") with 46%nat in Ed. lia.
Qed.

Lemma lower_char_idempotent (c : ascii) :
  GeneralLoader.lower_char (GeneralLoader.lower_char c) = GeneralLoader.lower_char c.
Proof.
  unfold GeneralLoader.lower_char.
  destruct (Nat.leb 65 (nat_of_ascii c) && Nat.leb (nat_of_ascii c) 90)%bool eqn:E;
    [| rewrite E; reflexivity].
  apply andb_true_iff in E. destruct E as [E1 E2].
  apply Nat.leb_le in E1. apply Nat.leb_le in E2.
  rewrite nat_ascii_embedding by lia.
  replace (Nat.leb (nat_of_ascii c + 32) 90) with false
    by (symmetry; apply Nat.leb_gt; lia).
  rewrite andb_false_r. reflexivity.
Qed.

Lemma toLowerCase_idempotent (s : string) :
  GeneralLoader.toLowerCase (GeneralLoader.toLowerCase s) = GeneralLoader.toLowerCase s.
Proof.
  induction s as [| c rest IH]; cbn; [reflexivity |].
  rewrite lower_char_idempotent, IH. reflexivity.
Qed.

(** X27. The file type is what follows the last dot of the path, in lower case:
    directories, earlier dots and the case of the extension play no part in
    choosing the loader. *)
Theorem fileType_is_last_extension (stem ext : string) :
  GeneralLoader.no_dot ext = true ->
  GeneralLoader.fileType (stem ++ "." ++ ext)%string
    = Some (GeneralLoader.toLowerCase ext) /\
  GeneralLoader.fileType (stem ++ "." ++ ext)%string
    = GeneralLoader.fileType ("." ++ GeneralLoader.toLowerCase ext)%string.
Proof.
  intros Hext.
  assert (H : forall st e, GeneralLoader.no_dot e = true ->
            GeneralLoader.fileType (st ++ "." ++ e)%string
              = Some (GeneralLoader.toLowerCase e)).
  { intros st e He. unfold GeneralLoader.fileType.
    destruct (split_dot_last_segment st e He) as (h & pre & Hs).
    rewrite Hs. change (h :: pre ++ [e]) with ((h :: pre) ++ [e]).
    rewrite last_snoc. reflexivity. }
  split; [apply H; assumption |].
  rewrite (H stem ext Hext).
  change ("." ++ GeneralLoader.toLowerCase ext)%string
    with ("" ++ "." ++ GeneralLoader.toLowerCase ext)%string.
  rewrite H by (rewrite toLowerCase_no_dot; assumption).
  rewrite toLowerCase_idempotent. reflexivity.
Qed.

Lemma fileType_is_last_extension_witness :
  GeneralLoader.fileType "models/robot.v2.GLTF" = Some "gltf"%string.
Proof.
  exact (proj1 (fileType_is_last_extension "models/robot.v2" "GLTF" eq_refl)).
Defined.

(** X28. A path without any dot is taken whole as its file type: a file named
    like an extension goes to that extension's loader, and the empty path is
    reported as unsupported. *)
Theorem dotless_path_is_its_own_type (path : string) :
  GeneralLoader.no_dot path = true ->
  GeneralLoader.fileType path = Some (GeneralLoader.toLowerCase path) /\
  (GeneralLoader.toLowerCase path = "png"%string ->
   GeneralLoader.load path = GeneralLoader.LoadTexture path) /\
  (path = ""%string ->
   GeneralLoader.load path
   = GeneralLoader.Unsupported "GeneralLoader: File type '' is not supported."
       GeneralLoader.SUPPORTED).
Proof.
  intros Hp.
  assert (H : GeneralLoader.fileType path = Some (GeneralLoader.toLowerCase path)).
  { unfold GeneralLoader.fileType. rewrite (split_dot_no_dot path Hp). reflexivity. }
  split; [exact H |]. split.
  - intros Hl. unfold GeneralLoader.load. rewrite H, Hl. reflexivity.
  - intros ->. reflexivity.
Qed.

Lemma dotless_path_is_its_own_type_witness :
  GeneralLoader.load "PNG" = GeneralLoader.LoadTexture "PNG".
Proof.
  exact (proj1 (proj2 (dotless_path_is_its_own_type "PNG" eq_refl)) eq_refl).
Defined.

(** ** The character's own physics object *)

Section CharacterCapsule.

Context {Sys Mesh RigidBodyDesc RigidBody ColliderDesc Collider World Fn : Type}.
Variable mesh_position : Mesh -> Vector3.
Variable geometry_position : Mesh -> option (list R).
Variable geometry_index : Mesh -> option (list N).
Variable rigidBodyDesc : string -> option RigidBodyDesc.
Variable desc_setTranslation : RigidBodyDesc -> R -> R -> R -> RigidBodyDesc.
Variable createRigidBody : World -> RigidBodyDesc -> World * RigidBody.
Variable cuboid : option R -> option R -> option R -> option ColliderDesc.
Variable ball : option R -> option ColliderDesc.
Variable capsule : option R -> option R -> option ColliderDesc.
Variable trimesh : list R -> option (list N) -> option ColliderDesc.
Variable createCollider :
  World -> option ColliderDesc -> RigidBody -> option (World * Collider).
Variable syncMesh : Mesh -> Collider -> Sys -> Sys.
Variable callFn : Fn -> Sys -> Sys.

Local Abbreviation initCapsule :=
  (initPhysics Mesh RigidBodyDesc RigidBody ColliderDesc Collider World Fn
     mesh_position geometry_position geometry_index rigidBodyDesc
    desc_setTranslation createRigidBody
     cuboid ball capsule trimesh createCollider).

(** X26. The collider asked for the character is a capsule whose radius is half
    the avatar's width and whose half-height plus radius is half the
    avatar's height; the object registered for it is never synchronised
    from the physics world by the tick manager's object loop, which would
    overwrite the position the controller computes. *)
Theorem character_capsule (e : Physics.Engine Mesh RigidBody Collider World Fn)
    (self : Mesh) (av : Avatar.t) :
  Physics.colliderDescFor Mesh ColliderDesc geometry_position geometry_index
    cuboid ball capsule trimesh
    self (Some "capsule"%string) (Some (capsuleSettings av))
  = Physics.Returned
      (capsule (Some (Avatar.height av / 2 - Avatar.width av / 2))
         (Some (Avatar.width av / 2))) /\
  (Avatar.height av / 2 - Avatar.width av / 2) + Avatar.width av / 2
  = Avatar.height av / 2 /\
  (forall physicsObject,
     snd (initCapsule e self av) = Physics.Returned physicsObject ->
     forall sys : Sys,
       TickManager.updateObjects Sys Mesh RigidBody Collider Fn syncMesh callFn
         [physicsObject] sys = sys).
Proof.
  split; [| split].
  - unfold Physics.colliderDescFor, capsuleSettings. cbn [String.eqb Ascii.eqb Bool.eqb].
    cbv zeta. rewrite lookup_insert_eq.
    rewrite lookup_insert_ne by discriminate. rewrite lookup_insert_eq. reflexivity.
  - ring.
  - intros physicsObject Hobj sys.
    assert (Hflags : Physics.autoAnimate _ _ _ _ physicsObject = false /\
                     Physics.fn _ _ _ _ physicsObject = None).
    { unfold initPhysics, Physics.addPhysics in Hobj.
      destruct (rigidBodyDesc _) as [d0 |]; [| discriminate].
      destruct (createRigidBody _ _) as [w1 rb].
      destruct (Physics.colliderDescFor _ _ _ _ _ _ _ _ _ _ _) as [cd |]; [| discriminate].
      destruct (createCollider _ _ _) as [[w2 col] |]; [| discriminate].
      cbn in Hobj. injection Hobj as <-. split; reflexivity. }
    destruct Hflags as [Hauto Hfn].
    unfold TickManager.updateObjects. cbn [fold_left]. rewrite Hauto, Hfn. reflexivity.
Qed.

End CharacterCapsule.

(** ** Scratch objects across frames *)

Section Scratch.

Context {World : Type}.
Variable setTranslation : World -> Vector3 -> World.
Variable castRay :
  World -> Vector3 -> Vector3 -> R -> bool -> QueryFilter -> option R.
Variable lookAt : Vector3 -> Vector3 -> Quaternion.

(** X21. The module-level scratch vectors, quaternions and ray never carry
    anything from one frame into the next: two runs that start from the
    same controller and world end with the same controller and world,
    whatever the scratch objects held at the start. *)
Theorem frames_ignore_scratch
    (frames : list (list InputManager.Event * RenderSize * (R * R)))
    (s s' : CharacterController.State World) :
  same_body s s' ->
  same_body (run_frames setTranslation castRay lookAt s frames)
            (run_frames setTranslation castRay lookAt s' frames).
Proof.
  revert s s'. induction frames as [| [[es ws] [t dt]] rest IH]; intros s s' Hsame.
  - exact Hsame.
  - cbn [run_frames fold_left fst snd]. apply IH.
    destruct s as [c sc w], s' as [c' sc' w']. destruct Hsame as [Hc Hw].
    cbn in Hc, Hw. subst c' w'.
    pose proof (update_ignores_scratch setTranslation castRay lookAt ws t dt
                  (deliver es (CharacterController.mkState c sc' w)) sc) as H.
    destruct H as [H1 H2]. split; [exact H1 | exact H2].
Qed.

End Scratch.

Lemma frames_ignore_scratch_witness :
  same_body
    (run_frames PlaneWorld.setTranslation PlaneWorld.castRay PlaneWorld.lookAt
       (PlaneWorld.start 11.25 0) [([], screen, (1, 0.016))])
    (run_frames PlaneWorld.setTranslation PlaneWorld.castRay PlaneWorld.lookAt
       (CharacterController.set_scratch (PlaneWorld.start 11.25 0)
          (set_vec3_0 initialScratch (mkVector3 7 7 7)))
       [([], screen, (1, 0.016))]).
Proof.
  apply (frames_ignore_scratch PlaneWorld.setTranslation PlaneWorld.castRay
           PlaneWorld.lookAt [([], screen, (1, 0.016))]).
  split; reflexivity.
Defined.

(** ** ZoomController at rest *)

(** X12. Once a frame has taken the progress of a running animation to 1 or
    beyond, the animation is off and the controller no longer changes, frame
    after frame, for as long as the same target is requested. *)
Theorem zoom_rests_after_completion
    (zc : ZoomController.t) (t dt : R) (calls : list (R * R * R)) :
  ZoomController.isAnimating zc = true ->
  1 <= t * SCROLL_ANIMATION_SPEED - ZoomController.startZoomAnimation zc ->
  Forall (fun c => fst (fst c) = ZoomController.lastZoomLevel zc) calls ->
  let done := ZoomController.update zc (ZoomController.lastZoomLevel zc) t dt in
  ZoomController.isAnimating done = false /\
  ZoomController.run done calls = done.
Proof.
  intros Ha Hp Hcalls done.
  destruct (zoom_animation_completes zc t dt Ha Hp) as [Hoff _]. fold done in Hoff.
  split; [exact Hoff |].
  apply zoom_held_while_target_unchanged; [exact Hoff |].
  assert (Hl : ZoomController.lastZoomLevel done = ZoomController.lastZoomLevel zc)
    by reflexivity.
  rewrite Hl. exact Hcalls.
Qed.

Lemma zoom_rests_after_completion_witness :
  ZoomController.run
    (ZoomController.update
       (ZoomController.mkZoomController 0.001 1.5 0 true 0.001) 1.5 0.6 0.1)
    [(1.5, 0.7, 0.1); (1.5, 0.8, 0.1)]
  = ZoomController.update
      (ZoomController.mkZoomController 0.001 1.5 0 true 0.001) 1.5 0.6 0.1.
Proof.
  refine (proj2 (zoom_rests_after_completion
                   (ZoomController.mkZoomController 0.001 1.5 0 true 0.001)
                   0.6 0.1 [(1.5, 0.7, 0.1); (1.5, 0.8, 0.1)] eq_refl _ _)).
  - cbn. unfold SCROLL_ANIMATION_SPEED. lra.
  - repeat constructor.
Defined.
